(* ===== verification/_CoqProject ===== *)
-Q . S2P
Prelude.v
Proc.v
Schema.v
Store.v
Api.v
Auth.v
Users.v
Calendar.v
GoogleAuth.v
Slots.v
Policies.v
Concurrency.v
System.v
Frontend.v
Pages.v
Views.v
RoleSync.v
Witnesses.v
