(* ===== verification/Prelude.v ===== *)
(** * Assignment-Scheduler: a verification development

    This library models the back end of the Assignment-Scheduler
    application (src/backend, src/database) and the logic of its front
    end (src/frontend, src/unnamed/part_001), and proves the properties that make its
    core correct: the slot booking workflow with overlap rejection and
    the two role stores kept in sync.

    ** The program and its parts

    - The persistent store (src/database/schema.sql and
      src/database/migrations/add_user_roles_table.sql): three tables,
      [users], [user_roles] (keyed by email) and [slots], with CHECK
      constraints on roles and statuses, a unique email, and triggers:
      [sync_user_role] (user_roles -> users), [sync_role_to_user_roles]
      (users -> user_roles), [update_updated_at_column] and
      [prevent_self_role_change].  The back end reaches it through the
      Supabase client with the service-role key, so row-level security
      is bypassed and [auth.uid()] is NULL inside triggers.
    - The request handlers (src/backend/src/routes/users.js, which holds
      the three routers users.js, auth.js and slots.js one after the
      other): login with Google ([POST /auth/google]), role
      administration ([PATCH /users/:id/role], [POST /users/roles/email]),
      slot creation with the overlap query, listing, booking with a
      meeting link (src/backend/src/config/googleCalendar.js, with a
      random fallback link) and deletion.
    - The middleware [authenticateToken] / [requireRole] is imported by
      the routers from a file that is not part of the sources; it is
      modelled from the spec (section 4.2) and marked so in the map.
    - The front end (src/frontend/src, and src/unnamed/part_001 which
      holds the FacultySlots and Dashboard pages): React pages that call
      the routes through axios, behind a route table that gates pages
      by the signed-in user's role.  The pages' requests are values of
      [System.Request], so front-end and back-end theorems compose.

    ** Files, in dependency order

    - [Prelude] (this file): notation scope [sched_scope], the hint
      databases [sched] and [sched_rw], the shared tactics and generic
      lemmas on booleans, lists and strings.
    - [Proc]: request handlers as resumable programs over the store:
      each [Atomic] is one store call (one SQL statement with its
      triggers), [run] executes a handler alone, [interleave] runs a
      pool of handlers under an explicit schedule (the races of spec
      section 5), and [all_steps] is a frame condition on every store
      call of a handler.
    - [Schema]: the enumerations of the CHECK constraints ([Role],
      [SlotStatus]), one record per row ([User], [RoleRow], [Slot]), the
      store [DB] as three gmaps with a UUID counter and the clock, and
      PostgREST's [.select().eq()] / [.single()].
    - [Store]: the statements with their triggers.  [users_update] and
      [roles_upsert] are one mutual fixpoint on the nesting depth of
      triggers ([sync_role_to_user_roles] and [sync_user_role] call each
      other), with [prevent_self_role_change] and the UNIQUE checks;
      [dual_write] is the closed form of a role change (spec section 9).
    - [Api]: responses, the JSON bodies (one constructor per key a
      route sends: [{ slots }], [{ bookings }], [{ users }],
      [{ faculties }], ...), and the middleware
      [authenticated] / [guarded] (from the spec: its file is missing).
    - [Auth]: [POST /auth/google] ([resolve_role], [save_user]) and
      [GET /auth/me].
    - [Users]: the admin routes ([get_users], [patch_user_role],
      [post_role_by_email], [get_roles]) and [get_faculties].
    - [Calendar]: the meeting link: [generate_fallback_meet_link] with
      the draws of [Math.random] as an argument,
      [create_calendar_event_with_meet] (the event it inserts, the link
      it reads from the answer of the Calendar API, an argument),
      [event_details], and [generate_calendar_link] with [toISOString]
      and [URLSearchParams] written out.
    - [GoogleAuth]: the rest of googleCalendar.js and the script
      src/backend/scripts/getGoogleToken.js: the module's OAuth2 client
      ([oauth2_client_init]), [get_auth_url], [get_tokens_from_code],
      [create_meet_with_service_account] with its random request id,
      and the script as the sequence of what it does ([token_script]:
      the question, the code check with its early return, the
      exchange, the [catch] and the [finally]); the sign-in client of
      config/google.js (src/unnamed/part_000, [google_login_client]).
    - [Slots]: the slot routes [create_slot] (with the overlap query),
      [get_available], [book_slot], [get_my_bookings], [get_my_slots],
      [delete_slot], and the slot invariants [slots_wf], [slots_disjoint].
    - [Policies]: the row-level security policies of the schema and of
      the migration as predicates on the caller ([auth.uid()]), the row
      and the store, and every write a client with an end user's JWT
      runs under them (UPDATE of users; INSERT, UPDATE and DELETE of
      slots; upsert and DELETE of user_roles); the back end's
      service-role key bypasses them.  The two Supabase clients of
      config/database.js ([supabase_admin], [supabase_anon]) are built
      from the environment, and the role of their key decides whether a
      statement sent through them ([client_slots_delete],
      [client_users_update]) is subject to the policies.
    - [Concurrency]: two schedules of [interleave] that break the
      booking and the creation check.
    - [System]: the [Request] type of all thirteen routes, [handler]
      (the dispatch), the serial [step] relation, the abstract slot
      lifecycle [slot_transition], and the store invariant [system_inv].
    - [Frontend]: the route table of App.jsx with [private_route], the
      Dashboard links, [handle_book_slot] and [group_slots_by_date] of
      AvailableSlots.jsx, the slot form ([create_request]) and Delete
      button of FacultySlots, and the link box of ScholarBookings.
    - [Pages]: the three list pages as clients of [System.serve]: their
      React state as records ([FacultySlotsState], [AvailableSlotsState],
      [ScholarBookingsState]) and each action that changes it
      ([fetch_my_slots], [submit_create_slot], [delete_slot_clicked],
      [fetch_faculties], [fetch_available], [book_slot_clicked],
      [fetch_bookings]) as a function from the page and the store to the
      new page, the toasts raised and the new store; axios's rejection
      of non-2xx answers is the [catch] branch.
    - [Views]: what the three list pages render, as functions of the
      page state and of the users table the list query joined
      ([faculty_slots_view], [available_slots_view],
      [scholar_bookings_view], one card record per page), [None] when
      the JSX throws; the form toggles and filter inputs; the Dashboard
      ([dashboard_view], [DashboardCard] as [dashboard_card]); and
      Login.jsx ([login_view], [handle_google_success],
      [handle_google_error]) with [login_with_google] of AuthContext
      modelled from the spec.
    - [RoleSync]: the role invariant [role_inv] (unique keys, every
      user's role mirrored in user_roles) over every route, the
      migration that fills user_roles from users ([migrate_user_roles]),
      and the round trip from an admin's assignment to the next sign-in.
    - [Witnesses]: a concrete store and requests on which every theorem
      with hypotheses is applied, its hypotheses checked by computation.

    ** What the theorems show

    - Booking (Slots, System): an available slot is booked with the
      caller, notes and link and nothing else changes; a slot that is
      not available answers 404; served one after the other, two
      bookings of one slot succeed once; along every serial execution
      each slot follows the lifecycle (created available, booked once,
      deleted only from available) and a booked slot never changes.
    - Creation (Slots): the overlap filter is exactly interval overlap;
      creation keeps the slots of a faculty on a date disjoint when the
      request's times fall on one local day.
    - Roles (Store, Auth, Users, RoleSync): every UPDATE of users the
      service-role client issues ends its trigger cascade within three
      levels, failing at most with a unique violation (termination);
      an upsert into user_roles ends within four levels and performs one
      dual write (the bound [trigger_depth] = 32
      stands for PostgreSQL's stack limit; any bound of at least four
      gives the same results); the
      login answers with the role recorded in user_roles; nobody
      changes their own role; an admin's role change reaches both
      stores; the migration establishes the role invariant and every
      reachable store keeps it; an assignment by email is what the next
      sign-in answers.
    - Row-level security (Policies): an end user's UPDATE of users
      under the policy never changes a role (the policy admits only the
      caller's row, the trigger refuses the role); the DELETE policy is
      the spec's "only from available", which the route, bypassing it,
      does not enforce; the UPDATE policy lets the owner rewrite a
      booked slot (un-book it, give it to another scholar) and nobody
      else but an admin touch it; the INSERT policy checks only the
      caller's role, so a faculty member inserting through the anon
      client breaks the disjointness and well-formedness that the
      creation route keeps.
    - Concurrency (Concurrency): interleavings where both bookings of a
      slot succeed (a lost update) and where two overlapping slots are
      created.
    - Front end (Frontend): the slot form stores exactly what was typed
      and can never create overlapping slots; each page gate opens
      exactly for the users the page's API admits; the Book button
      agrees with the booking route; the Delete button only targets
      available slots; the Available Slots page shows every slot of the
      answer once, grouped by date in order; after a booking the My
      Bookings page shows its Meet link; every Dashboard link opens.
    - Views (Views): after a booking both pages render it (the
      scholar's card with the faculty, the badge and the Meet box; the
      faculty's card with the scholar and no Delete button); the Login
      page either signs in the user of the verified credential or, on a
      rejection, only logs it and changes nothing; every card of the
      Dashboard links to a page its user may open.
    - Pages (Pages): creating a slot from the form lists it after the
      refresh; an overlapping form shows the server's message and
      changes nothing; booking from the Available Slots page shows the
      link and the refreshed list no longer shows the slot; the pages'
      lists are never [undefined] (the 2xx answers of the list routes
      carry the list under the key the page reads: [slots] for
      My Slots and Available Slots, [bookings] for My Bookings).
    - Google helpers (GoogleAuth): the token script always closes its
      prompt (twice on the no-code path) and prints tokens exactly when
      a non-empty code was exchanged; the service-account request id
      has a random suffix of at most nine base-36 digits.
    - Findings: deletion of cancelled and completed slots, a booking
      stored without a link when the Calendar answer has none, a slot
      across midnight stored with its end before its start (Slots);
      the lost booking and the overlapping creation under interleaving
      (Concurrency); stale user_roles rows kept by the migration
      (RoleSync); the double [rl.close()] and the unchecked refresh
      token of the token script (GoogleAuth); the UTC day as the
      minimum of the form's date input, and a failed sign-in shown to
      nobody (Views); the slots UPDATE and INSERT policies that admit
      rows no route would write (Policies).

    ** Bounds and fuel

    The only bounded recursion is the trigger cascade: [trigger_depth]
    levels, of which the proofs show four are used: an UPDATE of
    users needs three ([users_update_terminates]) and an upsert into
    user_roles four ([roles_upsert_dual_write]), so every bound of at
    least four gives the same results.  A handler needs no fuel: it is
    an inductive tree of store calls, and [run] and [interleave] recur
    on it and on the schedule.  All other recursion is structural
    (lists, strings, the loops of fixed length).  The fallback link
    loops run a fixed 3-4-3 characters.  Times are integers of
    milliseconds ([Z]), with [toTimeString] as a modulus by the day.

    ** What is not modelled

    The HTTP framework, the React runtime, OAuth token cryptography and
    the network are collaborators: their results enter the model as
    arguments of the handlers (the verified token payload, the outcome
    of the Calendar API call, the values of [Math.random]).  Of the
    row-level security policies, the SELECT policies are USING (true)
    and change nothing; indexes and COMMENT statements have no
    behaviour.  [createClient] of
    supabase-js is a collaborator: a client is the URL, key and options
    it is given.  AuthContext, the middleware, the application file,
    Layout and AdminPanel are not among the sources; loginWithGoogle,
    the middleware and the dispatch are modelled from the spec.  Of
    the pages' JSX, styling and icons, the Copy Link button (clipboard)
    and the field-by-field edits of the creation form (modelled as
    submitted whole) are not modelled, nor is the text of console
    lines.  [toISOString] is modelled on JS's time values
    ([|ms| <= 8.64e15]); its RangeError beyond them is not (the model
    prints a date there).  The OAuth2 library,
    URL parsing and the engine's printing of [Math.random()] are
    collaborators given as arguments.
*)

From stdpp Require Export base decidable list gmap strings fin_maps sorting.
From Stdlib Require Export ZArith Lia.

Declare Scope sched_scope.
Delimit Scope sched_scope with sched.

Create HintDb sched.
Create Rewrite HintDb sched_rw.

(** ** Generic lemmas on options, booleans and lists *)

Lemma bool_decide_true_iff (P : Prop) `{Decision P} : bool_decide P = true <-> P.
Proof. apply bool_decide_eq_true. Qed.

Lemma bool_decide_false_iff (P : Prop) `{Decision P} : bool_decide P = false <-> ~ P.
Proof. apply bool_decide_eq_false. Qed.

#[export] Hint Rewrite bool_decide_true_iff bool_decide_false_iff : sched_rw.

(** [existsb] over a list is [true] exactly when some element satisfies the test. *)
Lemma existsb_false_forall {A} (f : A -> bool) (l : list A) :
  existsb f l = false <-> Forall (fun x => f x = false) l.
Proof.
  induction l as [|x l IH]; simpl; [split; auto|].
  rewrite orb_false_iff, Forall_cons, IH. tauto.
Qed.

Lemma filter_nil_forall {A} (P : A -> Prop) `{forall x, Decision (P x)} (l : list A) :
  filter P l = [] <-> Forall (fun x => ~ P x) l.
Proof.
  induction l as [|x l IH]; simpl; [split; auto|].
  rewrite filter_cons, Forall_cons. case_decide; [split; [done|tauto]|].
  rewrite IH. tauto.
Qed.

(** Destruct every [match] or [if] in the goal on a decidable test. *)
Ltac case_tests :=
  repeat first [ case_decide | case_bool_decide | case_match ];
  simplify_eq/=.

(** [alter] on a present key is an [insert] of the altered value. *)
Lemma alter_insert_present {K V} `{Countable K} (f : V -> V) (k : K) (m : gmap K V) v :
  m !! k = Some v -> alter f k m = <[k := f v]> m.
Proof.
  intros Hk. apply map_eq. intros j. rewrite lookup_alter, lookup_insert.
  case_decide; subst; [by rewrite Hk|done].
Qed.

(** ** Strings *)

(** stdpp declares [String.append] [simpl never]; its cons equation. *)
Lemma string_app_cons c (s1 s2 : string) :
  String.append (String c s1) s2 = String c (String.append s1 s2).
Proof. reflexivity. Qed.

Lemma string_app_nil_r (s : string) : String.append s EmptyString = s.
Proof. induction s as [|c s IH]; [done|]. by rewrite string_app_cons, IH. Qed.

Lemma string_app_assoc (s1 s2 s3 : string) :
  String.append (String.append s1 s2) s3 = String.append s1 (String.append s2 s3).
Proof. induction s1 as [|c s IH]; [done|]. by rewrite !string_app_cons, IH. Qed.

Lemma string_length_app (s1 s2 : string) :
  String.length (String.append s1 s2) = String.length s1 + String.length s2.
Proof. induction s1 as [|c s IH]; [done|]. rewrite string_app_cons. simpl. by rewrite IH. Qed.

#[export] Hint Rewrite string_app_cons string_app_nil_r string_app_assoc string_length_app : sched_rw.
