(* ===== verification/Proc.v ===== *)
(** Request handlers as resumable programs over a shared store.

    A handler of the back end awaits one Supabase call after another;
    between two awaits other requests may run (spec section 5: no lock
    serialises requests, ordering comes only from the store).  A
    [proc St A] is such a handler: [Atomic upd k] is one store call that
    changes the store by [upd] and continues with [k] applied to the
    store it observed.  [run] executes a handler alone; [interleave]
    executes a pool of handlers under a schedule that names, step by
    step, the handler whose next store call goes first. *)

From S2P Require Import Prelude.

Section Proc.
Context {St : Type}.

Inductive proc (A : Type) : Type :=
| Ret (a : A)
| Atomic (upd : St -> St) (k : St -> proc A).

Arguments Ret {A} a.
Arguments Atomic {A} upd k.

Fixpoint bind {A B} (p : proc A) (f : A -> proc B) : proc B :=
  match p with
  | Ret a => f a
  | Atomic u k => Atomic u (fun s => bind (k s) f)
  end.

(** A store call that only reads, and one that reads and writes in
    a single statement (an UPDATE ... RETURNING, an INSERT ... SELECT). *)
Definition query {A} (f : St -> A) : proc A := Atomic (fun s : St => s) (fun s => Ret (f s)).
Definition exec {A} (f : St -> A * St) : proc A :=
  Atomic (fun s => snd (f s)) (fun s => Ret (fst (f s))).

(** Running a handler alone: its result and the final store. *)
Fixpoint run {A} (p : proc A) (s : St) : A * St :=
  match p with
  | Ret a => (a, s)
  | Atomic u k => run (k s) (u s)
  end.

(** The number of store calls a handler makes from a given store. *)
Fixpoint steps {A} (p : proc A) (s : St) : nat :=
  match p with
  | Ret _ => 0
  | Atomic u k => S (steps (k s) (u s))
  end.

(** One store call of thread [i] of a pool; [None] if that thread has
    already answered or does not exist. *)
Definition step_at {A} (i : nat) (s : St) (ts : list (proc A)) : option (St * list (proc A)) :=
  match ts !! i with
  | Some (Atomic u k) => Some (u s, <[i := k s]> ts)
  | _ => None
  end.

(** Running a pool under a schedule; a step naming a finished thread is skipped. *)
Fixpoint interleave {A} (sch : list nat) (s : St) (ts : list (proc A)) : St * list (proc A) :=
  match sch with
  | [] => (s, ts)
  | i :: sch' =>
      match step_at i s ts with
      | Some (s', ts') => interleave sch' s' ts'
      | None => interleave sch' s ts
      end
  end.

(** The answer of a finished thread. *)
Definition answer {A} (p : proc A) : option A :=
  match p with Ret a => Some a | Atomic _ _ => None end.

(** The step relation of a pool, for reachability arguments. *)
Inductive pool_step {A} : St * list (proc A) -> St * list (proc A) -> Prop :=
| pool_step_at i s ts s' ts' :
    step_at i s ts = Some (s', ts') -> pool_step (s, ts) (s', ts').

(** A frame condition of a handler: every store call it can make,
    from every store it can observe, relates the store before the call
    to the store after it by [R]. *)
Inductive all_steps {A} (R : St -> St -> Prop) : proc A -> Prop :=
| all_steps_ret a : all_steps R (Ret a)
| all_steps_atomic upd k :
    (forall s, R s (upd s)) -> (forall s, all_steps R (k s)) -> all_steps R (Atomic upd k).

(** Serial execution of a pool: thread 0 alone to its answer, then
    thread 1, and so on. *)
Fixpoint run_serial {A} (ps : list (proc A)) (s : St) : list A * St :=
  match ps with
  | [] => ([], s)
  | p :: ps' =>
      let '(a, s1) := run p s in
      let '(as_, s2) := run_serial ps' s1 in (a :: as_, s2)
  end.

Lemma run_bind {A B} (p : proc A) (f : A -> proc B) s :
  run (bind p f) s = let '(a, s') := run p s in run (f a) s'.
Proof. revert s; induction p as [a|u k IH]; intros s; simpl; auto. Qed.

Lemma run_query {A} (f : St -> A) s : run (query f) s = (f s, s).
Proof. reflexivity. Qed.

Lemma run_exec {A} (f : St -> A * St) s : run (exec f) s = f s.
Proof. unfold exec; simpl. by destruct (f s). Qed.

(** Running a thread alone inside a pool, for exactly its number of
    store calls, is running it alone. *)
Lemma interleave_solo {A} (p : proc A) (ts : list (proc A)) i s :
  ts !! i = Some p ->
  interleave (repeat i (steps p s)) s ts = (snd (run p s), <[i := Ret (fst (run p s))]> ts).
Proof.
  revert ts s; induction p as [a|u k IH]; intros ts s Hi; simpl.
  - by rewrite list_insert_id.
  - unfold step_at; rewrite Hi. rewrite IH.
    + by rewrite list_insert_insert_eq.
    + apply list_lookup_insert_eq. by eapply lookup_lt_Some.
Qed.

Lemma interleave_app {A} (sch1 sch2 : list nat) s (ts : list (proc A)) :
  interleave (sch1 ++ sch2) s ts =
  let '(s', ts') := interleave sch1 s ts in interleave sch2 s' ts'.
Proof.
  revert s ts; induction sch1 as [|i sch IH]; intros s ts; simpl; [done|].
  destruct (step_at i s ts) as [[]|]; apply IH.
Qed.

Section Frame.
Context (R : St -> St -> Prop) `{!PreOrder R}.

Lemma all_steps_bind {A B} (p : proc A) (f : A -> proc B) :
  all_steps R p -> (forall a, all_steps R (f a)) -> all_steps R (bind p f).
Proof. intros Hp Hf. induction Hp; simpl; [done|]. by constructor. Qed.

Lemma all_steps_query {A} (f : St -> A) : all_steps R (query f).
Proof. constructor; [done|]. constructor. Qed.

Lemma all_steps_exec {A} (f : St -> A * St) :
  (forall s, R s (snd (f s))) -> all_steps R (exec f).
Proof. constructor; [done|]. constructor. Qed.

(** A handler run alone relates its initial and final stores by [R]. *)
Lemma all_steps_run {A} (p : proc A) s : all_steps R p -> R s (snd (run p s)).
Proof.
  intros Hp. revert s. induction Hp as [|u k Hu _ IH]; intros s; simpl; [done|].
  etrans; [apply Hu|apply IH].
Qed.

End Frame.

End Proc.

Arguments proc : clear implicits.
Arguments Ret {St A} a.
Arguments Atomic {St A} upd k.

Notation "x <- p ;; q" := (bind p (fun x => q))
  (at level 100, p at next level, right associativity) : sched_scope.
#[export] Hint Rewrite @run_bind @run_query @run_exec : sched_rw.
