(* ===== verification/Schema.v ===== *)
(** The relational data model of src/database/schema.sql and of the
    migration src/database/migrations/add_user_roles_table.sql: the
    enumerations that the CHECK constraints allow, one record per table
    row, and the store as three finite maps keyed like the tables.

    Representation choices.  UUID primary keys are [nat]s drawn from a
    counter [db_next] (uuid_generate_v4 only needs to give a fresh key).
    TIMESTAMP WITH TIME ZONE values are milliseconds since the epoch
    ([Z]), DATE values are day numbers since 1970-01-01 ([Z]) and TIME
    values are seconds since midnight ([Z], in [0, 86400)). *)

From S2P Require Import Prelude.

(** ** Enumerations *)

(** [role VARCHAR(20) ... CHECK (role IN ('scholar', 'faculty', 'admin'))] *)
Inductive Role := Scholar | Faculty | Admin.

#[export] Instance Role_eq_dec : EqDecision Role.
Proof. solve_decision. Defined.

Definition role_to_string (r : Role) : string :=
  match r with
  | Scholar => "scholar"
  | Faculty => "faculty"
  | Admin => "admin"
  end.

(** [['scholar', 'faculty', 'admin'].includes(role)] in the role routes:
    the string is accepted exactly when it names one of the three roles. *)
Definition parse_role (s : string) : option Role :=
  if bool_decide (s = "scholar") then Some Scholar
  else if bool_decide (s = "faculty") then Some Faculty
  else if bool_decide (s = "admin") then Some Admin
  else None.

(** [status ... CHECK (status IN ('available', 'booked', 'cancelled', 'completed'))] *)
Inductive SlotStatus := Available | Booked | Cancelled | Completed.

#[export] Instance SlotStatus_eq_dec : EqDecision SlotStatus.
Proof. solve_decision. Defined.

Definition status_to_string (s : SlotStatus) : string :=
  match s with
  | Available => "available"
  | Booked => "booked"
  | Cancelled => "cancelled"
  | Completed => "completed"
  end.

(** ** Rows *)

(** A row of [users]; its [id] is the key of the map that holds it. *)
Record User := mkUser {
  user_email : string;
  user_name : string;
  user_picture : option string;
  user_google_id : option string;
  user_role : Role;
  user_created_at : Z;
  user_last_login : Z
}.

(** A row of [user_roles]; its [email] is the key of the map. *)
Record RoleRow := mkRoleRow {
  rr_role : Role;
  rr_created_at : Z;
  rr_updated_at : Z
}.

(** A row of [slots] (with the [meeting_link] column of the later
    migration); its [id] is the key of the map. *)
Record Slot := mkSlot {
  slot_faculty_id : nat;
  slot_scholar_id : option nat;
  slot_date : Z;
  slot_start_time : Z;
  slot_end_time : Z;
  slot_status : SlotStatus;
  slot_notes : option string;
  slot_meeting_link : option string;
  slot_created_at : Z;
  slot_updated_at : Z
}.

(** ** The store *)

Record DB := mkDB {
  db_users : gmap nat User;
  db_roles : gmap string RoleRow;
  db_slots : gmap nat Slot;
  db_next : nat;   (** the next fresh UUID *)
  db_clock : Z     (** NOW() of the current transaction *)
}.

Definition set_users (us : gmap nat User) (db : DB) : DB :=
  mkDB us (db_roles db) (db_slots db) (db_next db) (db_clock db).
Definition set_roles (rs : gmap string RoleRow) (db : DB) : DB :=
  mkDB (db_users db) rs (db_slots db) (db_next db) (db_clock db).
Definition set_slots (ss : gmap nat Slot) (db : DB) : DB :=
  mkDB (db_users db) (db_roles db) ss (db_next db) (db_clock db).
Definition bump_next (db : DB) : DB :=
  mkDB (db_users db) (db_roles db) (db_slots db) (S (db_next db)) (db_clock db).

(** ** Row selection as PostgREST does it *)

(** [.select(...).eq(...)...]: the rows of a table that satisfy a filter. *)
Definition select_where {K V} `{Countable K} (P : K -> V -> bool) (m : gmap K V) : list (K * V) :=
  map_to_list (filter (fun kv => P kv.1 kv.2 = true) m).

(** [.single()]: the row when exactly one matches, else the error
    PGRST116 (no row) or the error for several rows, both [None]. *)
Definition single {A} (l : list A) : option A :=
  match l with [x] => Some x | _ => None end.

(** The user with a given email ([.from('users').select(...).eq('email', email).single()]). *)
Definition user_by_email (e : string) (db : DB) : option (nat * User) :=
  single (select_where (fun _ u => bool_decide (user_email u = e)) (db_users db)).

(** ** Integrity constraints of the schema *)

(** [email VARCHAR(255) UNIQUE NOT NULL] on [users]. *)
Definition emails_unique (us : gmap nat User) : Prop :=
  forall i j ui uj, us !! i = Some ui -> us !! j = Some uj ->
    user_email ui = user_email uj -> i = j.

(** [google_id VARCHAR(255) UNIQUE] (NULLs do not collide). *)
Definition google_ids_unique (us : gmap nat User) : Prop :=
  forall i j ui uj g, us !! i = Some ui -> us !! j = Some uj ->
    user_google_id ui = Some g -> user_google_id uj = Some g -> i = j.

(** Keys below [db_next] are the ones already handed out. *)
Definition ids_fresh (db : DB) : Prop :=
  (forall i, is_Some (db_users db !! i) -> i < db_next db) /\
  (forall i, is_Some (db_slots db !! i) -> i < db_next db).
