(* ===== verification/Store.v ===== *)
(** The statements the back end sends to the store, with the triggers
    they fire (src/database/schema.sql and
    src/database/migrations/add_user_roles_table.sql).

    A statement either fails, and then the whole statement with the
    effects of its triggers is rolled back (the caller keeps the store
    it had), or it succeeds with a new store.  The two role-sync
    triggers call each other: an UPDATE of [users.role] fires
    [sync_role_to_user_roles], whose upsert into [user_roles] fires
    [sync_user_role], which updates [users] again.  The cascade is a
    mutual [Fixpoint] on the nesting depth that is left; running out of
    depth is PostgreSQL's "stack depth limit exceeded". *)

From S2P Require Import Prelude Proc Schema.

Inductive DbError :=
| SelfRoleChange      (** RAISE EXCEPTION in prevent_self_role_change *)
| StackDepthExceeded  (** the trigger cascade nests too deep *)
| UniqueViolation     (** a UNIQUE constraint (email, google_id) *)
| NoSingleRow         (** [.single()] saw zero or several rows *)
| PolicyViolation.    (** a new row violates a row-level security policy *)

#[export] Instance DbError_eq_dec : EqDecision DbError.
Proof. solve_decision. Defined.

(** [auth.uid()] inside triggers.  The routers use [supabaseAdmin], the
    client created with the service-role key (config/database.js), so
    there is no end-user JWT and [auth.uid()] is NULL. *)
Definition service_role_uid : option nat := None.

(** Nesting depth available to trigger cascades; a stand-in for
    [max_stack_depth], whose exact reach PostgreSQL does not fix.
    Theorems below show the cascades of this program never need more
    than four levels, so any bound of at least four gives the same
    results. *)
Definition trigger_depth : nat := 32.

(** ** Row updates *)

Definition with_role (r : Role) (u : User) : User :=
  mkUser (user_email u) (user_name u) (user_picture u) (user_google_id u) r
         (user_created_at u) (user_last_login u).

(** [prevent_self_role_change] (BEFORE UPDATE ON users):
    [IF OLD.role != NEW.role AND OLD.id = auth.uid() THEN RAISE EXCEPTION].
    With [auth.uid()] NULL the comparison is NULL and nothing is raised. *)
Definition prevent_self_role_change (uid : option nat) (id : nat) (old new : User) : bool :=
  bool_decide (user_role old <> user_role new) && bool_decide (uid = Some id).

(** A row whose google_id collides with another row's. *)
Definition google_id_taken (us : gmap nat User) (i : nat) (u : User) : bool :=
  match user_google_id u with
  | None => false
  | Some g => existsb (fun jv => bool_decide (jv.1 <> i /\ user_google_id jv.2 = Some g))
                      (map_to_list us)
  end.

Definition email_taken (us : gmap nat User) (i : nat) (u : User) : bool :=
  existsb (fun jv => bool_decide (jv.1 <> i /\ user_email jv.2 = user_email u)) (map_to_list us).

(** The row a user_roles upsert leaves: on insert the new row with
    [created_at] = NOW() and the [updated_at] the statement gives; on
    conflict the role is replaced and [update_updated_at_column]
    (BEFORE UPDATE) sets [updated_at] to NOW(). *)
Definition upserted_role_row (old : option RoleRow) (r : Role) (ts now : Z) : RoleRow :=
  match old with
  | Some row => mkRoleRow r (rr_created_at row) now
  | None => mkRoleRow r now ts
  end.

Fixpoint fold_result {A E} (f : A -> DB -> E + DB) (l : list A) (db : DB) : E + DB :=
  match l with
  | [] => inr db
  | x :: l' => match f x db with inl e => inl e | inr db' => fold_result f l' db' end
  end.

(** [UPDATE users SET <cols> WHERE <sel>]: [f] computes NEW from OLD and
    [role_set] says whether [role] is among the SET columns (the
    condition of the triggers declared [AFTER UPDATE OF role]). *)
Fixpoint users_update (depth : nat) (uid : option nat) (sel : nat -> User -> bool)
    (f : User -> User) (role_set : bool) (db : DB) {struct depth} : DbError + DB :=
  match depth with
  | 0 => inl StackDepthExceeded
  | S d =>
      let rows := select_where sel (db_users db) in
      if existsb (fun iu => prevent_self_role_change uid iu.1 iu.2 (f iu.2)) rows
      then inl SelfRoleChange
      else
        let us := fold_right (fun iu m => <[iu.1 := f iu.2]> m) (db_users db) rows in
        if existsb (fun iu => google_id_taken us iu.1 (f iu.2) || email_taken us iu.1 (f iu.2)) rows
        then inl UniqueViolation
        else
          let db1 := set_users us db in
          if role_set then
            (* sync_role_to_user_roles, once per updated row *)
            fold_result (fun iu d' =>
              if bool_decide (user_role iu.2 = user_role (f iu.2)) then inr d'
              else roles_upsert d uid (user_email (f iu.2)) (user_role (f iu.2)) (db_clock d') d')
              rows db1
          else inr db1
  end
(** [INSERT INTO user_roles (email, role, updated_at) VALUES (...)
    ON CONFLICT (email) DO UPDATE SET role = ..., updated_at = ...],
    then [sync_user_role] (AFTER INSERT OR UPDATE OF role):
    [UPDATE users SET role = NEW.role WHERE email = NEW.email]. *)
with roles_upsert (depth : nat) (uid : option nat) (e : string) (r : Role) (ts : Z) (db : DB)
    {struct depth} : DbError + DB :=
  match depth with
  | 0 => inl StackDepthExceeded
  | S d =>
      let db1 := set_roles (<[e := upserted_role_row (db_roles db !! e) r ts (db_clock db)]>
                              (db_roles db)) db in
      users_update d uid (fun _ u => bool_decide (user_email u = e)) (with_role r) true db1
  end.

(** [INSERT INTO user_roles (email, role) ...] without ON CONFLICT: a
    duplicate email is a unique violation; otherwise [sync_user_role]. *)
Definition roles_insert (depth : nat) (uid : option nat) (e : string) (r : Role) (db : DB)
    : DbError + DB :=
  match db_roles db !! e with
  | Some _ => inl UniqueViolation
  | None => roles_upsert depth uid e r (db_clock db) db
  end.

(** [INSERT INTO users ... RETURNING *] with a fresh UUID. *)
Definition users_insert (u : User) (db : DB) : DbError + (nat * DB) :=
  let i := db_next db in
  if google_id_taken (db_users db) i u || email_taken (db_users db) i u
  then inl UniqueViolation
  else inr (i, bump_next (set_users (<[i := u]> (db_users db)) db)).

(** The SQL function [get_user_role(user_email)]: the role of the
    user_roles row, ['scholar'] when there is none. *)
Definition get_user_role (e : string) (db : DB) : Role :=
  match db_roles db !! e with
  | Some row => rr_role row
  | None => Scholar
  end.

(** The SQL function [set_user_role(user_email, new_role)]. *)
Definition set_user_role (e : string) (r : Role) (db : DB) : DbError + DB :=
  roles_upsert trigger_depth service_role_uid e r (db_clock db) db.

(** ** Statements as store calls of a handler *)

(** A statement sent with [await supabaseAdmin...]: on failure the
    store is left as it was and the error is returned. *)
Definition stmt (f : DB -> DbError + DB) : proc DB (DbError + unit) :=
  exec (fun db => match f db with inl e => (inl e, db) | inr db' => (inr tt, db') end).

Definition stmt_ret {A} (f : DB -> DbError + (A * DB)) : proc DB (DbError + A) :=
  exec (fun db => match f db with inl e => (inl e, db) | inr (a, db') => (inr a, db') end).

(** The UNIQUE constraints of [users] hold. *)
Definition users_ok (us : gmap nat User) : Prop := emails_unique us /\ google_ids_unique us.

(** The effect spec section 9 asks of a role change: one logical write
    of both stores.  The user_roles row for [e] gets role [r]; the user
    with email [e], if any, gets role [r] too.  When that user's role
    changes, the cascade upserts the user_roles row a second time, so
    its [updated_at] is NOW() even on first insert. *)
Definition dual_write (e : string) (r : Role) (ts : Z) (db : DB) : DB :=
  let row := upserted_role_row (db_roles db !! e) r ts (db_clock db) in
  match user_by_email e db with
  | Some (i, u) =>
      if bool_decide (user_role u = r) then set_roles (<[e := row]> (db_roles db)) db
      else set_users (<[i := with_role r u]> (db_users db))
             (set_roles (<[e := mkRoleRow r (rr_created_at row) (db_clock db)]> (db_roles db)) db)
  | None => set_roles (<[e := row]> (db_roles db)) db
  end.

(** The columns the UNIQUE constraints of [users] look at. *)
Definition user_keys (u : User) : string * option string := (user_email u, user_google_id u).

(** Spec section 3: the role of every user mirrors the user_roles row
    of its email. *)
Definition roles_synced (db : DB) : Prop :=
  forall i u, db_users db !! i = Some u ->
    exists row, db_roles db !! user_email u = Some row /\ rr_role row = user_role u.

(** What a statement on the role stores leaves alone: the slots, the
    UUID counter and the set of user ids. *)
Definition role_frame (db db' : DB) : Prop :=
  db_slots db' = db_slots db /\ db_next db' = db_next db /\
  (forall i, is_Some (db_users db' !! i) <-> is_Some (db_users db !! i)).

(** ** Deciding the constraints on a concrete store *)

Definition users_okb (us : gmap nat User) : bool :=
  bool_decide (map_Forall (fun i u => map_Forall (fun j v =>
      user_email u = user_email v -> i = j) us) us) &&
  bool_decide (map_Forall (fun i u => map_Forall (fun j v =>
      user_google_id u = user_google_id v -> user_google_id u <> None -> i = j) us) us).

(** ** Selection lemmas *)

Section Select.
Context {K V : Type} `{Countable K}.

Lemma select_where_single (P : K -> V -> bool) (m : gmap K V) i v :
  m !! i = Some v -> P i v = true ->
  (forall j w, m !! j = Some w -> P j w = true -> j = i) ->
  select_where P m = [(i, v)].
Proof.
  intros Hi Hp Hu. unfold select_where.
  replace (filter _ m) with ({[i := v]} : gmap K V); [apply map_to_list_singleton|].
  apply map_eq; intros j. rewrite map_lookup_filter.
  destruct (decide (j = i)) as [->|Hne].
  - rewrite lookup_singleton_eq, Hi. simpl. by rewrite option_guard_True.
  - rewrite lookup_singleton_ne by congruence.
    destruct (m !! j) as [w|] eqn:E; simpl; [|done].
    rewrite option_guard_False; [done|]. simpl; intros Hp'. apply Hne; eauto.
Qed.

Lemma select_where_nil (P : K -> V -> bool) (m : gmap K V) :
  (forall j w, m !! j = Some w -> P j w = false) -> select_where P m = [].
Proof.
  intros Hn. unfold select_where.
  replace (filter _ m) with (∅ : gmap K V); [apply map_to_list_empty|].
  apply map_eq; intros j. rewrite map_lookup_filter, lookup_empty.
  destruct (m !! j) as [w|] eqn:E; simpl; [|done].
  rewrite option_guard_False; [done|]. simpl. by rewrite (Hn j w E).
Qed.
(** A selection whose filter admits one key only. *)
Lemma select_where_at_most_one (P : K -> V -> bool) (m : gmap K V) i :
  (forall k v, P k v = true -> k = i) ->
  select_where P m = [] \/ exists v, m !! i = Some v /\ P i v = true /\ select_where P m = [(i, v)].
Proof.
  intros Hi. destruct (m !! i) as [v|] eqn:Hv; [destruct (P i v) eqn:Hp|].
  - right. exists v. split_and!; [done|done|]. apply select_where_single; [done|done|].
    intros j w _ Hj. by apply Hi in Hj.
  - left. apply select_where_nil. intros j w Hj. destruct (P j w) eqn:E; [|done].
    pose proof (Hi _ _ E); subst; congruence.
  - left. apply select_where_nil. intros j w Hj. destruct (P j w) eqn:E; [|done].
    pose proof (Hi _ _ E); subst; congruence.
Qed.
End Select.

#[export] Hint Resolve select_where_single select_where_nil : sched.

(** ** The unique constraints under a row update that keeps the keys *)

Lemma email_taken_ok us i u :
  users_ok us -> us !! i = Some u -> email_taken us i u = false.
Proof.
  intros [He _] Hi. unfold email_taken. apply existsb_false_forall, Forall_forall.
  intros [j w] Hin%elem_of_map_to_list. simpl.
  apply bool_decide_eq_false. intros [Hne Heq]. apply Hne. eapply He; eauto.
Qed.

Lemma google_id_taken_ok us i u :
  users_ok us -> us !! i = Some u -> google_id_taken us i u = false.
Proof.
  intros [_ Hg] Hi. unfold google_id_taken. destruct (user_google_id u) as [g|] eqn:Eg; [|done].
  apply existsb_false_forall, Forall_forall.
  intros [j w] Hin%elem_of_map_to_list. simpl.
  apply bool_decide_eq_false. intros [Hne Heq]. apply Hne. eapply Hg; eauto.
Qed.

Lemma users_ok_insert us i u u' :
  users_ok us -> us !! i = Some u ->
  user_email u' = user_email u -> user_google_id u' = user_google_id u ->
  users_ok (<[i := u']> us).
Proof.
  intros [He Hg] Hi Hem Hgi. split.
  - intros j k uj uk Hj Hk Heq.
    rewrite lookup_insert in Hj, Hk. case_decide; case_decide; simplify_eq;
      [done| |  |]; congruence || (eapply He; eauto; congruence).
  - intros j k uj uk g Hj Hk Gj Gk.
    rewrite lookup_insert in Hj, Hk. case_decide; case_decide; simplify_eq;
      [done| | |]; congruence || (eapply Hg; eauto; congruence).
Qed.

(** ** Membership in a selection and in [.single()] *)

Lemma elem_of_select_where {K V} `{Countable K} (P : K -> V -> bool) (m : gmap K V) k v :
  (k, v) ∈ select_where P m <-> m !! k = Some v /\ P k v = true.
Proof. unfold select_where. by rewrite elem_of_map_to_list, map_lookup_filter_Some. Qed.

Lemma single_elem_of {A} (l : list A) x : single l = Some x -> x ∈ l.
Proof. destruct l as [|y [|z l]]; simpl; intros; simplify_eq; set_solver. Qed.

Lemma user_by_email_Some e db i u :
  user_by_email e db = Some (i, u) -> db_users db !! i = Some u /\ user_email u = e.
Proof.
  unfold user_by_email. intros Hs%single_elem_of%elem_of_select_where.
  destruct Hs as [Hi He%bool_decide_eq_true]. done.
Qed.

Lemma user_by_email_unique e db i u :
  users_ok (db_users db) -> db_users db !! i = Some u -> user_email u = e ->
  user_by_email e db = Some (i, u).
Proof.
  intros [He _] Hi Hem. unfold user_by_email.
  rewrite (select_where_single _ _ i u); [done|done|by apply bool_decide_eq_true|].
  intros j w Hj Hw%bool_decide_eq_true. eapply He; eauto. congruence.
Qed.

Lemma user_by_email_None e db :
  user_by_email e db = None ->
  users_ok (db_users db) -> forall i u, db_users db !! i = Some u -> user_email u <> e.
Proof.
  intros Hn Hok i u Hi Hem. by rewrite (user_by_email_unique e db i u) in Hn.
Qed.

Lemma set_users_id db : set_users (db_users db) db = db.
Proof. by destruct db. Qed.

Lemma with_role_id r u : user_role u = r -> with_role r u = u.
Proof. destruct u; simpl; intros ->; done. Qed.

Lemma with_role_role r r' u : with_role r (with_role r' u) = with_role r u.
Proof. by destruct u. Qed.

#[export] Hint Rewrite set_users_id with_role_role : sched_rw.

(** ** The cascade, one statement at a time *)

(** An UPDATE that selects exactly one row and keeps its keys. *)
Lemma users_update_one d uid sel f (role_set : bool) db i u :
  users_ok (db_users db) -> db_users db !! i = Some u -> sel i u = true ->
  (forall j w, db_users db !! j = Some w -> sel j w = true -> j = i) ->
  users_ok (<[i := f u]> (db_users db)) ->
  prevent_self_role_change uid i u (f u) = false ->
  users_update (S d) uid sel f role_set db =
    let db1 := set_users (<[i := f u]> (db_users db)) db in
    if role_set && negb (bool_decide (user_role u = user_role (f u)))
    then roles_upsert d uid (user_email (f u)) (user_role (f u)) (db_clock db) db1
    else inr db1.
Proof.
  intros Hok Hi Hs Hu Hok' Hp. simpl.
  rewrite (select_where_single _ _ i u Hi Hs Hu). simpl. rewrite Hp. simpl.
  rewrite (google_id_taken_ok _ i (f u) Hok'), (email_taken_ok _ i (f u) Hok')
    by apply lookup_insert_eq.
  simpl. destruct role_set; simpl; [|done]. case_bool_decide; simpl; [done|].
  by destruct (roles_upsert _ _ _ _ _ _).
Qed.

(** An UPDATE that selects no row changes nothing. *)
Lemma users_update_none d uid sel f role_set db :
  (forall j w, db_users db !! j = Some w -> sel j w = false) ->
  users_update (S d) uid sel f role_set db = inr db.
Proof.
  intros Hn. simpl. rewrite (select_where_nil _ _ Hn). simpl.
  rewrite set_users_id. by destruct role_set.
Qed.

(** An UPDATE of one row whose new keys collide with another row fails
    with a unique violation and writes nothing. *)
Lemma users_update_taken d uid sel f rs db i u :
  db_users db !! i = Some u -> sel i u = true ->
  (forall j w, db_users db !! j = Some w -> sel j w = true -> j = i) ->
  prevent_self_role_change uid i u (f u) = false ->
  google_id_taken (<[i := f u]> (db_users db)) i (f u) ||
    email_taken (<[i := f u]> (db_users db)) i (f u) = true ->
  users_update (S d) uid sel f rs db = inl UniqueViolation.
Proof.
  intros Hi Hs Hu Hp Ht. simpl. rewrite (select_where_single _ _ i u Hi Hs Hu). simpl.
  rewrite Hp. simpl. by rewrite orb_false_r, Ht.
Qed.

(** One level of [users_update], for the files where it no longer simplifies. *)
Lemma users_update_S d uid sel f rs db :
  users_update (S d) uid sel f rs db =
  let rows := select_where sel (db_users db) in
  if existsb (fun iu => prevent_self_role_change uid iu.1 iu.2 (f iu.2)) rows
  then inl SelfRoleChange
  else
    let us := fold_right (fun iu m => <[iu.1 := f iu.2]> m) (db_users db) rows in
    if existsb (fun iu => google_id_taken us iu.1 (f iu.2) || email_taken us iu.1 (f iu.2)) rows
    then inl UniqueViolation
    else
      let db1 := set_users us db in
      if rs then
        fold_result (fun iu d' =>
          if bool_decide (user_role iu.2 = user_role (f iu.2)) then inr d'
          else roles_upsert d uid (user_email (f iu.2)) (user_role (f iu.2)) (db_clock d') d')
          rows db1
      else inr db1.
Proof. reflexivity. Qed.

Lemma roles_upsert_S d uid e r ts db :
  roles_upsert (S d) uid e r ts db =
  users_update d uid (fun _ u => bool_decide (user_email u = e)) (with_role r) true
    (set_roles (<[e := upserted_role_row (db_roles db !! e) r ts (db_clock db)]> (db_roles db)) db).
Proof. reflexivity. Qed.

(** With the service-role key, the BEFORE UPDATE guard never fires. *)
Lemma prevent_self_role_change_service i old new :
  prevent_self_role_change service_role_uid i old new = false.
Proof. unfold prevent_self_role_change. by rewrite andb_false_r. Qed.

#[export] Hint Rewrite prevent_self_role_change_service : sched_rw.

(** The second, nested upsert of a cascade: the user with email [e]
    already has role [r], so the cascade stops here. *)
Lemma roles_upsert_settled d e r ts db i u :
  users_ok (db_users db) -> db_users db !! i = Some u -> user_email u = e -> user_role u = r ->
  roles_upsert (S (S d)) service_role_uid e r ts db =
  inr (set_roles (<[e := upserted_role_row (db_roles db !! e) r ts (db_clock db)]> (db_roles db)) db).
Proof.
  intros Hok Hi He Hr. rewrite roles_upsert_S.
  rewrite (users_update_one _ _ _ _ _ _ i u); simpl; try done.
  - rewrite with_role_id by done. case_bool_decide; [|congruence]. simpl.
    rewrite insert_id by done. by destruct db.
  - by apply bool_decide_eq_true.
  - intros j w Hj Hw%bool_decide_eq_true. eapply (proj1 Hok); eauto. congruence.
  - by eapply users_ok_insert.
  - apply prevent_self_role_change_service.
Qed.

(** The cascade of an upsert for the email of an existing user. *)
Lemma roles_upsert_user d e r ts db i u :
  users_ok (db_users db) -> user_by_email e db = Some (i, u) ->
  roles_upsert (S (S (S (S d)))) service_role_uid e r ts db = inr (dual_write e r ts db).
Proof.
  intros Hok Hbe. rewrite roles_upsert_S. unfold dual_write. rewrite Hbe.
  apply user_by_email_Some in Hbe as [Hi He].
  rewrite (users_update_one _ _ _ _ _ _ i u); cbn -[roles_upsert]; try done.
  - case_bool_decide as Hr; cbn -[roles_upsert].
    + rewrite with_role_id, insert_id by done. by destruct db.
    + rewrite (roles_upsert_settled _ _ _ _ _ i (with_role r u)); simpl.
      * subst e. rewrite lookup_insert_eq, insert_insert_eq. by destruct db.
      * by eapply users_ok_insert.
      * apply lookup_insert_eq.
      * by rewrite He.
      * done.
  - by apply bool_decide_eq_true.
  - intros j w Hj Hw%bool_decide_eq_true. eapply (proj1 Hok); eauto. congruence.
  - by eapply users_ok_insert.
  - apply prevent_self_role_change_service.
Qed.

(** The upsert for an email no user has: the cascade stops at once. *)
Lemma roles_upsert_no_user d e r ts db :
  users_ok (db_users db) -> user_by_email e db = None ->
  roles_upsert (S (S (S (S d)))) service_role_uid e r ts db = inr (dual_write e r ts db).
Proof.
  intros Hok Hbe. rewrite roles_upsert_S. unfold dual_write. rewrite Hbe.
  rewrite users_update_none; [done|]. intros j w Hj. simpl in Hj.
  apply bool_decide_eq_false. by eapply user_by_email_None.
Qed.

(** C5: The two triggers together perform the dual write of spec section 9,
    and the cascade they start never nests deeper than four levels. *)
Theorem roles_upsert_dual_write d e r ts db :
  users_ok (db_users db) ->
  roles_upsert (S (S (S (S d)))) service_role_uid e r ts db = inr (dual_write e r ts db).
Proof.
  intros Hok. destruct (user_by_email e db) as [[i u]|] eqn:Hbe;
    [by apply (roles_upsert_user _ _ _ _ _ i u)|by apply roles_upsert_no_user].
Qed.

(** An UPDATE of one user row that sets [role] (the login refresh, the
    admin role change): the cascade stops after one upsert into
    user_roles, within three levels. *)
Lemma users_update_synced d sel f db i u :
  users_ok (db_users db) -> db_users db !! i = Some u -> sel i u = true ->
  (forall j w, db_users db !! j = Some w -> sel j w = true -> j = i) ->
  users_ok (<[i := f u]> (db_users db)) ->
  users_update (S (S (S d))) service_role_uid sel f true db =
  inr (let db1 := set_users (<[i := f u]> (db_users db)) db in
       if bool_decide (user_role u = user_role (f u)) then db1
       else set_roles (<[user_email (f u) :=
              upserted_role_row (db_roles db !! user_email (f u)) (user_role (f u))
                (db_clock db) (db_clock db)]> (db_roles db)) db1).
Proof.
  intros Hok Hi Hs Hu Hok'.
  rewrite (users_update_one _ _ _ _ _ _ i u); try done;
    [|apply prevent_self_role_change_service].
  cbn -[roles_upsert]. case_bool_decide; [done|].
  rewrite (roles_upsert_settled _ _ _ _ _ i (f u)); try done.
  apply lookup_insert_eq.
Qed.

(** ** Every cascade ends *)

(** When [email_taken] clears a row, no other row has its email. *)
Lemma email_taken_false_unique us i u j w :
  email_taken us i u = false -> us !! j = Some w -> user_email w = user_email u -> j = i.
Proof.
  unfold email_taken. intros Ht%existsb_false_forall Hj He. rewrite Forall_forall in Ht.
  specialize (Ht (j, w) (proj2 (elem_of_map_to_list _ _ _) Hj)). simpl in Ht.
  apply bool_decide_eq_false in Ht. destruct (decide (j = i)); [done|]. tauto.
Qed.

(** A row rewritten by an UPDATE over rows with distinct keys holds its new value. *)
Lemma fold_insert_lookup (us : gmap nat User) (rows : list (nat * User)) (f : User -> User) i u :
  NoDup rows.*1 -> (i, u) ∈ rows ->
  fold_right (fun iu m => <[iu.1 := f iu.2]> m) us rows !! i = Some (f u).
Proof.
  induction rows as [|[j w] rows IH]; simpl; [set_solver|].
  intros [Hj Hnd]%NoDup_cons [[= -> ->]|Hin]%elem_of_cons; [apply lookup_insert_eq|].
  rewrite lookup_insert_ne; [by apply IH|]. intros ->. apply Hj.
  by apply (list_elem_of_fmap_2 fst _ (i, u)).
Qed.

Lemma fold_result_inv {A} (P : DB -> Prop) (g : A -> DB -> DbError + DB) l db :
  P db -> (forall x d, x ∈ l -> P d -> exists d', g x d = inr d' /\ P d') ->
  exists d', fold_result g l db = inr d' /\ P d'.
Proof.
  revert db. induction l as [|x l IH]; intros db Hdb Hg; simpl; [eauto|].
  destruct (Hg x db) as (d1 & -> & H1); [set_solver|done|].
  apply IH; [done|]. intros y d Hy. apply Hg. set_solver.
Qed.

(** A fold where each step keeps [P], establishes [Q] of its own
    element and keeps [Q] of the others. *)
Lemma fold_result_each {A} (P : DB -> Prop) (Q : A -> DB -> Prop) (g : A -> DB -> DbError + DB) l db :
  P db ->
  (forall x d, x ∈ l -> P d -> exists d', g x d = inr d' /\ P d' /\ Q x d' /\ (forall y, Q y d -> Q y d')) ->
  exists d', fold_result g l db = inr d' /\ P d' /\ (forall x, x ∈ l -> Q x d') /\ (forall y, Q y db -> Q y d').
Proof.
  revert db. induction l as [|x l IH]; intros db Hdb Hg; simpl; [exists db; split_and!; set_solver|].
  destruct (Hg x db) as (d1 & -> & H1 & Hx & Hk); [set_solver|done|].
  destruct (IH d1) as (d' & -> & H' & Hall & Hk'); [done|intros; apply Hg; set_solver|].
  exists d'. split_and!; [done|done| |by auto]. intros y [->|Hy]%elem_of_cons; auto.
Qed.

(** The nested upsert for a row that already has role [r] and whose
    keys no other row holds: the inner UPDATE rewrites the row to
    itself and the cascade stops. *)
Lemma roles_upsert_settled_row d e r ts db i u :
  db_users db !! i = Some u -> user_email u = e -> user_role u = r ->
  email_taken (db_users db) i u = false -> google_id_taken (db_users db) i u = false ->
  roles_upsert (S (S d)) service_role_uid e r ts db =
  inr (set_roles (<[e := upserted_role_row (db_roles db !! e) r ts (db_clock db)]> (db_roles db)) db).
Proof.
  intros Hi He Hr Het Hgt. rewrite roles_upsert_S. simpl.
  rewrite (select_where_single _ _ i u Hi); simpl.
  - rewrite prevent_self_role_change_service, with_role_id, insert_id by done. simpl.
    rewrite Hgt, Het. simpl. rewrite bool_decide_eq_true_2 by done. by destruct db.
  - by apply bool_decide_eq_true.
  - intros j w Hj Hw%bool_decide_eq_true. eapply email_taken_false_unique; eauto. congruence.
Qed.

(** C11: The trigger cascades terminate.  Whatever rows an UPDATE of
    [users] by the service-role client selects and however it rewrites
    them, the cascade it starts ends within three levels of trigger
    nesting: its only possible error is a unique violation, never the
    stack-depth error, and [prevent_self_role_change] never fires. *)
Theorem users_update_terminates d sel f rs db err :
  users_update (S (S (S d))) service_role_uid sel f rs db = inl err -> err = UniqueViolation.
Proof.
  cbn [users_update]. set (rows := select_where sel (db_users db)).
  rewrite (proj2 (existsb_false_forall _ rows))
    by (apply Forall_forall; intros; apply prevent_self_role_change_service).
  set (us := fold_right (fun iu m => <[iu.1 := f iu.2]> m) (db_users db) rows).
  destruct (existsb _ rows) eqn:Ht; [by intros [= <-]|]. destruct rs; [|done].
  match goal with |- fold_result ?g _ _ = _ -> _ =>
    destruct (fold_result_inv (fun d' => db_users d' = us) g rows (set_users us db))
      as (d' & -> & _); [done| |done] end.
  intros [i u] d1 Hin Hd1. apply existsb_false_forall in Ht. rewrite Forall_forall in Ht.
  destruct (proj1 (orb_false_iff _ _) (Ht _ Hin)) as [Hgt Het]. simpl in Hgt, Het. cbn -[roles_upsert].
  case_bool_decide; [eauto|].
  assert (Hl : us !! i = Some (f u))
    by (apply fold_insert_lookup; [apply NoDup_fst_map_to_list|done]).
  rewrite (roles_upsert_settled_row _ _ _ _ _ i (f u)); rewrite ?Hd1; try done.
  eexists; split; [reflexivity|exact Hd1].
Qed.

(** ** Which updates keep the unique keys *)

Lemma users_ok_keys (us us' : gmap nat User) :
  (user_keys <$> us') = (user_keys <$> us) -> users_ok us -> users_ok us'.
Proof.
  intros Hk [He Hg]. split.
  - intros i j ui uj Hi Hj Heq.
    assert (Ki : (user_keys <$> us) !! i = Some (user_keys ui)) by (by rewrite <- Hk, lookup_fmap, Hi).
    assert (Kj : (user_keys <$> us) !! j = Some (user_keys uj)) by (by rewrite <- Hk, lookup_fmap, Hj).
    rewrite lookup_fmap in Ki, Kj.
    destruct (us !! i) as [vi|] eqn:Ei, (us !! j) as [vj|] eqn:Ej; simplify_eq/=.
    unfold user_keys in *. simplify_eq. apply (He i j vi vj Ei Ej); congruence.
  - intros i j ui uj g Hi Hj Gi Gj.
    assert (Ki : (user_keys <$> us) !! i = Some (user_keys ui)) by (by rewrite <- Hk, lookup_fmap, Hi).
    assert (Kj : (user_keys <$> us) !! j = Some (user_keys uj)) by (by rewrite <- Hk, lookup_fmap, Hj).
    rewrite lookup_fmap in Ki, Kj.
    destruct (us !! i) as [vi|] eqn:Ei, (us !! j) as [vj|] eqn:Ej; simplify_eq/=.
    unfold user_keys in *. simplify_eq. apply (Hg i j vi vj g Ei Ej); congruence.
Qed.

Lemma user_keys_insert (us : gmap nat User) i u u' :
  us !! i = Some u -> user_keys u' = user_keys u ->
  (user_keys <$> <[i := u']> us) = (user_keys <$> us).
Proof.
  intros Hi Hk. rewrite fmap_insert, Hk. apply insert_id. by rewrite lookup_fmap, Hi.
Qed.

Lemma dual_write_keys e r ts db :
  (user_keys <$> db_users (dual_write e r ts db)) = (user_keys <$> db_users db).
Proof.
  unfold dual_write. destruct (user_by_email e db) as [[i u]|] eqn:Hbe; [|done].
  pose proof (user_by_email_Some _ _ _ _ Hbe) as [Hi _].
  case_bool_decide; [done|]. simpl. apply (user_keys_insert _ i u); [done|by destruct u].
Qed.

Lemma dual_write_users_ok e r ts db :
  users_ok (db_users db) -> users_ok (db_users (dual_write e r ts db)).
Proof. apply users_ok_keys, dual_write_keys. Qed.

Lemma dual_write_role_row e r ts db :
  exists row, db_roles (dual_write e r ts db) !! e = Some row /\ rr_role row = r.
Proof.
  unfold dual_write. destruct (user_by_email e db) as [[i u]|]; [case_bool_decide|];
    simpl; rewrite lookup_insert_eq; eexists; split; eauto; by destruct (db_roles db !! e).
Qed.

(** After a dual write, the user with email [e] has role [r] and every
    other user row is unchanged. *)
Lemma dual_write_users e r ts db j w :
  users_ok (db_users db) -> db_users (dual_write e r ts db) !! j = Some w ->
  exists v, db_users db !! j = Some v /\
    (if bool_decide (user_email v = e) then w = with_role r v else w = v).
Proof.
  intros Hok. unfold dual_write. destruct (user_by_email e db) as [[i u]|] eqn:Hbe.
  - pose proof Hbe as [Hi He]%user_by_email_Some.
    case_bool_decide as Hr; simpl.
    + intros Hj. exists w. split; [done|]. case_bool_decide; [|done].
      assert (j = i) as -> by (eapply (proj1 Hok); eauto; congruence).
      simplify_eq. by rewrite with_role_id.
    + rewrite lookup_insert. case_decide as Hji; intros Hj.
      * subst. simplify_eq. exists u. split; [done|]. by rewrite bool_decide_eq_true_2.
      * exists w. split; [done|]. case_bool_decide; [|done].
        exfalso. apply Hji. eapply (proj1 Hok); eauto. congruence.
  - simpl. intros Hj. exists w. split; [done|]. case_bool_decide; [|done].
    exfalso. by eapply user_by_email_None.
Qed.

Lemma dual_write_synced e r ts db :
  users_ok (db_users db) -> roles_synced db -> roles_synced (dual_write e r ts db).
Proof.
  intros Hok Hs j w Hj.
  destruct (dual_write_users e r ts db j w Hok Hj) as (v & Hv & Hw).
  case_bool_decide as He; subst.
  - destruct (dual_write_role_row (user_email v) r ts db) as (row & Hrow & Hr).
    exists row. destruct v; simpl in *. auto.
  - destruct (Hs j v Hv) as (row & Hrow & Hr). exists row. split; [|done].
    unfold dual_write. destruct (user_by_email e db) as [[i u]|]; [case_bool_decide|]; simpl;
      by rewrite lookup_insert_ne by congruence.
Qed.

#[export] Instance role_frame_preorder : PreOrder role_frame.
Proof.
  split; [done|]. intros a b c (Sab & Nab & Kab) (Sbc & Nbc & Kbc).
  split_and!; [congruence|congruence|]. intros i. by rewrite Kbc, Kab.
Qed.

Lemma select_where_keys {K V} `{Countable K} (P : K -> V -> bool) (m : gmap K V) :
  Forall (fun kv => is_Some (m !! kv.1)) (select_where P m).
Proof. apply Forall_forall. intros [k v] [Hk _]%elem_of_select_where. by exists v. Qed.

(** Rewriting rows that exist keeps the set of keys. *)
Lemma fold_insert_keys (us : gmap nat User) (rows : list (nat * User)) (f : User -> User) :
  Forall (fun iu => is_Some (us !! iu.1)) rows ->
  forall i, is_Some (fold_right (fun iu m => <[iu.1 := f iu.2]> m) us rows !! i) <-> is_Some (us !! i).
Proof.
  induction 1 as [|[j w] rows Hj _ IH]; intros i; simpl; [done|].
  rewrite lookup_insert_is_Some', IH. simpl in Hj. split; [intros [<-|?]|]; auto.
Qed.

Lemma fold_result_frame {A} (R : DB -> DB -> Prop) `{!PreOrder R} (f : A -> DB -> DbError + DB) l db db' :
  (forall x d d', f x d = inr d' -> R d d') -> fold_result f l db = inr db' -> R db db'.
Proof.
  intros Hf. revert db. induction l as [|x l IH]; intros db; simpl; [by intros [= ->]|].
  destruct (f x db) as [e|d1] eqn:E; [done|]. intros H. etrans; [exact (Hf _ _ _ E)|exact (IH _ H)].
Qed.

(** The trigger cascade touches only the role columns and user_roles:
    whatever its depth, a successful statement keeps the slots, the
    counter and the user ids. *)
Lemma cascade_frame depth :
  (forall uid sel f rs db db', users_update depth uid sel f rs db = inr db' -> role_frame db db') /\
  (forall uid e r ts db db', roles_upsert depth uid e r ts db = inr db' -> role_frame db db').
Proof.
  induction depth as [|d [IHu IHr]]; [split; discriminate|]. split.
  - intros uid sel f rs db db'. simpl.
    assert (H1 : role_frame db (set_users (fold_right (fun iu m => <[iu.1 := f iu.2]> m) (db_users db)
                   (select_where sel (db_users db))) db))
      by (split_and!; [done|done|]; apply fold_insert_keys, select_where_keys).
    destruct (existsb _ _); [done|]. destruct (existsb _ _); [done|].
    destruct rs; [|by intros [= <-]]. intros H. etrans; [exact H1|].
    revert H. apply (fold_result_frame role_frame).
    intros x d1 d2 Hx. repeat case_match; simplify_eq; first [reflexivity | by eapply IHr].
  - intros uid e r ts db db' H. etrans; [|exact (IHu _ _ _ _ _ _ H)]. by split_and!.
Qed.

Lemma all_steps_stmt (R : DB -> DB -> Prop) `{!PreOrder R} f :
  (forall db db', f db = inr db' -> R db db') -> all_steps R (stmt f).
Proof. intros Hf. apply all_steps_exec. intros db. simpl. destruct (f db) eqn:E; simpl; [done|eauto]. Qed.

Lemma all_steps_stmt_ret {A} (R : DB -> DB -> Prop) `{!PreOrder R} (f : DB -> DbError + (A * DB)) :
  (forall db a db', f db = inr (a, db') -> R db db') -> all_steps R (stmt_ret f).
Proof.
  intros Hf. apply all_steps_exec. intros db. simpl.
  destruct (f db) as [|[a db']] eqn:E; simpl; [done|eauto].
Qed.

Lemma trigger_depth_unfold : trigger_depth = S (S (S (S 28))).
Proof. reflexivity. Qed.

(** The same at the depth the statements run with. *)
Lemma roles_upsert_trigger_depth e r ts db :
  users_ok (db_users db) ->
  roles_upsert trigger_depth service_role_uid e r ts db = inr (dual_write e r ts db).
Proof.
  intros Hok. rewrite trigger_depth_unfold. destruct (user_by_email e db) as [[i u]|] eqn:Hbe;
    [by apply (roles_upsert_user _ _ _ _ _ i u)|by apply roles_upsert_no_user].
Qed.

(** Handler proofs rewrite with the closed forms above instead of
    unfolding a cascade of depth [trigger_depth]. *)
#[global] Arguments users_update : simpl never.
#[global] Arguments roles_upsert : simpl never.

(** Writing a row whose keys no other row holds keeps the constraints. *)
Lemma users_ok_insert_untaken us i u :
  users_ok us -> email_taken us i u = false -> google_id_taken us i u = false ->
  users_ok (<[i := u]> us).
Proof.
  intros [He Hg] Het Hgt.
  assert (HE : forall j w, us !! j = Some w -> j <> i -> user_email w <> user_email u).
  { intros j w Hj Hne Heq. unfold email_taken in Het.
    rewrite existsb_false_forall, Forall_forall in Het.
    specialize (Het (j, w) (proj2 (elem_of_map_to_list _ _ _) Hj)).
    apply bool_decide_eq_false in Het. by apply Het. }
  assert (HG : forall j w g, us !! j = Some w -> j <> i -> user_google_id u = Some g ->
                 user_google_id w <> Some g).
  { intros j w g Hj Hne Hu Hw. unfold google_id_taken in Hgt. rewrite Hu in Hgt.
    rewrite existsb_false_forall, Forall_forall in Hgt.
    specialize (Hgt (j, w) (proj2 (elem_of_map_to_list _ _ _) Hj)).
    apply bool_decide_eq_false in Hgt. by apply Hgt. }
  split.
  - intros j k uj uk Hj Hk Heq. rewrite lookup_insert in Hj, Hk.
    destruct (decide (i = j)) as [<-|Hij], (decide (i = k)) as [<-|Hik]; simplify_eq/=; [done| | |].
    + exfalso. apply (HE k uk Hk); congruence.
    + exfalso. apply (HE j uj Hj); congruence.
    + eauto.
  - intros j k uj uk g Hj Hk Gj Gk. rewrite lookup_insert in Hj, Hk.
    destruct (decide (i = j)) as [<-|Hij], (decide (i = k)) as [<-|Hik]; simplify_eq/=; [done| | |].
    + exfalso. by apply (HG k uk g Hk).
    + exfalso. by apply (HG j uj g Hj).
    + eauto.
Qed.

Lemma get_user_role_dual_write e r ts db : get_user_role e (dual_write e r ts db) = r.
Proof.
  unfold get_user_role. destruct (dual_write_role_row e r ts db) as (row & -> & <-). done.
Qed.

(** Repeating the users half of a dual write changes nothing: the
    user with email [e] already has role [r]. *)
Lemma users_update_after_dual_write d e r ts db :
  users_ok (db_users db) ->
  users_update (S (S (S d))) service_role_uid (fun _ u => bool_decide (user_email u = e))
    (with_role r) true (dual_write e r ts db) = inr (dual_write e r ts db).
Proof.
  intros Hok. pose proof (dual_write_users_ok e r ts db Hok) as Hok'.
  destruct (user_by_email e (dual_write e r ts db)) as [[i u]|] eqn:Hbe.
  - apply user_by_email_Some in Hbe as [Hi He].
    destruct (dual_write_users e r ts db i u Hok Hi) as (v & Hv & Hu).
    destruct (decide (user_email v = e)) as [Hve|Hve];
      [rewrite bool_decide_eq_true_2 in Hu by done|rewrite bool_decide_eq_false_2 in Hu by done];
      subst u; [|done].
    rewrite (users_update_synced _ _ _ _ i (with_role r v)); try done.
    + rewrite with_role_role, insert_id by done. simpl.
      rewrite bool_decide_eq_true_2 by by destruct v. by destruct (dual_write e r ts db).
    + by apply bool_decide_eq_true.
    + intros j w Hj Hw%bool_decide_eq_true. eapply (proj1 Hok'); eauto. by subst.
    + by rewrite with_role_role, insert_id.
  - rewrite users_update_none; [done|]. intros j w Hj.
    apply bool_decide_eq_false. by eapply user_by_email_None.
Qed.

(** After a dual write for a user's email, that user holds the new role. *)
Lemma dual_write_lookup_user r ts db i u :
  users_ok (db_users db) -> db_users db !! i = Some u ->
  db_users (dual_write (user_email u) r ts db) !! i = Some (with_role r u).
Proof.
  intros Hok Hi. unfold dual_write. rewrite (user_by_email_unique _ _ i u) by done.
  case_bool_decide; simpl.
  - by rewrite with_role_id.
  - apply lookup_insert_eq.
Qed.

(** The UPDATE by id that follows a role change of user [t] changes
    nothing more: the dual write already gave [t] the role. *)
Lemma users_update_by_id_after_dual_write r ts db t tu :
  users_ok (db_users db) -> db_users db !! t = Some tu ->
  users_update trigger_depth service_role_uid (fun j _ => bool_decide (j = t)) (with_role r) true
    (dual_write (user_email tu) r ts db) = inr (dual_write (user_email tu) r ts db).
Proof.
  intros Hok Ht. rewrite trigger_depth_unfold.
  pose proof (dual_write_users_ok (user_email tu) r ts db Hok) as Hok'.
  pose proof (dual_write_lookup_user r ts db t tu Hok Ht) as Ht'.
  rewrite (users_update_synced _ _ _ _ t (with_role r tu)); try done.
  - rewrite with_role_role, insert_id by done. simpl.
    rewrite bool_decide_eq_true_2 by by destruct tu. by destruct (dual_write (user_email tu) r ts db).
  - by apply bool_decide_eq_true.
  - by intros j w _ ->%bool_decide_eq_true.
  - by rewrite with_role_role, insert_id.
Qed.

Lemma select_where_nil_inv {K V} `{Countable K} (P : K -> V -> bool) (m : gmap K V) :
  select_where P m = [] -> forall k v, m !! k = Some v -> P k v = false.
Proof.
  intros Hn k v Hk. destruct (P k v) eqn:Hp; [|done].
  assert (Hin : (k, v) ∈ select_where P m) by (by apply elem_of_select_where).
  rewrite Hn in Hin. set_solver.
Qed.

Lemma users_okb_sound us : users_okb us = true -> users_ok us.
Proof.
  unfold users_okb. rewrite andb_true_iff, !bool_decide_eq_true.
  intros [He Hg]. split.
  - intros i j ui uj Hi Hj Heq. exact (He i ui Hi j uj Hj Heq).
  - intros i j ui uj g Hi Hj Gi Gj. apply (Hg i ui Hi j uj Hj); congruence.
Qed.
