(* ===== verification/Api.v ===== *)
(** The HTTP surface of the routers: what a handler answers
    ([res.status(code).json(body)]), the claims a token carries, and
    the middleware [authenticateToken] / [requireRole] that every router
    applies first.  The middleware lives in middleware/auth.js, which is
    not among the sources: it is modelled from the spec (sections 4.2
    and 6) and from what the routers read of [req.user]: a request
    carries a valid token or fails with 401, and [requireRole(...roles)]
    passes when the caller's role is listed, else 403. *)

From S2P Require Import Prelude Proc Schema Store.

Local Open Scope sched_scope.

(** [jwt.sign({ userId: user.id, email: user.email, role: user.role }, ...)] *)
Record Claims := mkClaims {
  claim_user_id : nat;
  claim_email : string;
  claim_role : Role
}.

(** The JSON bodies the handlers send. *)
Inductive Body :=
| JError (msg : string)                        (** [{ error: msg }] *)
| JValidationErrors                            (** [{ errors: errors.array() }] *)
| JMessage (msg : string)                      (** [{ message: msg }] *)
| JAuth (token : Claims) (id : nat) (u : User) (** [{ token, user }] *)
| JUser (id : nat) (u : User)                  (** [{ user }] *)
| JUsers (us : list (nat * User))              (** [{ users }] *)
| JFaculties (fs : list (nat * User))          (** [{ faculties }] *)
| JRoles (rs : list (string * RoleRow))        (** [{ roles }] *)
| JRoleAssigned (email : string) (r : Role) (user_exists : bool)
| JSlot (id : nat) (s : Slot)                  (** [{ slot, message }] *)
| JSlots (ss : list (nat * Slot))              (** [{ slots }] *)
| JBookings (bs : list (nat * Slot))           (** [{ bookings }] *)
| JBooked (id : nat) (s : Slot) (meeting_link : option string) (calendar_link : string).

Record Response := mkResponse { status : Z; body : Body }.

Definition respond (code : Z) (b : Body) : proc DB Response := Ret (mkResponse code b).

(** The outcome of JWT verification for a request: the [userId] claim
    of a valid bearer token, or [None] when it is missing or invalid. *)
Definition Token := option nat.

(** [authenticateToken]: the handlers read [req.user.id],
    [req.user.email] and [req.user.name], which the token does not
    carry, so the middleware loads the [users] row of the token's user;
    a token whose user has no row is refused. *)
Definition authenticated (tok : Token) (k : nat -> User -> proc DB Response) : proc DB Response :=
  match tok with
  | None => respond 401 (JError "Access token required")
  | Some uid =>
      row <- query (fun db => db_users db !! uid) ;;
      match row with
      | None => respond 401 (JError "Invalid token")
      | Some me => k uid me
      end
  end.

(** [authenticateToken] then [requireRole(...roles)]: the current role
    of the row must be listed. *)
Definition guarded (tok : Token) (roles : list Role) (k : nat -> User -> proc DB Response)
    : proc DB Response :=
  authenticated tok (fun uid me =>
    if bool_decide (user_role me ∈ roles) then k uid me
    else respond 403 (JError "Insufficient permissions")).

Lemma run_guarded_forbidden uid me roles k db :
  db_users db !! uid = Some me -> user_role me ∉ roles ->
  run (guarded (Some uid) roles k) db = (mkResponse 403 (JError "Insufficient permissions"), db).
Proof. intros Hme Hn. simpl. rewrite Hme. simpl. by rewrite bool_decide_eq_false_2. Qed.

Lemma run_guarded_pass uid me roles k db :
  db_users db !! uid = Some me -> user_role me ∈ roles ->
  run (guarded (Some uid) roles k) db = run (k uid me) db.
Proof. intros Hme Hin. simpl. rewrite Hme. simpl. by rewrite bool_decide_eq_true_2. Qed.

Lemma run_guarded_unknown uid roles k db :
  db_users db !! uid = None ->
  run (guarded (Some uid) roles k) db = (mkResponse 401 (JError "Invalid token"), db).
Proof. intros Hn. simpl. by rewrite Hn. Qed.

Lemma run_authenticated uid me k db :
  db_users db !! uid = Some me -> run (authenticated (Some uid) k) db = run (k uid me) db.
Proof. intros Hme. simpl. by rewrite Hme. Qed.

Lemma admin_listed me : user_role me = Admin -> user_role me ∈ [Admin].
Proof. intros ->. by constructor. Qed.

Lemma admin_unlisted me : user_role me <> Admin -> user_role me ∉ [Admin].
Proof. intros Hne Hin%list_elem_of_singleton. done. Qed.

#[export] Hint Resolve admin_listed admin_unlisted : sched.
