(* ===== verification/Auth.v ===== *)
(** The authentication router (the second router of
    src/backend/src/routes/users.js, lines 173-323): [POST /google]
    signs a user in with a verified Google ID token, creating or
    refreshing the [users] row and taking the role from [user_roles];
    [GET /me] returns the row of the token's user.

    The Google verification ([googleClient.verifyIdToken]) and JWT
    verification are collaborators: their outcomes are arguments. *)

From S2P Require Import Prelude Proc Schema Store Api.

Local Open Scope sched_scope.

(** The fields the handler reads from [ticket.getPayload()]. *)
Record Payload := mkPayload {
  p_email : string;
  p_name : string;
  p_picture : option string;
  p_sub : string   (** the Google account id, stored as [google_id] *)
}.

(** The row inserted for a first login ([created_at] and [last_login]
    take their DEFAULT NOW()). *)
Definition new_user (p : Payload) (r : Role) (now : Z) : User :=
  mkUser (p_email p) (p_name p) (p_picture p) (Some (p_sub p)) r now now.

(** [.update({ name, picture, google_id: googleId, role: userRole,
    last_login: new Date().toISOString() })] *)
Definition login_refresh (p : Payload) (r : Role) (now : Z) (u : User) : User :=
  mkUser (user_email u) (p_name p) (p_picture p) (Some (p_sub p)) r (user_created_at u) now.

(** [.from('users').insert([...]).select().single()] *)
Definition insert_new_user (p : Payload) (r : Role) (db : DB) : DbError + ((nat * User) * DB) :=
  let u := new_user p r (db_clock db) in
  match users_insert u db with
  | inl e => inl e
  | inr (i, db') => inr ((i, u), db')
  end.

(** [.from('users').update({...}).eq('id', user.id).select().single()] *)
Definition refresh_user (p : Payload) (r : Role) (now : Z) (i : nat) (db : DB)
    : DbError + ((nat * User) * DB) :=
  match users_update trigger_depth service_role_uid (fun j _ => bool_decide (j = i))
          (login_refresh p r now) true db with
  | inl e => inl e
  | inr db' => match db_users db' !! i with
               | Some u => inr ((i, u), db')
               | None => inl NoSingleRow
               end
  end.

(** Lines 198-215: the role from [user_roles], or ['scholar'] with a
    default row inserted (the insert's result is not checked). *)
Definition resolve_role (e : string) : proc DB Role :=
  roleData <- query (fun db => db_roles db !! e) ;;
  match roleData with
  | Some row => Ret (rr_role row)
  | None =>
      _ <- stmt (roles_insert trigger_depth service_role_uid e Scholar) ;;
      Ret Scholar
  end.

(** Lines 217-269: look the user up by email; insert a new row, or
    refresh the existing one and sync its role. *)
Definition save_user (p : Payload) (r : Role) (now : Z) : proc DB (DbError + (nat * User)) :=
  found <- query (fun db => select_where (fun _ u => bool_decide (user_email u = p_email p))
                                         (db_users db)) ;;
  match found with
  | [] => stmt_ret (insert_new_user p r)
  | [(i, _)] => stmt_ret (refresh_user p r now i)
  | _ => Ret (inl NoSingleRow)  (* fetchError other than PGRST116 *)
  end.

(** [router.post('/google', ...)]: [token] is [req.body.token],
    [verified] the payload [verifyIdToken] yields ([None]: it throws),
    [now] the server clock. *)
Definition google_login (token : option string) (verified : option Payload) (now : Z)
    : proc DB Response :=
  match token with
  | None => respond 400 (JError "Token is required")
  | Some _ =>
  match verified with
  | None => respond 500 (JError "Authentication failed")
  | Some p =>
      userRole <- resolve_role (p_email p) ;;
      saved <- save_user p userRole now ;;
      match saved with
      | inl _ => respond 500 (JError "Authentication failed")
      | inr (i, u) =>
          respond 200 (JAuth (mkClaims i (user_email u) (user_role u)) i u)
      end
  end
  end.

(** [router.get('/me', ...)]: [has_token] says whether the header holds
    a bearer token, [decoded] is what [jwt.verify] yields ([None]: it
    throws). *)
Definition get_me (has_token : bool) (decoded : option Claims) : proc DB Response :=
  if negb has_token then respond 401 (JError "Access token required")
  else match decoded with
  | None => respond 403 (JError "Invalid or expired token")
  | Some c =>
      row <- query (fun db => db_users db !! claim_user_id c) ;;
      match row with
      | None => respond 404 (JError "User not found")
      | Some u => respond 200 (JUser (claim_user_id c) u)
      end
  end.

(** The payload's Google account id is held by no row of another email. *)
Definition google_id_free (p : Payload) (db : DB) : Prop :=
  map_Forall (fun _ w => user_google_id w = Some (p_sub p) -> user_email w = p_email p)
             (db_users db).

(** ** Phase lemmas *)

Lemma resolve_role_spec e db :
  users_ok (db_users db) ->
  run (resolve_role e) db =
    (get_user_role e db,
     match db_roles db !! e with
     | Some _ => db
     | None => dual_write e Scholar (db_clock db) db
     end).
Proof.
  intros Hok. unfold resolve_role, get_user_role. simpl.
  destruct (db_roles db !! e) eqn:E; [done|]. simpl.
  unfold roles_insert. rewrite E, roles_upsert_trigger_depth by done.
  done.
Qed.

Lemma select_email_nil e db :
  (forall j w, db_users db !! j = Some w -> user_email w <> e) ->
  select_where (fun _ u => bool_decide (user_email u = e)) (db_users db) = [].
Proof. intros Hn. apply select_where_nil. intros j w Hj. apply bool_decide_eq_false. eauto. Qed.

Lemma select_email_one e db i u :
  users_ok (db_users db) -> db_users db !! i = Some u -> user_email u = e ->
  select_where (fun _ u => bool_decide (user_email u = e)) (db_users db) = [(i, u)].
Proof.
  intros Hok Hi He. apply select_where_single; [done|by apply bool_decide_eq_true|].
  intros j w Hj Hw%bool_decide_eq_true. eapply (proj1 Hok); eauto. congruence.
Qed.

Lemma save_user_insert p r now db :
  users_ok (db_users db) -> google_id_free p db ->
  (forall j w, db_users db !! j = Some w -> user_email w <> p_email p) ->
  run (save_user p r now) db =
    (inr (db_next db, new_user p r (db_clock db)),
     bump_next (set_users (<[db_next db := new_user p r (db_clock db)]> (db_users db)) db)).
Proof.
  intros Hok Hfree Hnone. unfold save_user. simpl. rewrite select_email_nil by done. simpl.
  unfold insert_new_user, users_insert.
  replace (email_taken _ _ _) with false.
  2:{ symmetry. apply existsb_false_forall, Forall_forall. intros [j w] Hj%elem_of_map_to_list.
      apply bool_decide_eq_false. simpl. intros [_ ?]. by eapply Hnone. }
  replace (google_id_taken _ _ _) with false; [done|].
  symmetry. unfold google_id_taken. simpl. apply existsb_false_forall, Forall_forall.
  intros [j w] Hj%elem_of_map_to_list. apply bool_decide_eq_false. simpl.
  intros [_ Hg]. by eapply Hnone, Hfree.
Qed.

Lemma save_user_refresh p r now db i u :
  users_ok (db_users db) -> google_id_free p db ->
  db_users db !! i = Some u -> user_email u = p_email p ->
  run (save_user p r now) db =
    (inr (i, login_refresh p r now u),
     let db1 := set_users (<[i := login_refresh p r now u]> (db_users db)) db in
     if bool_decide (user_role u = r) then db1
     else set_roles (<[p_email p := upserted_role_row (db_roles db !! p_email p) r
                                     (db_clock db) (db_clock db)]> (db_roles db)) db1).
Proof.
  intros Hok Hfree Hi He. unfold save_user. simpl. rewrite (select_email_one _ _ i u) by done.
  simpl. unfold refresh_user. rewrite trigger_depth_unfold.
  assert (Hok' : users_ok (<[i := login_refresh p r now u]> (db_users db))).
  { apply users_ok_insert_untaken; [done| |].
    - apply existsb_false_forall, Forall_forall. intros [j w] Hj%elem_of_map_to_list.
      apply bool_decide_eq_false. simpl. intros [Hne Heq]. apply Hne.
      eapply (proj1 Hok); eauto.
    - unfold google_id_taken. simpl. apply existsb_false_forall, Forall_forall.
      intros [j w] Hj%elem_of_map_to_list. apply bool_decide_eq_false. simpl.
      intros [Hne Hg]. apply Hne. eapply (proj1 Hok); eauto. rewrite (Hfree j w); auto. }
  rewrite (users_update_synced _ _ _ _ i u);
    [|done|done|by apply bool_decide_eq_true|by intros j w _ ->%bool_decide_eq_true|done].
  simpl. case_bool_decide; simpl; rewrite lookup_insert_eq; simpl; by rewrite ?He.
Qed.

Lemma google_id_free_keys p db db' :
  (user_keys <$> db_users db') = (user_keys <$> db_users db) ->
  google_id_free p db -> google_id_free p db'.
Proof.
  intros Hk Hf j w Hj Hg.
  assert (Kj : (user_keys <$> db_users db) !! j = Some (user_keys w))
    by (by rewrite <- Hk, lookup_fmap, Hj).
  rewrite lookup_fmap in Kj. destruct (db_users db !! j) as [v|] eqn:Ev; simplify_eq/=.
  unfold user_keys in Kj. simplify_eq. rewrite <- Kj. apply (Hf j v Ev). congruence.
Qed.

(** The store [resolve_role] leaves keeps every user's keys. *)
Lemma resolve_role_keys e db :
  (user_keys <$> db_users (match db_roles db !! e with
                           | Some _ => db
                           | None => dual_write e Scholar (db_clock db) db
                           end)) = (user_keys <$> db_users db).
Proof. destruct (db_roles db !! e); [done|]. apply dual_write_keys. Qed.

(** The row [save_user] answers with is the row the store then holds,
    with the payload's email and the role it was given. *)
Lemma save_user_spec p r now db :
  users_ok (db_users db) -> google_id_free p db ->
  exists i u db', run (save_user p r now) db = (inr (i, u), db') /\
    db_users db' !! i = Some u /\ user_email u = p_email p /\ user_role u = r.
Proof.
  intros Hok Hfree. destruct (user_by_email (p_email p) db) as [[i u]|] eqn:Hbe.
  - apply user_by_email_Some in Hbe as [Hi He].
    rewrite (save_user_refresh _ _ _ _ i u) by done.
    do 3 eexists. split; [done|]. simpl.
    split; [case_bool_decide; apply lookup_insert_eq|]. by destruct u.
  - rewrite save_user_insert by (done || by eapply user_by_email_None).
    do 3 eexists. split; [done|]. split; [apply lookup_insert_eq|done].
Qed.

(** Sign-in takes the role from the Role Store: the answer and the
    stored row carry the role of the email's user_roles row, or
    'scholar' when there is none (spec section 4.1 and the round trip of
    section 8). *)
Theorem google_login_role tok p now db :
  users_ok (db_users db) -> google_id_free p db ->
  exists i u db',
    run (google_login (Some tok) (Some p) now) db =
      (mkResponse 200 (JAuth (mkClaims i (p_email p) (get_user_role (p_email p) db)) i u), db') /\
    db_users db' !! i = Some u /\ user_email u = p_email p /\
    user_role u = get_user_role (p_email p) db.
Proof.
  intros Hok Hfree. unfold google_login.
  rewrite run_bind, resolve_role_spec by done. cbv beta iota.
  rewrite run_bind.
  destruct (save_user_spec p (get_user_role (p_email p) db) now
             (match db_roles db !! p_email p with
              | Some _ => db | None => dual_write (p_email p) Scholar (db_clock db) db end))
    as (i & u & db' & Hrun & Hi & He & Hr).
  - eapply users_ok_keys; [apply resolve_role_keys|done].
  - eapply google_id_free_keys; [apply resolve_role_keys|done].
  - rewrite Hrun. simpl. rewrite He, Hr. eauto 10.
Qed.
