(* ===== verification/Users.v ===== *)
(** The users router (the first router of
    src/backend/src/routes/users.js, lines 1-171): the admin routes that
    list users and role assignments and change roles, and the list of
    faculties every signed-in user may read.

    A role change writes [user_roles] and then [users]; the triggers of
    the migration keep the two in step inside each statement (see
    [Store.dual_write]). *)

From S2P Require Import Prelude Proc Schema Store Api.

Local Open Scope sched_scope.

(** ** Orderings of the listing queries *)

(** [.order('created_at', { ascending: false })] *)
Definition created_desc {A} (created : A -> Z) (a b : A) : Prop := (created b <= created a)%Z.

#[export] Instance created_desc_dec {A} (created : A -> Z) : RelDecision (created_desc created).
Proof. intros a b. unfold created_desc. apply _. Defined.

Definition newest_first {A} (created : A -> Z) (l : list A) : list A :=
  merge_sort (created_desc created) l.

(** [.order('name')]: byte-wise comparison of the names. *)
Definition name_le (a b : nat * User) : Prop := String.leb (user_name a.2) (user_name b.2) = true.

#[export] Instance name_le_dec : RelDecision name_le.
Proof. intros a b. unfold name_le. apply _. Defined.

Definition by_name (l : list (nat * User)) : list (nat * User) := merge_sort name_le l.

(** JavaScript truthiness of an optional string field of the body. *)
Definition truthy (s : option string) : bool :=
  match s with Some v => negb (bool_decide (v = "")) | None => false end.

(** [role] of the body, accepted by [['scholar','faculty','admin'].includes(role)]. *)
Definition body_role (s : option string) : option Role :=
  match s with Some v => parse_role v | None => None end.

(** ** Handlers *)

(** [router.get('/', requireRole('admin'), ...)] *)
Definition get_users (tok : Token) : proc DB Response :=
  guarded tok [Admin] (fun _ _ =>
    us <- query (fun db => newest_first (fun iu => user_created_at iu.2) (map_to_list (db_users db))) ;;
    respond 200 (JUsers us)).

(** [router.patch('/:userId/role', requireRole('admin'), ...)]: [userId]
    is the path parameter, [role] the body field, [now] the server clock
    ([new Date().toISOString()]). *)
Definition patch_user_role (tok : Token) (userId : nat) (role : option string) (now : Z)
    : proc DB Response :=
  guarded tok [Admin] (fun me_id _ =>
    match body_role role with
    | None => respond 400 (JError "Invalid role")
    | Some r =>
    if bool_decide (userId = me_id) then respond 403 (JError "Cannot change your own role")
    else
      target <- query (fun db => db_users db !! userId) ;;
      match target with
      | None => respond 404 (JError "User not found")
      | Some tu =>
          up <- stmt (roles_upsert trigger_depth service_role_uid (user_email tu) r now) ;;
          match up with
          | inl _ => respond 500 (JError "Failed to update user role")
          | inr _ =>
              res <- stmt_ret (fun db =>
                match users_update trigger_depth service_role_uid
                        (fun j _ => bool_decide (j = userId)) (with_role r) true db with
                | inl e => inl e
                | inr db' => match db_users db' !! userId with
                             | Some u => inr (u, db')
                             | None => inl NoSingleRow
                             end
                end) ;;
              match res with
              | inl _ => respond 500 (JError "Failed to update user role")
              | inr u => respond 200 (JUser userId u)
              end
          end
      end
    end).

(** [router.post('/roles/email', requireRole('admin'), ...)]: [email] and
    [role] are the body fields. *)
Definition post_role_by_email (tok : Token) (email role : option string) (now : Z)
    : proc DB Response :=
  guarded tok [Admin] (fun _ me =>
    if negb (truthy email && truthy role) then respond 400 (JError "Email and role are required")
    else
    match email, body_role role with
    | Some e, Some r =>
      if bool_decide (e = user_email me) then respond 403 (JError "Cannot change your own role")
      else
        up <- stmt_ret (fun db =>
          match roles_upsert trigger_depth service_role_uid e r now db with
          | inl err => inl err
          | inr db' => match db_roles db' !! e with
                       | Some row => inr (row, db')
                       | None => inl NoSingleRow
                       end
          end) ;;
        match up with
        | inl _ => respond 500 (JError "Failed to set role")
        | inr row =>
            existing <- query (user_by_email e) ;;
            match existing with
            | Some _ =>
                (* the result of this update is not checked *)
                _ <- stmt (users_update trigger_depth service_role_uid
                             (fun _ u => bool_decide (user_email u = e)) (with_role r) true) ;;
                respond 200 (JRoleAssigned e (rr_role row) true)
            | None => respond 200 (JRoleAssigned e (rr_role row) false)
            end
        end
    | _, _ => respond 400 (JError "Invalid role")
    end).

(** [router.get('/roles', requireRole('admin'), ...)] *)
Definition get_roles (tok : Token) : proc DB Response :=
  guarded tok [Admin] (fun _ _ =>
    rs <- query (fun db => newest_first (fun er => rr_created_at er.2) (map_to_list (db_roles db))) ;;
    respond 200 (JRoles rs)).

(** [router.get('/faculties', ...)]: any signed-in user. *)
Definition get_faculties (tok : Token) : proc DB Response :=
  authenticated tok (fun _ _ =>
    fs <- query (fun db => by_name (select_where (fun _ u => bool_decide (user_role u = Faculty))
                                                 (db_users db))) ;;
    respond 200 (JFaculties fs)).

(** ** Role changes *)

(** C9: A caller can never change its own role through
    [PATCH /users/:userId/role], whatever its role, admin included: the
    answer is 403 and the store is untouched (spec sections 4.1 and 8). *)
Theorem patch_user_role_self uid me role r now db :
  db_users db !! uid = Some me -> body_role role = Some r ->
  exists msg, run (patch_user_role (Some uid) uid role now) db = (mkResponse 403 (JError msg), db).
Proof.
  intros Hme Hr. unfold patch_user_role. destruct (decide (user_role me = Admin)) as [Ha|Ha].
  - rewrite (run_guarded_pass _ me) by eauto with sched. simpl.
    rewrite Hr, bool_decide_eq_true_2 by done. eauto.
  - rewrite (run_guarded_forbidden _ me) by eauto with sched. eauto.
Qed.

(** C22: The same guard on [POST /users/roles/email]: an admin naming its
    own email gets 403 and the store is untouched. *)
Theorem post_role_by_email_self uid me rs r now db :
  db_users db !! uid = Some me -> parse_role rs = Some r ->
  exists msg,
    run (post_role_by_email (Some uid) (Some (user_email me)) (Some rs) now) db =
      (mkResponse 403 (JError msg), db) \/
    run (post_role_by_email (Some uid) (Some (user_email me)) (Some rs) now) db =
      (mkResponse 400 (JError msg), db).
Proof.
  intros Hme Hr. unfold post_role_by_email. destruct (decide (user_role me = Admin)) as [Ha|Ha].
  - rewrite (run_guarded_pass _ me) by eauto with sched. simpl.
    rewrite Hr. destruct (negb _); simpl; [eauto|].
    rewrite bool_decide_eq_true_2 by done. eauto.
  - rewrite (run_guarded_forbidden _ me) by eauto with sched. eauto.
Qed.

(** C23: [PATCH /users/:userId/role] by an admin on another existing user
    performs the dual write of spec section 9: user_roles and users both
    hold the new role, and the answer is the updated user. *)
Theorem patch_user_role_ok uid me t tu role r now db :
  users_ok (db_users db) -> db_users db !! uid = Some me -> user_role me = Admin ->
  t <> uid -> db_users db !! t = Some tu -> body_role role = Some r ->
  run (patch_user_role (Some uid) t role now) db =
    (mkResponse 200 (JUser t (with_role r tu)), dual_write (user_email tu) r now db).
Proof.
  intros Hok Hme Ha Hne Ht Hr. unfold patch_user_role.
  rewrite (run_guarded_pass _ me) by eauto with sched. simpl.
  rewrite Hr, bool_decide_eq_false_2 by done. simpl. rewrite Ht. simpl.
  rewrite roles_upsert_trigger_depth by done. simpl.
  rewrite users_update_by_id_after_dual_write by done. simpl.
  by rewrite (dual_write_lookup_user r now db t tu Hok Ht).
Qed.

(** [POST /users/roles/email] by an admin for another email, with a
    valid role, performs the dual write: the Role Store holds the role,
    and so does the user of that email if there is one. *)
Theorem post_role_by_email_ok uid me e rs r now db :
  users_ok (db_users db) -> db_users db !! uid = Some me -> user_role me = Admin ->
  e <> user_email me -> e <> "" -> parse_role rs = Some r ->
  exists exists_flag,
    run (post_role_by_email (Some uid) (Some e) (Some rs) now) db =
      (mkResponse 200 (JRoleAssigned e r exists_flag), dual_write e r now db).
Proof.
  intros Hok Hme Ha Hne He Hr. unfold post_role_by_email.
  rewrite (run_guarded_pass _ me) by eauto with sched. simpl.
  assert (Hrs : rs <> "") by (intros ->; discriminate).
  rewrite !bool_decide_eq_false_2 by done. simpl.
  rewrite Hr. simpl.
  rewrite roles_upsert_trigger_depth by done. simpl.
  destruct (dual_write_role_row e r now db) as (row & Hrow & Hrr). rewrite Hrow. simpl.
  destruct (user_by_email e (dual_write e r now db)); simpl.
  - rewrite trigger_depth_unfold, users_update_after_dual_write by done. simpl. rewrite Hrr. eauto.
  - rewrite Hrr. eauto.
Qed.
