(* ===== verification/Calendar.v ===== *)
(** The pure helpers the booking handler calls: the random fallback
    Meet link ([generateFallbackMeetLink], slots.js, lines 465-478 of
    src/backend/src/routes/users.js), the link extraction of
    [createCalendarEventWithMeet] (src/backend/src/config/googleCalendar.js,
    lines 64-68), ISO-8601 time stamps ([Date.prototype.toISOString]),
    and the "add to calendar" link ([generateCalendarLink], lines
    480-503) with its [URLSearchParams] encoding.

    [Math.random()] is a collaborator: its successive values are given
    as a sequence [draws] of integers [k], the value being [k / 2^53]
    (the form V8 produces); the contract of [Math.random] is
    [0 <= k < 2^53]. *)

From S2P Require Import Prelude Schema.
From Stdlib Require Import Ascii.
From stdpp Require Import pretty.

Local Open Scope Z_scope.
Local Open Scope string_scope.

(** ** The fallback Meet link *)

Definition meet_chars : string := "abcdefghijklmnopqrstuvwxyz".

Definition rand_scale : Z := 2 ^ 53.

(** [Math.floor(Math.random() * chars.length)] *)
Definition rand_index (k : Z) : nat := Z.to_nat ((k * 26) / rand_scale).

(** [chars[i]] appended to a string: JavaScript appends the text
    "undefined" when [i] is out of range. *)
Definition char_at (s : string) (i : nat) : string :=
  match String.get i s with
  | Some c => String c EmptyString
  | None => "undefined"
  end.

(** The inner loop: [for (let j = 0; j < length; j++) segment += chars[...]];
    [k] counts the calls to [Math.random] made so far. *)
Fixpoint segment_loop (len : nat) (segment : string) (k : nat) (draws : nat -> Z) : string * nat :=
  match len with
  | O => (segment, k)
  | S len' => segment_loop len' (segment ++ char_at meet_chars (rand_index (draws k))) (S k) draws
  end.

(** The outer loop: [for (let i = 0; i < 3; i++)] with [length = i === 1 ? 4 : 3]. *)
Fixpoint segments_loop (n i : nat) (segments : list string) (k : nat) (draws : nat -> Z)
    : list string * nat :=
  match n with
  | O => (segments, k)
  | S n' =>
      let len := if bool_decide (i = 1)%nat then 4%nat else 3%nat in
      let '(seg, k') := segment_loop len "" k draws in
      segments_loop n' (S i) (segments ++ [seg]) k' draws
  end.

Definition generate_fallback_meet_link (draws : nat -> Z) : string :=
  "https://meet.google.com/" ++ String.concat "-" (segments_loop 3%nat 0%nat [] 0%nat draws).1.

(** Every character is a lowercase letter [a-z]. *)
Fixpoint lowercase_word (s : string) : bool :=
  match s with
  | EmptyString => true
  | String c s' => bool_decide (97 <= nat_of_ascii c <= 122)%nat && lowercase_word s'
  end.

(** ** The link the Calendar API answers with *)

(** The fields of [response.data] the code reads. *)
Record CalendarResponse := mkCalendarResponse {
  cr_id : string;
  cr_hangout_link : option string;                 (** [hangoutLink] *)
  cr_entry_points : option (list (option string)); (** [conferenceData?.entryPoints] URIs *)
  cr_html_link : string
}.

Definition js_truthy (s : option string) : bool :=
  match s with Some v => negb (bool_decide (v = "")) | None => false end.

(** [response.data.hangoutLink || response.data.conferenceData?.entryPoints?.[0]?.uri];
    [None] is [undefined]. *)
Definition meet_link_of (r : CalendarResponse) : option string :=
  if js_truthy (cr_hangout_link r) then cr_hangout_link r
  else match cr_entry_points r with
       | Some (uri :: _) => uri
       | _ => None
       end.

(** ** Decimal digits and [Date.prototype.toISOString] *)

Definition digit (n : Z) : ascii := ascii_of_nat (48 + Z.to_nat n)%nat.

(** The last [w] decimal digits of [n], zero-padded. *)
Fixpoint pad_num (w : nat) (n : Z) : string :=
  match w with
  | O => ""
  | S w' => pad_num w' (n / 10) ++ String (digit (n mod 10)) EmptyString
  end.

(** The proleptic Gregorian date of a day number (days since 1970-01-01),
    by the era decomposition that ECMAScript's date algorithms follow. *)
Definition civil_from_days (z : Z) : Z * Z * Z :=
  let z := z + 719468 in
  let era := z / 146097 in
  let doe := z - era * 146097 in
  let yoe := (doe - doe / 1460 + doe / 36524 - doe / 146096) / 365 in
  let y := yoe + era * 400 in
  let doy := doe - (365 * yoe + yoe / 4 - yoe / 100) in
  let mp := (5 * doy + 2) / 153 in
  let d := doy - (153 * mp + 2) / 5 + 1 in
  let m := if bool_decide (mp < 10) then mp + 3 else mp - 9 in
  (if bool_decide (m <= 2) then y + 1 else y, m, d).

(** Four digits for years 0..9999, else a sign and six digits. *)
Definition year_string (y : Z) : string :=
  if bool_decide (0 <= y <= 9999) then pad_num 4 y
  else (if bool_decide (y < 0) then "-" else "+") ++ pad_num 6 (Z.abs y).

Definition ms_per_day : Z := 86400000.

(** [new Date(ms).toISOString()]: "YYYY-MM-DDTHH:mm:ss.sssZ".  This is
    JS's result on its time values, [|ms| <= 8.64e15] (years -271821 to
    275760, at most six digits); beyond them [new Date(ms)] is an
    Invalid Date whose [toISOString()] throws a RangeError, which this
    total function does not model: it prints a date there as well. *)
Definition iso_string (ms : Z) : string :=
  let '(y, m, d) := civil_from_days (ms / ms_per_day) in
  let t := ms mod ms_per_day in
  year_string y ++ "-" ++ pad_num 2 m ++ "-" ++ pad_num 2 d ++ "T" ++
  pad_num 2 (t / 3600000) ++ ":" ++ pad_num 2 ((t / 60000) mod 60) ++ ":" ++
  pad_num 2 ((t / 1000) mod 60) ++ "." ++ pad_num 3 (t mod 1000) ++ "Z".

(** [.replace(/[-:]/g, '')] *)
Fixpoint strip_dashes_colons (s : string) : string :=
  match s with
  | EmptyString => EmptyString
  | String c s' =>
      if bool_decide (c = "-"%char \/ c = ":"%char) then strip_dashes_colons s'
      else String c (strip_dashes_colons s')
  end.

(** [.split('.')[0]] *)
Fixpoint before_dot (s : string) : string :=
  match s with
  | EmptyString => EmptyString
  | String c s' => if bool_decide (c = "."%char) then EmptyString else String c (before_dot s')
  end.

(** [formatDate] inside [generateCalendarLink]. *)
Definition format_date (ms : Z) : string :=
  before_dot (strip_dashes_colons (iso_string ms)) ++ "Z".

(** [new Date(`${slot.date}T${slot.start_time}`)]: a date and a time
    without zone are read in the server's local time; [tz] is the
    server's offset from UTC in milliseconds. *)
Definition local_datetime_ms (tz : Z) (day secs : Z) : Z := day * ms_per_day + secs * 1000 - tz.

(** ** [URLSearchParams] serialisation (application/x-www-form-urlencoded) *)

Definition hex_digit (n : nat) : ascii :=
  if bool_decide (n < 10)%nat then ascii_of_nat (48 + n)%nat else ascii_of_nat (55 + n)%nat.

(** The bytes the serialiser leaves as they are: [*-._], digits, letters. *)
Definition form_safe (c : ascii) : bool :=
  let n := nat_of_ascii c in
  bool_decide (n = 42 \/ n = 45 \/ n = 46 \/ 48 <= n <= 57 \/ 65 <= n <= 90 \/ n = 95 \/ 97 <= n <= 122)%nat.

Fixpoint form_encode (s : string) : string :=
  match s with
  | EmptyString => EmptyString
  | String c s' =>
      (if form_safe c then String c EmptyString
       else if bool_decide (c = " "%char) then "+"
       else String "%" (String (hex_digit (nat_of_ascii c / 16)%nat)
                          (String (hex_digit (nat_of_ascii c mod 16)%nat) EmptyString)))
      ++ form_encode s'
  end.

(** [params.toString()] *)
Definition serialize_params (ps : list (string * string)) : string :=
  String.concat "&" (map (fun kv => form_encode kv.1 ++ "=" ++ form_encode kv.2) ps).

(** ** The booking's calendar data *)

Definition nl : string := String (ascii_of_nat 10) EmptyString.

(** [slot.notes || 'No additional notes'] *)
Definition notes_or_default (n : option string) : string :=
  match n with
  | Some v => if bool_decide (v = "") then "No additional notes" else v
  | None => "No additional notes"
  end.

(** [`${x}`] of a nullable column: [null] prints as "null". *)
Definition show_nullable (s : option string) : string :=
  match s with Some v => v | None => "null" end.

(** [generateCalendarLink(slot, faculty, scholar)] *)
Definition generate_calendar_link (tz : Z) (s : Slot) (faculty scholar : User) : string :=
  let start_ms := local_datetime_ms tz (slot_date s) (slot_start_time s) in
  let end_ms := local_datetime_ms tz (slot_date s) (slot_end_time s) in
  let title := "Assignment Demo - " ++ user_name scholar ++ " with " ++ user_name faculty in
  let description := "Meeting between " ++ user_name scholar ++ " and " ++ user_name faculty ++
    nl ++ nl ++ "Notes: " ++ notes_or_default (slot_notes s) ++
    nl ++ nl ++ "Google Meet: " ++ show_nullable (slot_meeting_link s) in
  "https://calendar.google.com/calendar/render?" ++
  serialize_params [("action", "TEMPLATE"); ("text", title); ("details", description);
                    ("dates", format_date start_ms ++ "/" ++ format_date end_ms);
                    ("add", user_email scholar ++ "," ++ user_email faculty);
                    ("sf", "true"); ("output", "xml")].

(** The [eventDetails] that [createRealGoogleMeet] hands to the Calendar API. *)
Record EventDetails := mkEventDetails {
  ev_summary : string;
  ev_description : string;
  ev_start : string;
  ev_end : string;
  ev_attendees : list string
}.

Definition event_details (tz : Z) (s : Slot) (faculty scholar : User) : EventDetails :=
  mkEventDetails
    ("Assignment Demo - " ++ user_name scholar ++ " with " ++ user_name faculty)
    ("Assignment demonstration session." ++ nl ++ nl ++
     "Scholar: " ++ user_name scholar ++ " (" ++ user_email scholar ++ ")" ++ nl ++
     "Faculty: " ++ user_name faculty ++ " (" ++ user_email faculty ++ ")" ++ nl ++ nl ++
     "Notes: " ++ notes_or_default (slot_notes s))
    (iso_string (local_datetime_ms tz (slot_date s) (slot_start_time s)))
    (iso_string (local_datetime_ms tz (slot_date s) (slot_end_time s)))
    [user_email scholar; user_email faculty].

(** ** [createCalendarEventWithMeet] *)

(** The event resource of lines 29-54: start and end as
    [{ dateTime, timeZone: 'UTC' }], the attendees' emails, the Meet
    creation request and the two reminders ([None]: no [reminders]
    field, the calendar's defaults apply). *)
Record CalendarEvent := mkCalendarEvent {
  ce_summary : string;
  ce_description : string;
  ce_start : string * string;
  ce_end : string * string;
  ce_attendees : list string;
  ce_request_id : string;
  ce_solution_type : string;
  ce_reminders : option (list (string * Z))
}.

(** [now_ms] is [Date.now()]. *)
Definition calendar_event (ev : EventDetails) (now_ms : Z) : CalendarEvent :=
  mkCalendarEvent (ev_summary ev) (ev_description ev) (ev_start ev, "UTC") (ev_end ev, "UTC")
    (ev_attendees ev) ("meet-" ++ pretty now_ms) "hangoutsMeet"
    (Some [("email", 24 * 60); ("popup", 30)]).

(** What the function returns: [{ eventId, meetLink, htmlLink }]. *)
Record MeetResult := mkMeetResult {
  mr_event_id : string;
  mr_meet_link : option string;
  mr_html_link : string
}.

(** [events_insert] is [calendar.events.insert] on the event ([None]:
    it throws, and the function rethrows). *)
Definition create_calendar_event_with_meet
    (events_insert : CalendarEvent -> option CalendarResponse) (now_ms : Z) (ev : EventDetails)
    : option MeetResult :=
  match events_insert (calendar_event ev now_ms) with
  | None => None
  | Some r => Some (mkMeetResult (cr_id r) (meet_link_of r) (cr_html_link r))
  end.

(** ** The fallback link has the Meet code format *)

Lemma lowercase_word_app (s1 s2 : string) :
  lowercase_word (s1 ++ s2) = lowercase_word s1 && lowercase_word s2.
Proof. induction s1 as [|c s IH]; [done|]. rewrite string_app_cons. simpl. by rewrite IH, andb_assoc. Qed.

Lemma rand_index_bound k : (0 <= k < rand_scale)%Z -> (rand_index k < 26)%nat.
Proof.
  intros Hk. unfold rand_index.
  assert (0 <= k * 26 / rand_scale < 26)%Z.
  { split; [apply Z.div_pos; unfold rand_scale in *; lia|].
    apply Z.div_lt_upper_bound; unfold rand_scale in *; lia. }
  lia.
Qed.

Lemma char_at_meet_chars i :
  (i < 26)%nat ->
  String.length (char_at meet_chars i) = 1%nat /\ lowercase_word (char_at meet_chars i) = true.
Proof. intros Hi. do 26 (destruct i as [|i]; [split; reflexivity|]). lia. Qed.

(** The inner loop appends [len] lowercase letters and makes [len] draws. *)
Lemma segment_loop_spec len seg k draws :
  (forall j, 0 <= draws j < rand_scale)%Z ->
  exists w, segment_loop len seg k draws = (seg ++ w, k + len)%nat /\
            String.length w = len /\ lowercase_word w = true.
Proof.
  intros Hd. revert seg k. induction len as [|len IH]; intros seg k; simpl.
  - exists "". by rewrite string_app_nil_r, Nat.add_0_r.
  - destruct (IH (seg ++ char_at meet_chars (rand_index (draws k))) (S k)) as (w & -> & Hl & Hw).
    destruct (char_at_meet_chars (rand_index (draws k)) (rand_index_bound _ (Hd k))) as [Hl1 Hw1].
    exists (char_at meet_chars (rand_index (draws k)) ++ w). split_and!.
    + by rewrite string_app_assoc, Nat.add_succ_r.
    + rewrite string_length_app. lia.
    + by rewrite lowercase_word_app, Hw1, Hw.
Qed.

Lemma segments_loop_three draws :
  segments_loop 3 0 [] 0 draws =
  let '(a, k1) := segment_loop 3 "" 0 draws in
  let '(b, k2) := segment_loop 4 "" k1 draws in
  let '(c, k3) := segment_loop 3 "" k2 draws in ([a; b; c], k3).
Proof.
  simpl. destruct (segment_loop 3 "" 0 draws) as [a k1].
  destruct (segment_loop 4 "" k1 draws) as [b k2]. by destruct (segment_loop 3 "" k2 draws).
Qed.

(** As long as [Math.random] keeps its contract, the fallback link
    is "https://meet.google.com/" followed by three groups of 3, 4 and
    3 lowercase letters joined by dashes (spec 4.4 step 2). *)
Theorem generate_fallback_meet_link_shape draws :
  (forall j, 0 <= draws j < rand_scale)%Z ->
  exists a b c,
    generate_fallback_meet_link draws = "https://meet.google.com/" ++ a ++ "-" ++ b ++ "-" ++ c /\
    String.length a = 3%nat /\ String.length b = 4%nat /\ String.length c = 3%nat /\
    lowercase_word (a ++ b ++ c) = true.
Proof.
  intros Hd. unfold generate_fallback_meet_link. rewrite segments_loop_three.
  destruct (segment_loop_spec 3 "" 0 draws Hd) as (a & -> & La & Wa).
  destruct (segment_loop_spec 4 "" (0 + 3) draws Hd) as (b & -> & Lb & Wb).
  destruct (segment_loop_spec 3 "" (0 + 3 + 4) draws Hd) as (c & -> & Lc & Wc).
  exists a, b, c. split_and!; try done.
  rewrite !lowercase_word_app, Wa, Wb, Wc. done.
Qed.

