(* ===== verification/GoogleAuth.v ===== *)
(** The Google OAuth side of the back end: the OAuth2 client that
    src/backend/src/config/googleCalendar.js builds at load time
    (lines 7-21), its helpers [getAuthUrl] and [getTokensFromCode]
    (lines 78-98), the alternative [createMeetWithServiceAccount]
    (lines 103-156), and the one-off script
    src/backend/scripts/getGoogleToken.js that obtains the refresh
    token.  The three helpers are exported but no route calls them; the
    booking route only calls [createCalendarEventWithMeet] (Calendar.v).

    The OAuth2 library and the URL parser are collaborators: the token
    endpoint is a function [get_token] from a code to tokens or a thrown
    message, [new URL(...)] a function from the pasted text to its
    decoded query parameters or a thrown message, and [generateAuthUrl]
    is represented by the options it is given.  Console lines are
    represented by what they carry. *)

From S2P Require Import Prelude Schema Calendar.
From Stdlib Require Import Ascii.
From stdpp Require Import pretty.

Local Open Scope string_scope.

(** ** The OAuth2 client of googleCalendar.js *)

(** The variables of [process.env] the module reads ([None]: unset). *)
Record Env := mkEnv {
  env_client_id : option string;
  env_client_secret : option string;
  env_redirect_uri : option string;
  env_refresh_token : option string
}.

(** The [tokens] of the OAuth2 library. *)
Record Tokens := mkTokens {
  tk_access_token : option string;
  tk_refresh_token : option string;
  tk_expiry_date : option Z
}.

(** An OAuth2 client: its construction arguments and its credentials. *)
Record OAuth2Client := mkOAuth2Client {
  oc_client_id : option string;
  oc_client_secret : option string;
  oc_redirect_uri : string;
  oc_credentials : option Tokens
}.

(** [s || d] on a string that may be unset. *)
Definition js_or (s : option string) (d : string) : string :=
  match s with Some v => if bool_decide (v = "") then d else v | None => d end.

Definition default_redirect_uri : string := "http://localhost:5000/api/auth/google/callback".

(** Lines 7-18: the client, with the refresh token as its credentials
    when [GOOGLE_REFRESH_TOKEN] is set and not empty. *)
Definition oauth2_client_init (env : Env) : OAuth2Client :=
  mkOAuth2Client (env_client_id env) (env_client_secret env)
    (js_or (env_redirect_uri env) default_redirect_uri)
    (if js_truthy (env_refresh_token env) then Some (mkTokens None (env_refresh_token env) None)
     else None).

#[export] Instance Tokens_eq_dec : EqDecision Tokens.
Proof. solve_decision. Defined.
#[export] Instance OAuth2Client_eq_dec : EqDecision OAuth2Client.
Proof. solve_decision. Defined.

(** The options given to [generateAuthUrl]. *)
Record AuthUrlRequest := mkAuthUrlRequest {
  au_client : OAuth2Client;
  au_access_type : string;
  au_scope : list string;
  au_prompt : string
}.

Definition calendar_scopes : list string :=
  ["https://www.googleapis.com/auth/calendar.events"; "https://www.googleapis.com/auth/calendar"].

(** [getAuthUrl()], lines 78-89. *)
Definition get_auth_url (c : OAuth2Client) : AuthUrlRequest :=
  mkAuthUrlRequest c "offline" calendar_scopes "consent".

(** [getTokensFromCode(code)], lines 94-98: the tokens become the
    client's credentials; a throw of [getToken] propagates ([inl]). *)
Definition get_tokens_from_code (get_token : string -> string + Tokens) (code : string)
    (c : OAuth2Client) : string + (Tokens * OAuth2Client) :=
  match get_token code with
  | inl msg => inl msg
  | inr t => inr (t, mkOAuth2Client (oc_client_id c) (oc_client_secret c) (oc_redirect_uri c) (Some t))
  end.

(** A template literal's [${v}] of a variable that may be unset. *)
Definition js_template (v : option string) : string :=
  match v with Some s => s | None => "undefined" end.

(** src/unnamed/part_000 (config/google.js): the client whose
    [verifyIdToken] the sign-in route calls (users.js, line 190); its
    redirect URI is [`${process.env.FRONTEND_URL}/auth/callback`]. *)
Definition google_login_client (client_id client_secret frontend_url : option string) : OAuth2Client :=
  mkOAuth2Client client_id client_secret (js_template frontend_url ++ "/auth/callback") None.

(** ** [createMeetWithServiceAccount] *)

Definition digit36 (n : nat) : ascii :=
  if bool_decide (n < 10)%nat then ascii_of_nat (48 + n) else ascii_of_nat (87 + n).

Fixpoint digits36 (ds : list nat) : string :=
  match ds with [] => "" | d :: ds' => String (digit36 d) (digits36 ds') end.

(** [Math.random().toString(36)]: the draw 0 prints as "0", any other
    draw as "0." and its base-36 digits [ds] as the engine prints them
    (a collaborator: each digit is below 36, the last is not 0). *)
Definition random_to_string36 (ds : list nat) : string :=
  match ds with [] => "0" | _ => "0." ++ digits36 ds end.

(** Every character is a base-36 digit [0-9a-z]. *)
Fixpoint base36_word (s : string) : bool :=
  match s with
  | EmptyString => true
  | String c s' =>
      bool_decide (48 <= nat_of_ascii c <= 57 \/ 97 <= nat_of_ascii c <= 122)%nat && base36_word s'
  end.

(** The event of lines 118-138: a request id with a random suffix
    ([.substr(2, 9)]) and no [reminders] field. *)
Definition service_account_event (ev : EventDetails) (now_ms : Z) (ds : list nat) : CalendarEvent :=
  mkCalendarEvent (ev_summary ev) (ev_description ev) (ev_start ev, "UTC") (ev_end ev, "UTC")
    (ev_attendees ev)
    ("meet-" ++ pretty now_ms ++ "-" ++ String.substring 2 9 (random_to_string36 ds))
    "hangoutsMeet" None.

(** [createMeetWithServiceAccount(eventDetails)], lines 103-156:
    [key_ok] says whether [serviceAuth.getClient()] resolves (the key
    file can be read); every throw is rethrown as it is ([None]). *)
Definition create_meet_with_service_account (key_ok : bool)
    (events_insert : CalendarEvent -> option CalendarResponse) (now_ms : Z) (ds : list nat)
    (ev : EventDetails) : option MeetResult :=
  if key_ok then
    match events_insert (service_account_event ev now_ms ds) with
    | None => None
    | Some r => Some (mkMeetResult (cr_id r) (meet_link_of r) (cr_html_link r))
    end
  else None.

(** ** The script getGoogleToken.js *)

(** What the script does, in order. *)
Inductive ScriptEvent :=
| PrintAuthUrl (req : AuthUrlRequest)  (** lines 37-43 *)
| AskRedirectUrl                       (** line 50 *)
| ErrNoCode                            (** lines 57-58 *)
| Exchanging                           (** line 63 *)
| PrintTokens (refresh_token access_token : option string) (expiry_date : option Z)
                                       (** lines 68-85; [None] prints "undefined" *)
| ErrTokens (msg : string)             (** lines 88-92 *)
| CloseInterface.                      (** [rl.close()] *)

#[export] Instance AuthUrlRequest_eq_dec : EqDecision AuthUrlRequest.
Proof. solve_decision. Defined.
#[export] Instance ScriptEvent_eq_dec : EqDecision ScriptEvent.
Proof. solve_decision. Defined.

(** [url.searchParams.get(name)]: the first value of the parameter. *)
Fixpoint search_params_get (ps : list (string * string)) (name : string) : option string :=
  match ps with
  | [] => None
  | (k, v) :: ps' => if bool_decide (k = name) then Some v else search_params_get ps' name
  end.

(** The body of the [try] of lines 51-86 for the pasted text [u]. *)
Definition token_script_try (parse_url : string -> string + list (string * string))
    (get_token : string -> string + Tokens) (u : string) : list ScriptEvent :=
  match parse_url u with
  | inl msg => [ErrTokens msg]
  | inr ps =>
      match search_params_get ps "code" with
      | Some c =>
          if bool_decide (c = "") then [ErrNoCode; CloseInterface]
          else match get_token c with
               | inl msg => [Exchanging; ErrTokens msg]
               | inr t => [Exchanging; PrintTokens (tk_refresh_token t) (tk_access_token t) (tk_expiry_date t)]
               end
      | None => [ErrNoCode; CloseInterface]
      end
  end.

(** The whole script (lines 18-96): its own client with the fixed
    redirect URI, the authorization URL, the question, the [try] with
    its [catch], and the [finally] that closes the prompt. *)
Definition token_script (env : Env) (parse_url : string -> string + list (string * string))
    (get_token : string -> string + Tokens) (u : string) : list ScriptEvent :=
  let client := mkOAuth2Client (env_client_id env) (env_client_secret env) default_redirect_uri None in
  ([PrintAuthUrl (get_auth_url client); AskRedirectUrl] ++ token_script_try parse_url get_token u ++
   [CloseInterface])%list.

(** ** The random suffix of the request id *)

Lemma digit36_base36 d : (d < 36)%nat -> base36_word (String (digit36 d) EmptyString) = true.
Proof.
  intros Hd. simpl. rewrite andb_true_r. apply bool_decide_eq_true. unfold digit36.
  case_bool_decide; rewrite nat_ascii_embedding by lia; lia.
Qed.

Lemma substring_digits36 n ds :
  Forall (fun d => d < 36)%nat ds ->
  (String.length (String.substring 0 n (digits36 ds)) <= n)%nat /\
  base36_word (String.substring 0 n (digits36 ds)) = true /\
  (String.substring 0 n (digits36 ds) = "" <-> n = 0%nat \/ ds = []).
Proof.
  revert ds. induction n as [|n IH]; intros [|d ds] Hds; simpl; [split_and!; [lia|done|split; auto]..|].
  apply Forall_cons in Hds as [Hd Hds]. destruct (IH ds Hds) as (Hl & Hb & _).
  split_and!; [lia| |split; [discriminate|intros [?|?]; discriminate]].
  pose proof (digit36_base36 d Hd) as Hc. simpl in Hc |- *. by rewrite andb_true_r in Hc; rewrite Hc, Hb.
Qed.

(** The request id of the service-account event is "meet-", the
    milliseconds of [Date.now()], a dash and a suffix of at most nine
    base-36 digits, as long as the engine prints base-36 digits; the
    suffix is empty exactly when [Math.random()] draws 0. *)
Theorem service_account_request_id ev now ds :
  Forall (fun d => d < 36)%nat ds ->
  exists sfx,
    ce_request_id (service_account_event ev now ds) = "meet-" ++ pretty now ++ "-" ++ sfx /\
    (String.length sfx <= 9)%nat /\ base36_word sfx = true /\ (sfx = "" <-> ds = []).
Proof.
  intros Hds. exists (String.substring 2 9 (random_to_string36 ds)). split; [reflexivity|].
  destruct ds as [|d ds']; [split_and!; simpl; done || lia|].
  unfold random_to_string36. rewrite string_app_cons. cbn [String.substring String.append].
  destruct (substring_digits36 9 (d :: ds') Hds) as (Hl & Hb & He). split_and!; [done|done|].
  rewrite He. split; [intros [?|?]; discriminate|discriminate].
Qed.

(** ** The token script *)

(** C40: The token script always ends by closing the prompt, and prints
    tokens exactly when the pasted URL parses, carries a non-empty
    [code] and Google exchanges it; what it prints as the refresh token
    is the one in Google's answer, "undefined" when the answer has none.
    When the URL has no code the prompt is closed twice: at line 59,
    then in the [finally] of line 94. *)
Theorem token_script_contract env parse_url get_token u :
  let evs := token_script env parse_url get_token u in
  last evs = Some CloseInterface /\
  (forall rt at_ ex, PrintTokens rt at_ ex ∈ evs <->
     exists ps c t, parse_url u = inr ps /\ search_params_get ps "code" = Some c /\ c <> "" /\
       get_token c = inr t /\ rt = tk_refresh_token t /\ at_ = tk_access_token t /\ ex = tk_expiry_date t) /\
  (ErrNoCode ∈ evs -> count_occ (decide_rel eq) evs CloseInterface = 2%nat).
Proof.
  unfold token_script, token_script_try.
  destruct (parse_url u) as [msg|ps]; [|destruct (search_params_get ps "code") as [c|] eqn:Hc;
    [destruct (decide (c = "")) as [->|Hne]; [rewrite bool_decide_eq_true_2 by done
      |rewrite bool_decide_eq_false_2 by done; destruct (get_token c) as [msg|t] eqn:Ht]|]];
  simpl; split_and!; try done; match goal with
  | |- _ ∈ _ -> _ =>
      rewrite ?elem_of_cons, ?elem_of_nil; intros Hin;
      repeat destruct Hin as [Hin|Hin]; congruence || contradiction || reflexivity
  | |- _ => intros *; rewrite ?elem_of_cons, ?elem_of_nil;
      split; [intros Hin; repeat destruct Hin as [Hin|Hin]; try congruence; try contradiction
             |intros (ps0 & c0 & t0 & Hp & Hc0 & Hne0 & Ht0 & Hr & Ha & He); try congruence]
  end.
  - injection Hin as -> -> ->. eauto 10.
  - subst. assert (t0 = t) as -> by congruence. do 3 right; left; reflexivity.
Qed.
