(* ===== verification/Slots.v ===== *)
(** The slots router (the third router of
    src/backend/src/routes/users.js, lines 325-651): faculty create and
    delete availability slots, every signed-in user lists the available
    ones, scholars book them.  The overlap check of slot creation and
    the status filter of booking are the only guards against conflicting
    slots and double bookings (spec sections 4.3-4.5).

    Times: a request carries instants (milliseconds since the epoch, as
    [express-validator]'s [toDate()] yields them); the handler stores the
    server-local time of day ([toTimeString()], with the server's offset
    [tz]) and the UTC calendar day ([toISOString()]) of the date field. *)

From S2P Require Import Prelude Proc Schema Store Api Calendar.

Local Open Scope sched_scope.

(** ** Times as the handler derives them *)

(** [new Date(t).toTimeString().split(' ')[0]]: "HH:MM:SS" in local time. *)
Definition time_of_day (tz t : Z) : Z := ((t + tz) mod ms_per_day) / 1000.

(** [new Date(date).toISOString().split('T')[0]] *)
Definition utc_day (t : Z) : Z := t / ms_per_day.

(** The PostgREST filter of the overlap query (line 371):
    [and(start_time.lte.S,end_time.gt.S), and(start_time.lt.E,end_time.gte.E),
     and(start_time.gte.S,end_time.lte.E)]. *)
Definition overlaps_query (S E : Z) (s : Slot) : bool :=
  bool_decide ((slot_start_time s <= S /\ S < slot_end_time s) \/
               (slot_start_time s < E /\ E <= slot_end_time s) \/
               (S <= slot_start_time s /\ slot_end_time s <= E))%Z.

(** ** Statements on [slots] *)

(** [INSERT INTO slots ... RETURNING *] with a fresh UUID. *)
Definition slots_insert (s : Slot) (db : DB) : DbError + ((nat * Slot) * DB) :=
  let i := db_next db in
  inr ((i, s), bump_next (set_slots (<[i := s]> (db_slots db)) db)).

(** [notes || null] *)
Definition notes_or_null (n : option string) : option string :=
  match n with Some v => if bool_decide (v = "") then None else Some v | None => None end.

(** The row after [.update({ status: 'booked', scholar_id, notes: notes || null,
    meeting_link: meetingLink })]: an [undefined] link is dropped from
    the JSON body, so the column keeps its value; the BEFORE UPDATE
    trigger sets [updated_at] to NOW(). *)
Definition booked_row (scholar : nat) (notes link : option string) (now : Z) (s : Slot) : Slot :=
  mkSlot (slot_faculty_id s) (Some scholar) (slot_date s) (slot_start_time s) (slot_end_time s)
    Booked (notes_or_null notes)
    (match link with Some l => Some l | None => slot_meeting_link s end)
    (slot_created_at s) now.

(** [.update({...}).eq('id', slotId)]: every row with that id, none if it is gone. *)
Definition slots_book (slotId scholar : nat) (notes link : option string) (db : DB) : DbError + DB :=
  inr (set_slots (alter (booked_row scholar notes link (db_clock db)) slotId (db_slots db)) db).

(** [.delete().eq('id', slotId)] *)
Definition slots_delete (slotId : nat) (db : DB) : DbError + DB :=
  inr (set_slots (delete slotId (db_slots db)) db).

(** ** Orderings *)

(** [.order('date').order('start_time')] *)
Definition date_start_le (a b : nat * Slot) : Prop :=
  (slot_date a.2 < slot_date b.2 \/
   slot_date a.2 = slot_date b.2 /\ slot_start_time a.2 <= slot_start_time b.2)%Z.

#[export] Instance date_start_le_dec : RelDecision date_start_le.
Proof. intros a b. unfold date_start_le. apply _. Defined.

Definition by_date_start (l : list (nat * Slot)) : list (nat * Slot) := merge_sort date_start_le l.

(** ** Handlers *)

(** [router.post('/', requireRole('faculty', 'admin'), [body(...).isISO8601().toDate()], ...)]:
    each field is the instant it parses to, [None] when it is not ISO 8601. *)
Definition create_slot (tok : Token) (start_time end_time date : option Z) (tz : Z)
    : proc DB Response :=
  guarded tok [Faculty; Admin] (fun faculty_id _ =>
    match start_time, end_time, date with
    | Some st, Some et, Some d =>
        let startTimeOnly := time_of_day tz st in
        let endTimeOnly := time_of_day tz et in
        let dateOnly := utc_day d in
        if bool_decide (et <= st)%Z then respond 400 (JError "End time must be after start time")
        else
          overlapping <- query (fun db =>
            select_where (fun _ s => bool_decide (slot_faculty_id s = faculty_id) &&
                                     bool_decide (slot_date s = dateOnly) &&
                                     overlaps_query startTimeOnly endTimeOnly s) (db_slots db)) ;;
          if bool_decide (0 < length overlapping)%nat
          then respond 409 (JError "Time slot overlaps with existing slot")
          else
            ins <- stmt_ret (fun db =>
              slots_insert (mkSlot faculty_id None dateOnly startTimeOnly endTimeOnly Available
                                   None None (db_clock db) (db_clock db)) db) ;;
            match ins with
            | inl _ => respond 500 (JError "Failed to create slot")
            | inr (i, s) => respond 201 (JSlot i s)
            end
    | _, _, _ => respond 400 JValidationErrors
    end).

(** [router.get('/available', ...)]: the query parameters [faculty_id]
    and [date], and the server clock [now]. *)
Definition get_available (tok : Token) (faculty_id : option nat) (date : option Z) (now : Z)
    : proc DB Response :=
  authenticated tok (fun _ _ =>
    slots <- query (fun db => by_date_start (select_where (fun _ s =>
        bool_decide (slot_status s = Available) &&
        bool_decide (utc_day now <= slot_date s)%Z &&
        match faculty_id with Some f => bool_decide (slot_faculty_id s = f) | None => true end &&
        match date with Some d => bool_decide (slot_date s = d) | None => true end)
      (db_slots db))) ;;
    respond 200 (JSlots slots)).

(** [createRealGoogleMeet(slot, faculty, scholar)]: [calendar_api] is
    [createCalendarEventWithMeet] (in the system, the function
    [Calendar.create_calendar_event_with_meet] on the Calendar API
    collaborator and the clock; [None]: it throws); any throw,
    including reading [faculty.name] of a missing faculty, falls back to
    a random link.  [None] is an [undefined] link. *)
Definition create_real_google_meet (tz : Z) (calendar_api : EventDetails -> option MeetResult)
    (draws : nat -> Z) (s : Slot) (faculty : option User) (scholar : User) : option string :=
  match faculty with
  | None => Some (generate_fallback_meet_link draws)
  | Some f =>
      match calendar_api (event_details tz s f scholar) with
      | None => Some (generate_fallback_meet_link draws)
      | Some result => mr_meet_link result
      end
  end.

(** [router.post('/:slotId/book', requireRole('scholar'), ...)] *)
Definition book_slot (tok : Token) (slotId : nat) (notes : option string) (tz : Z)
    (calendar_api : EventDetails -> option MeetResult) (draws : nat -> Z)
    : proc DB Response :=
  guarded tok [Scholar] (fun scholar_id me =>
    found <- query (fun db =>
      match db_slots db !! slotId with
      | Some s => if bool_decide (slot_status s = Available)
                  then Some (s, db_users db !! slot_faculty_id s) else None
      | None => None
      end) ;;
    match found with
    | None => respond 404 (JError "Slot not available")
    | Some (s, faculty) =>
        let meetingLink := create_real_google_meet tz calendar_api draws s faculty me in
        upd <- stmt (slots_book slotId scholar_id notes meetingLink) ;;
        match upd with
        | inl _ => respond 500 (JError "Failed to book slot")
        | inr _ =>
            booked <- query (fun db =>
              match db_slots db !! slotId with
              | Some b => Some (b, db_users db !! slot_faculty_id b)
              | None => None
              end) ;;
            match booked with
            | Some (b, Some f) =>
                respond 200 (JBooked slotId b meetingLink (generate_calendar_link tz b f me))
            | _ => respond 500 (JError "Failed to book slot")
            end
        end
    end).

(** [router.get('/my-bookings', requireRole('scholar'), ...)] *)
Definition get_my_bookings (tok : Token) : proc DB Response :=
  guarded tok [Scholar] (fun uid _ =>
    bs <- query (fun db => by_date_start
            (select_where (fun _ s => bool_decide (slot_scholar_id s = Some uid)) (db_slots db))) ;;
    respond 200 (JBookings bs)).

(** [router.get('/my-slots', requireRole('faculty', 'admin'), ...)] *)
Definition get_my_slots (tok : Token) : proc DB Response :=
  guarded tok [Faculty; Admin] (fun uid _ =>
    ss <- query (fun db => by_date_start
            (select_where (fun _ s => bool_decide (slot_faculty_id s = uid)) (db_slots db))) ;;
    respond 200 (JSlots ss)).

(** [router.delete('/:slotId', requireRole('faculty', 'admin'), ...)] *)
Definition delete_slot (tok : Token) (slotId : nat) : proc DB Response :=
  guarded tok [Faculty; Admin] (fun uid _ =>
    found <- query (fun db =>
      match db_slots db !! slotId with
      | Some s => if bool_decide (slot_faculty_id s = uid) then Some s else None
      | None => None
      end) ;;
    match found with
    | None => respond 404 (JError "Slot not found")
    | Some s =>
        if bool_decide (slot_status s = Booked) then respond 403 (JError "Cannot delete booked slot")
        else
          del <- stmt (slots_delete slotId) ;;
          match del with
          | inl _ => respond 500 (JError "Failed to delete slot")
          | inr _ => respond 200 (JMessage "Slot deleted successfully")
          end
    end).

(** ** Invariants of the slot table *)

(** Spec section 3: [endTime > startTime]. *)
Definition slots_wf (ss : gmap nat Slot) : Prop :=
  forall i s, ss !! i = Some s -> (slot_start_time s < slot_end_time s)%Z.

(** Spec section 8: two slots of one faculty on one date have disjoint
    [start, end) intervals. *)
Definition slots_disjoint (ss : gmap nat Slot) : Prop :=
  forall i j a b, ss !! i = Some a -> ss !! j = Some b -> i <> j ->
    slot_faculty_id a = slot_faculty_id b -> slot_date a = slot_date b ->
    ~ (slot_start_time a < slot_end_time b /\ slot_start_time b < slot_end_time a)%Z.

(** ** Deciding the slot invariants on a concrete store *)

Definition slots_okb (ss : gmap nat Slot) : bool :=
  bool_decide (map_Forall (fun _ s => slot_start_time s < slot_end_time s)%Z ss) &&
  bool_decide (map_Forall (fun i a => map_Forall (fun j b =>
      i <> j -> slot_faculty_id a = slot_faculty_id b -> slot_date a = slot_date b ->
      ~ (slot_start_time a < slot_end_time b /\ slot_start_time b < slot_end_time a)%Z) ss) ss).

(** ** The overlap query *)

Lemma booked_row_faculty sc n l now s :
  slot_faculty_id (booked_row sc n l now s) = slot_faculty_id s.
Proof. reflexivity. Qed.


(** C4: The three-way filter of the overlap query finds exactly the
    existing slots whose interval meets the new one, for well-formed
    intervals (the reference definition of overlap). *)
Theorem overlaps_query_iff S E s :
  (S < E)%Z -> (slot_start_time s < slot_end_time s)%Z ->
  overlaps_query S E s = true <-> (slot_start_time s < E /\ S < slot_end_time s)%Z.
Proof. intros. unfold overlaps_query. rewrite bool_decide_eq_true. lia. Qed.

(** The same filter read negatively: no match means disjoint intervals. *)
Lemma overlaps_query_false S E s :
  (S < E)%Z -> (slot_start_time s < slot_end_time s)%Z ->
  overlaps_query S E s = false <-> ~ (slot_start_time s < E /\ S < slot_end_time s)%Z.
Proof. intros. unfold overlaps_query. rewrite bool_decide_eq_false. lia. Qed.

(** Inserting a well-formed slot that the overlap query lets through
    keeps the slot invariants. *)
Lemma slots_insert_checked ss k s' :
  slots_wf ss -> slots_disjoint ss -> (slot_start_time s' < slot_end_time s')%Z ->
  (forall j b, ss !! j = Some b -> slot_faculty_id b = slot_faculty_id s' -> slot_date b = slot_date s' ->
     overlaps_query (slot_start_time s') (slot_end_time s') b = false) ->
  slots_wf (<[k := s']> ss) /\ slots_disjoint (<[k := s']> ss).
Proof.
  intros Hwf Hdis Hlt Hnone. split.
  - intros i s Hi. rewrite lookup_insert in Hi. case_decide; simplify_eq/=; eauto.
  - intros i j a b Hi Hj Hij Hf Hd. rewrite lookup_insert in Hi, Hj.
    destruct (decide (k = i)) as [Ei|Ei], (decide (k = j)) as [Ej|Ej]; simplify_eq/=.
    + pose proof (Hnone j b Hj (eq_sym Hf) (eq_sym Hd)) as Hq.
      rewrite overlaps_query_false in Hq by eauto. lia.
    + pose proof (Hnone i a Hi Hf Hd) as Hq.
      rewrite overlaps_query_false in Hq by eauto. lia.
    + eauto.
Qed.

(** What [create_slot] does to the store: nothing, or one insertion of
    an available slot that the overlap query let through. *)
Lemma create_slot_effect tok st et d tz db :
  snd (run (create_slot tok st et d tz) db) = db \/
  exists fid st' et' d',
    st = Some st' /\ et = Some et' /\ d = Some d' /\ (st' < et')%Z /\
    (forall k b, db_slots db !! k = Some b -> slot_faculty_id b = fid ->
       slot_date b = utc_day d' -> overlaps_query (time_of_day tz st') (time_of_day tz et') b = false) /\
    snd (run (create_slot tok st et d tz) db) =
      bump_next (set_slots (<[db_next db := mkSlot fid None (utc_day d') (time_of_day tz st')
          (time_of_day tz et') Available None None (db_clock db) (db_clock db)]> (db_slots db)) db).
Proof.
  unfold create_slot, guarded, authenticated.
  destruct tok as [uid|]; simpl; [|auto]. destruct (db_users db !! uid) as [me|]; simpl; [|auto].
  case_bool_decide; simpl; [|auto]. destruct st as [st|], et as [et|], d as [d|]; simpl; auto.
  case_bool_decide as Hle; simpl; [auto|].
  case_bool_decide as Hlen; simpl; [auto|]. right.
  do 4 eexists. split_and!; [done..|lia| |done].
  intros k b Hk Hf Hd.
  destruct (select_where _ (db_slots db)) eqn:Hsel; [|simpl in Hlen; lia].
  pose proof (select_where_nil_inv _ _ Hsel k b Hk) as Hp. simpl in Hp.
  rewrite !bool_decide_eq_true_2 in Hp by done. done.
Qed.

(** C2: Slot creation preserves the no-overlap invariant of spec
    section 8, for requests whose start and end fall on one local day
    (as the front end's form sends them). *)
Theorem create_slot_disjoint tok st et d tz db :
  slots_wf (db_slots db) -> slots_disjoint (db_slots db) ->
  (forall st' et', st = Some st' -> et = Some et' -> (time_of_day tz st' < time_of_day tz et')%Z) ->
  slots_wf (db_slots (snd (run (create_slot tok st et d tz) db))) /\
  slots_disjoint (db_slots (snd (run (create_slot tok st et d tz) db))).
Proof.
  intros Hwf Hdis Hday.
  destruct (create_slot_effect tok st et d tz db)
    as [-> | (fid & st' & et' & d' & -> & -> & -> & Hlt & Hnone & ->)]; [done|]. simpl.
  apply slots_insert_checked; simpl; auto.
Qed.

(** C38: The handler compares the instants ([endTime <= startTime]) but
    stores their local times of day: a request from 23:00 to 01:00 the
    next day passes the check and is stored with [end_time < start_time],
    breaking the invariant [endTime > startTime] of spec section 3. *)
Theorem create_slot_inverted fid me st et d tz db :
  db_users db !! fid = Some me -> user_role me ∈ [Faculty; Admin] ->
  (st < et)%Z -> (time_of_day tz et <= time_of_day tz st)%Z ->
  (forall k b, db_slots db !! k = Some b -> slot_faculty_id b = fid -> slot_date b = utc_day d ->
     overlaps_query (time_of_day tz st) (time_of_day tz et) b = false) ->
  exists i s',
    run (create_slot (Some fid) (Some st) (Some et) (Some d) tz) db =
      (mkResponse 201 (JSlot i s'), bump_next (set_slots (<[i := s']> (db_slots db)) db)) /\
    ~ slots_wf (db_slots (bump_next (set_slots (<[i := s']> (db_slots db)) db))).
Proof.
  intros Hme Hin Hlt Hinv Hnone. unfold create_slot.
  rewrite (run_guarded_pass _ me) by done. simpl.
  rewrite bool_decide_eq_false_2 by lia. simpl.
  rewrite (select_where_nil _ (db_slots db)); simpl.
  - do 2 eexists. split; [reflexivity|]. intros Hwf.
    specialize (Hwf _ _ (lookup_insert_eq _ _ _)). simpl in Hwf. lia.
  - intros k b Hk. destruct (decide (slot_faculty_id b = fid)) as [Hf|Hf];
      [destruct (decide (slot_date b = utc_day d)) as [Hd|Hd]|].
    + rewrite !bool_decide_eq_true_2 by done. simpl. eauto.
    + by rewrite (bool_decide_eq_false_2 (slot_date b = _)), andb_false_r.
    + by rewrite (bool_decide_eq_false_2 (slot_faculty_id b = _)).
Qed.

(** ** Booking *)

(** C3: Booking an available slot whose faculty exists, by a scholar:
    the answer is 200 with the booked row, the meeting link obtained for
    it and the calendar link, and the slot is the only row changed: it
    keeps its faculty, date and times, its status becomes [booked], its
    scholar the caller, its notes the given ones (or [null]), its link
    the new one (the old one when none was obtained) and its
    [updated_at] the clock (spec 4.4). *)
Theorem book_slot_ok uid me k s f notes tz api draws db :
  db_users db !! uid = Some me -> user_role me = Scholar ->
  db_slots db !! k = Some s -> slot_status s = Available ->
  db_users db !! slot_faculty_id s = Some f ->
  let link := create_real_google_meet tz api draws s (Some f) me in
  let b := mkSlot (slot_faculty_id s) (Some uid) (slot_date s) (slot_start_time s) (slot_end_time s)
             Booked (notes_or_null notes)
             (match link with Some l => Some l | None => slot_meeting_link s end)
             (slot_created_at s) (db_clock db) in
  run (book_slot (Some uid) k notes tz api draws) db =
    (mkResponse 200 (JBooked k b link (generate_calendar_link tz b f me)),
     set_slots (<[k := b]> (db_slots db)) db).
Proof.
  intros Hme Hr Hk Ha Hf link b. unfold book_slot.
  rewrite (run_guarded_pass _ me) by (rewrite ?Hr; by constructor || done). simpl.
  rewrite Hk. simpl. rewrite ?bool_decide_eq_true_2 by done. simpl. rewrite Hf. simpl.
  rewrite (alter_insert_present _ _ _ s Hk), lookup_insert_eq. simpl. by rewrite Hf.
Qed.

(** The run of a successful booking, for the theorems built on it. *)
Lemma book_slot_available_run uid me k s f notes tz api draws db :
  db_users db !! uid = Some me -> user_role me = Scholar ->
  db_slots db !! k = Some s -> slot_status s = Available ->
  db_users db !! slot_faculty_id s = Some f ->
  let link := create_real_google_meet tz api draws s (Some f) me in
  let b := booked_row uid notes link (db_clock db) s in
  run (book_slot (Some uid) k notes tz api draws) db =
    (mkResponse 200 (JBooked k b link (generate_calendar_link tz b f me)),
     set_slots (<[k := b]> (db_slots db)) db).
Proof.
  intros Hme Hr Hk Ha Hf link b. unfold book_slot.
  rewrite (run_guarded_pass _ me) by (rewrite ?Hr; by constructor || done). simpl.
  rewrite Hk. simpl. rewrite ?bool_decide_eq_true_2 by done. simpl. rewrite Hf. simpl.
  rewrite (alter_insert_present _ _ _ s Hk), lookup_insert_eq. simpl. by rewrite Hf.
Qed.

(** C25: A booking request for a slot that is missing or not available
    answers 404 and changes nothing (spec 4.4 step 1). *)
Theorem book_slot_unavailable uid me k notes tz api draws db :
  db_users db !! uid = Some me -> user_role me = Scholar ->
  (forall s, db_slots db !! k = Some s -> slot_status s <> Available) ->
  run (book_slot (Some uid) k notes tz api draws) db =
    (mkResponse 404 (JError "Slot not available"), db).
Proof.
  intros Hme Hr Hna. unfold book_slot.
  rewrite (run_guarded_pass _ me) by (rewrite ?Hr; by constructor || done). simpl.
  destruct (db_slots db !! k) as [s|] eqn:Hk; simpl; [|done].
  by rewrite bool_decide_eq_false_2 by eauto.
Qed.

(** C1: Served one after the other, two booking requests for the same
    available slot succeed once: the second scholar gets 404 and the
    slot stays booked by the first (spec section 8). *)
Theorem book_slot_once uid me uid2 me2 k s f notes notes2 tz api api2 draws draws2 db :
  db_users db !! uid = Some me -> user_role me = Scholar ->
  db_users db !! uid2 = Some me2 -> user_role me2 = Scholar ->
  db_slots db !! k = Some s -> slot_status s = Available ->
  db_users db !! slot_faculty_id s = Some f ->
  let '(r1, db1) := run (book_slot (Some uid) k notes tz api draws) db in
  status r1 = 200%Z /\
  run (book_slot (Some uid2) k notes2 tz api2 draws2) db1 = (mkResponse 404 (JError "Slot not available"), db1) /\
  (exists b, db_slots db1 !! k = Some b /\ slot_scholar_id b = Some uid /\ slot_status b = Booked).
Proof.
  intros Hme Hr Hme2 Hr2 Hk Ha Hf.
  rewrite (book_slot_available_run uid me k s f) by done. split_and!; [done| |].
  - unfold book_slot. rewrite (run_guarded_pass _ me2) by (simpl; rewrite ?Hr2; by constructor || done).
    simpl. rewrite lookup_insert_eq. simpl. rewrite ?bool_decide_eq_false_2 by done. done.
  - eexists. simpl. rewrite lookup_insert_eq. done.
Qed.

(** ** Meeting links *)

(** C36: When the Calendar API call throws, the booking still succeeds and
    the stored link is a fallback link [https://meet.google.com/xxx-xxxx-xxx]
    (spec 4.4 step 2: booking must not fail because provisioning failed). *)
Theorem book_slot_fallback uid me k s f notes tz api draws db :
  db_users db !! uid = Some me -> user_role me = Scholar ->
  db_slots db !! k = Some s -> slot_status s = Available ->
  db_users db !! slot_faculty_id s = Some f ->
  api (event_details tz s f me) = None -> (forall j, 0 <= draws j < rand_scale)%Z ->
  exists r b a1 a2 a3,
    run (book_slot (Some uid) k notes tz api draws) db = (r, set_slots (<[k := b]> (db_slots db)) db) /\
    status r = 200%Z /\ slot_status b = Booked /\ slot_scholar_id b = Some uid /\
    slot_meeting_link b = Some ("https://meet.google.com/" ++ a1 ++ "-" ++ a2 ++ "-" ++ a3)%string /\
    String.length a1 = 3 /\ String.length a2 = 4 /\ String.length a3 = 3 /\
    lowercase_word (a1 ++ a2 ++ a3)%string = true.
Proof.
  intros Hme Hr Hk Ha Hf Hapi Hd.
  rewrite (book_slot_available_run uid me k s f) by done.
  destruct (generate_fallback_meet_link_shape draws Hd) as (a1 & a2 & a3 & Hl & ? & ? & ? & ?).
  do 2 eexists. exists a1, a2, a3. split_and!; try reflexivity; try done.
  simpl. unfold create_real_google_meet. by rewrite Hapi, Hl.
Qed.

(** C37: When the Calendar API answers without a video entry point (no
    [hangoutLink] and no [conferenceData]), [meetingLink] is [undefined]:
    the booking succeeds and the row keeps the link it had, none for a
    slot never booked, although spec 4.4 and 7 say a booked slot gets a
    non-empty meeting link. *)
Theorem book_slot_without_link uid me k s f notes tz api draws db resp :
  db_users db !! uid = Some me -> user_role me = Scholar ->
  db_slots db !! k = Some s -> slot_status s = Available -> slot_meeting_link s = None ->
  db_users db !! slot_faculty_id s = Some f ->
  api (event_details tz s f me) = Some resp -> mr_meet_link resp = None ->
  exists r b,
    run (book_slot (Some uid) k notes tz api draws) db = (r, set_slots (<[k := b]> (db_slots db)) db) /\
    status r = 200%Z /\ slot_status b = Booked /\ slot_meeting_link b = None.
Proof.
  intros Hme Hr Hk Ha Hn Hf Hapi Hl.
  rewrite (book_slot_available_run uid me k s f) by done.
  do 2 eexists. split_and!; [reflexivity|reflexivity|reflexivity|].
  simpl. unfold create_real_google_meet. by rewrite Hapi, Hl.
Qed.

(** ** Deletion *)

Lemma run_delete_slot uid me k db :
  db_users db !! uid = Some me -> user_role me ∈ [Faculty; Admin] ->
  run (delete_slot (Some uid) k) db =
    match db_slots db !! k with
    | Some s =>
        if bool_decide (slot_faculty_id s = uid) then
          if bool_decide (slot_status s = Booked) then (mkResponse 403 (JError "Cannot delete booked slot"), db)
          else (mkResponse 200 (JMessage "Slot deleted successfully"), set_slots (delete k (db_slots db)) db)
        else (mkResponse 404 (JError "Slot not found"), db)
    | None => (mkResponse 404 (JError "Slot not found"), db)
    end.
Proof.
  intros Hme Hin. unfold delete_slot. rewrite (run_guarded_pass _ me) by done. simpl.
  destruct (db_slots db !! k) as [s|]; simpl; [|done].
  case_bool_decide; simpl; [|done]. by case_bool_decide.
Qed.

(** Deleting a booked slot, as its owner, fails with 403 and changes
    nothing (spec 4.5 and 8). *)
Theorem delete_slot_booked uid me k s db :
  db_users db !! uid = Some me -> user_role me ∈ [Faculty; Admin] ->
  db_slots db !! k = Some s -> slot_faculty_id s = uid -> slot_status s = Booked ->
  run (delete_slot (Some uid) k) db = (mkResponse 403 (JError "Cannot delete booked slot"), db).
Proof.
  intros Hme Hin Hk Ho Hb. rewrite (run_delete_slot uid me) by done.
  by rewrite Hk, !bool_decide_eq_true_2.
Qed.

(** C29: A slot that does not exist and a slot of another faculty member give
    the same 404, and nothing changes (spec 4.5: existence is not leaked). *)
Theorem delete_slot_not_owned uid me k db :
  db_users db !! uid = Some me -> user_role me ∈ [Faculty; Admin] ->
  (forall s, db_slots db !! k = Some s -> slot_faculty_id s <> uid) ->
  run (delete_slot (Some uid) k) db = (mkResponse 404 (JError "Slot not found"), db).
Proof.
  intros Hme Hin Hno. rewrite (run_delete_slot uid me) by done.
  destruct (db_slots db !! k) as [s|] eqn:Hk; [|done].
  by rewrite bool_decide_eq_false_2 by eauto.
Qed.

(** C30: The owner deletes every slot that is not booked: available ones as
    spec 4.5 says, and also cancelled and completed ones, which the spec
    (section 3: "deleted only from available") forbids. *)
Theorem delete_slot_unbooked uid me k s db :
  db_users db !! uid = Some me -> user_role me ∈ [Faculty; Admin] ->
  db_slots db !! k = Some s -> slot_faculty_id s = uid -> slot_status s <> Booked ->
  run (delete_slot (Some uid) k) db =
    (mkResponse 200 (JMessage "Slot deleted successfully"), set_slots (delete k (db_slots db)) db).
Proof.
  intros Hme Hin Hk Ho Hb. rewrite (run_delete_slot uid me) by done.
  by rewrite Hk, bool_decide_eq_true_2, bool_decide_eq_false_2.
Qed.

Lemma slots_okb_sound ss : slots_okb ss = true -> slots_wf ss /\ slots_disjoint ss.
Proof.
  unfold slots_okb. rewrite andb_true_iff, !bool_decide_eq_true. intros [Hw Hd]. split.
  - intros i s Hi. exact (Hw i s Hi).
  - intros i j a b Hi Hj. exact (Hd i a Hi j b Hj).
Qed.
