(* ===== verification/Policies.v ===== *)
(** The row-level security policies of src/database/schema.sql (lines
    57-113) and of the migration add_user_roles_table.sql (lines
    23-66), for a client that talks to the store with an end user's JWT
    ([auth.uid()] is that user's id).  The back end never does: it uses
    the service-role key, which bypasses every policy (Store.v,
    [service_role_uid]); the policies guard direct access through the
    anon client of config/database.js.

    A policy's [USING] clause hides the rows it rejects from UPDATE and
    DELETE (they are not touched, with no error); a [WITH CHECK] clause
    that rejects an inserted row fails the statement.

    The two clients of config/database.js are modelled at the end of
    the definitions: the role of a client's key decides whether a
    statement sent through it is subject to the policies. *)

From S2P Require Import Prelude Proc Schema Store Api Slots.

(** ** The policies *)

(** [EXISTS (SELECT 1 FROM users WHERE users.id = auth.uid() AND users.role IN roles)] *)
Definition caller_has_role (uid : option nat) (roles : list Role) (db : DB) : bool :=
  match uid with
  | Some i => match db_users db !! i with
              | Some u => bool_decide (user_role u ∈ roles)
              | None => false
              end
  | None => false
  end.

(** "Users can update own profile": [USING (auth.uid() = id)]. *)
Definition users_update_policy (uid : option nat) (i : nat) (_ : User) : bool :=
  bool_decide (uid = Some i).

(** "Faculty can create slots": [WITH CHECK] the caller is faculty or admin. *)
Definition slots_insert_policy (uid : option nat) (db : DB) : bool :=
  caller_has_role uid [Faculty; Admin] db.

(** "Faculty can update own slots": [USING (faculty_id = auth.uid() OR] the caller is admin[)]. *)
Definition slots_update_policy (uid : option nat) (db : DB) (s : Slot) : bool :=
  bool_decide (uid = Some (slot_faculty_id s)) || caller_has_role uid [Admin] db.

(** "Faculty can delete own unbooked slots":
    [USING (faculty_id = auth.uid() AND status = 'available')]. *)
Definition slots_delete_policy (uid : option nat) (s : Slot) : bool :=
  bool_decide (uid = Some (slot_faculty_id s)) && bool_decide (slot_status s = Available).

(** "Only admins can insert / update / delete roles" on user_roles. *)
Definition roles_write_policy (uid : option nat) (db : DB) : bool :=
  caller_has_role uid [Admin] db.

(** ** Statements through the policies *)

(** [UPDATE users SET ... WHERE sel] by the caller [uid]: the policy is
    conjoined with the WHERE clause, and the triggers run with the same
    [auth.uid()]. *)
Definition rls_users_update (uid : option nat) (sel : nat -> User -> bool) (f : User -> User)
    (role_set : bool) (db : DB) : DbError + DB :=
  users_update trigger_depth uid (fun i u => users_update_policy uid i u && sel i u) f role_set db.

(** [DELETE FROM slots WHERE sel] by the caller [uid]: the rows the
    policy hides stay. *)
Definition rls_slots_delete (uid : option nat) (sel : nat -> Slot -> bool) (db : DB) : DB :=
  set_slots (filter (fun ks => ~ (sel ks.1 ks.2 && slots_delete_policy uid ks.2 = true)) (db_slots db)) db.

(** [update_slots_updated_at] (schema.sql, lines 51-54): [NEW.updated_at = NOW()]. *)
Definition set_updated_at (now : Z) (s : Slot) : Slot :=
  mkSlot (slot_faculty_id s) (slot_scholar_id s) (slot_date s) (slot_start_time s) (slot_end_time s)
    (slot_status s) (slot_notes s) (slot_meeting_link s) (slot_created_at s) now.

(** [INSERT INTO slots] of the row [s] by the caller [uid]: the WITH
    CHECK of "Faculty can create slots" looks only at the caller's role;
    a rejected row fails the statement. *)
Definition rls_slots_insert (uid : option nat) (s : Slot) (db : DB) : DbError + ((nat * Slot) * DB) :=
  if slots_insert_policy uid db then slots_insert s db else inl PolicyViolation.

(** [UPDATE slots SET ... WHERE sel] by the caller [uid]: the USING
    clause of "Faculty can update own slots" hides the rows it rejects;
    the policy has no WITH CHECK, so PostgreSQL checks the USING
    expression on every new row as well, and a new row that fails it
    fails the statement. *)
Definition rls_slots_update (uid : option nat) (sel : nat -> Slot -> bool) (f : Slot -> Slot)
    (db : DB) : DbError + DB :=
  let touched := filter (fun ks => sel ks.1 ks.2 && slots_update_policy uid db ks.2 = true) (db_slots db) in
  let rows := set_updated_at (db_clock db) ∘ f <$> touched in
  if bool_decide (map_Forall (fun _ s => slots_update_policy uid db s = true) rows)
  then inr (set_slots (rows ∪ db_slots db) db)
  else inl PolicyViolation.

(** [INSERT INTO user_roles ... ON CONFLICT (email) DO UPDATE] by the
    caller [uid]: the INSERT policy "Only admins can insert roles" fails
    the statement for anyone else; for an admin the upsert runs with its
    triggers, with [auth.uid()] the caller. *)
Definition rls_roles_upsert (uid : option nat) (e : string) (r : Role) (now : Z) (db : DB)
    : DbError + DB :=
  if roles_write_policy uid db then roles_upsert trigger_depth uid e r now db else inl PolicyViolation.

(** [DELETE FROM user_roles WHERE sel] by the caller [uid]: "Only
    admins can delete roles" hides every row from anyone else. *)
Definition rls_roles_delete (uid : option nat) (sel : string -> RoleRow -> bool) (db : DB) : DB :=
  if roles_write_policy uid db
  then set_roles (filter (fun er => ~ sel er.1 er.2 = true) (db_roles db)) db
  else db.

(** ** The two clients of config/database.js *)

(** The role a Supabase key carries: the service-role key bypasses
    row-level security ([auth.uid()] is NULL), the anon key is subject
    to it, as the user of the JWT the request sends. *)
Inductive KeyRole := ServiceRoleKey | AnonKey.

(** [createClient(url, key, options)]: the URL and key read from
    [process.env] ([None]: unset) and the [auth] options; supabase-js
    defaults [autoRefreshToken] and [persistSession] to true. *)
Record SupabaseClient := mkSupabaseClient {
  sc_url : option string;
  sc_key : option string;
  sc_key_role : KeyRole;
  sc_auto_refresh_token : bool;
  sc_persist_session : bool
}.

(** The variables of [process.env] the module reads. *)
Record SupabaseEnv := mkSupabaseEnv {
  env_supabase_url : option string;
  env_service_role_key : option string;
  env_anon_key : option string
}.

(** Lines 6-16: [supabaseAdmin], also the default export (line 24),
    the client every router uses. *)
Definition supabase_admin (env : SupabaseEnv) : SupabaseClient :=
  mkSupabaseClient (env_supabase_url env) (env_service_role_key env) ServiceRoleKey false false.

(** Lines 18-22: [supabase], with the anon key and the default options. *)
Definition supabase_anon (env : SupabaseEnv) : SupabaseClient :=
  mkSupabaseClient (env_supabase_url env) (env_anon_key env) AnonKey true true.

(** [DELETE FROM slots WHERE sel] sent through a client with the
    request's JWT [jwt]. *)
Definition client_slots_delete (c : SupabaseClient) (jwt : option nat) (sel : nat -> Slot -> bool)
    (db : DB) : DB :=
  match sc_key_role c with
  | ServiceRoleKey => set_slots (filter (fun ks => ~ sel ks.1 ks.2 = true) (db_slots db)) db
  | AnonKey => rls_slots_delete jwt sel db
  end.

(** [UPDATE users SET ... WHERE sel] sent through a client. *)
Definition client_users_update (c : SupabaseClient) (jwt : option nat) (sel : nat -> User -> bool)
    (f : User -> User) (role_set : bool) (db : DB) : DbError + DB :=
  match sc_key_role c with
  | ServiceRoleKey => users_update trigger_depth service_role_uid sel f role_set db
  | AnonKey => rls_users_update jwt sel f role_set db
  end.

(** ** What the policies guarantee *)

(** C10: The users policy admits no role change: an UPDATE of users sent
    with an end user's JWT touches at most that user's own row, and
    when it would change the role of that row [prevent_self_role_change]
    raises; so whatever it sets, a statement that succeeds leaves every
    role as it was, every other row as it was, and user_roles
    untouched.  (The policy itself does not exclude the role column, as
    its comment says; the trigger does.) *)
Theorem rls_users_update_keeps_roles i sel f rs db db' :
  rls_users_update (Some i) sel f rs db = inr db' ->
  db_roles db' = db_roles db /\
  forall j u', db_users db' !! j = Some u' ->
    exists u, db_users db !! j = Some u /\ user_role u' = user_role u /\ (j <> i -> u' = u).
Proof.
  unfold rls_users_update. rewrite trigger_depth_unfold, users_update_S.
  destruct (select_where_at_most_one (fun j u => users_update_policy (Some i) j u && sel j u) (db_users db) i)
    as [Hn|(u & Hu & Hp & Hs)].
  { intros k v [Hk%bool_decide_eq_true _]%andb_true_iff. congruence. }
  - rewrite Hn. cbn -[set_users]. intros H.
    assert (db' = set_users (db_users db) db) as -> by (destruct rs; by injection H).
    rewrite set_users_id. split; [done|]. intros j u' Hj. by exists u'.
  - rewrite Hs. cbn -[set_users google_id_taken email_taken roles_upsert].
    unfold prevent_self_role_change. rewrite (bool_decide_eq_true_2 (Some i = Some i)) by done.
    destruct (decide (user_role u = user_role (f u))) as [Heq|Hne];
      [rewrite bool_decide_eq_false_2 by (intros Hc; by apply Hc)|
       by rewrite bool_decide_eq_true_2 by done]. simpl.
    destruct (_ || _); [done|]. rewrite bool_decide_eq_true_2 by done.
    intros H. assert (db' = set_users (<[i := f u]> (db_users db)) db) as -> by (destruct rs; by injection H).
    split; [done|]. intros j u' Hj. simpl in Hj. rewrite lookup_insert in Hj.
    case_decide; simplify_eq; [by exists u|]. exists u'. auto.
Qed.

(** What a DELETE leaves of one row. *)
Lemma lookup_filter_not (P : nat -> Slot -> bool) `{!forall ks : nat * Slot, Decision (~ P ks.1 ks.2 = true)}
    (m : gmap nat Slot) k :
  filter (fun ks => ~ P ks.1 ks.2 = true) m !! k =
    match m !! k with Some v => if P k v then None else Some v | None => None end.
Proof.
  rewrite map_lookup_filter. destruct (m !! k) as [v|]; simpl; [|done].
  case_guard as Hg; destruct (P k v) eqn:Hp; simpl in *; try done; exfalso; apply Hg; congruence.
Qed.

(** What the DELETE policy leaves of one slot. *)
Lemma rls_slots_delete_lookup uid sel db k s :
  db_slots db !! k = Some s ->
  db_slots (rls_slots_delete uid sel db) !! k =
    if sel k s && slots_delete_policy uid s then None else Some s.
Proof.
  intros Hk. unfold rls_slots_delete. cbn [set_slots db_slots].
  pose proof (lookup_filter_not (fun j b => sel j b && slots_delete_policy uid b) (db_slots db) k) as E.
  cbn beta in E. by rewrite E, Hk.
Qed.

(** C31: The DELETE policy is the rule of spec section 3, "deleted only
    from available", and the route is not: for a slot of the caller,
    [DELETE FROM slots WHERE id = k] under the policies removes it
    exactly when it is available, while [DELETE /slots/:id], which runs
    with the service-role key and so is not subject to the policy,
    removes it exactly when it is not booked.  The two disagree on
    cancelled and completed slots. *)
Theorem delete_route_vs_policy uid me k s db :
  db_users db !! uid = Some me -> user_role me ∈ [Faculty; Admin] ->
  db_slots db !! k = Some s -> slot_faculty_id s = uid ->
  (db_slots (rls_slots_delete (Some uid) (fun j _ => bool_decide (j = k)) db) !! k = None <->
     slot_status s = Available) /\
  (db_slots (snd (run (delete_slot (Some uid) k) db)) !! k = None <-> slot_status s <> Booked).
Proof.
  intros Hme Hr Hk Ho. rewrite (rls_slots_delete_lookup _ _ _ k s Hk). split.
  - unfold slots_delete_policy. rewrite !bool_decide_eq_true_2 by congruence. simpl.
    case_bool_decide; split; congruence || done.
  - rewrite (run_delete_slot uid me), Hk, bool_decide_eq_true_2 by done.
    case_bool_decide as Hb; simpl; [rewrite Hk; split; congruence|].
    rewrite lookup_delete_eq. tauto.
Qed.

(** The key decides, not the statement: [DELETE FROM slots WHERE id
    = k] sent with a faculty member's JWT through [supabaseAdmin] (the
    client of every router) removes slot [k] whatever its owner and
    status, while through the anon client [supabase] it removes the slot
    exactly when it is that member's and available; neither touches
    another row. *)
Theorem client_delete_by_key env uid k s db :
  db_slots db !! k = Some s ->
  db_slots (client_slots_delete (supabase_admin env) (Some uid) (fun j _ => bool_decide (j = k)) db) !! k = None /\
  (db_slots (client_slots_delete (supabase_anon env) (Some uid) (fun j _ => bool_decide (j = k)) db) !! k = None <->
     slot_faculty_id s = uid /\ slot_status s = Available) /\
  forall c j, j <> k ->
    db_slots (client_slots_delete c (Some uid) (fun j _ => bool_decide (j = k)) db) !! j = db_slots db !! j.
Proof.
  intros Hk. split_and!.
  - unfold client_slots_delete, supabase_admin. cbn [sc_key_role set_slots db_slots].
    pose proof (lookup_filter_not (fun j _ => bool_decide (j = k)) (db_slots db) k) as E. cbn beta in E.
    by rewrite E, Hk, bool_decide_eq_true_2.
  - cbn [client_slots_delete supabase_anon sc_key_role]. rewrite (rls_slots_delete_lookup _ _ _ k s Hk).
    unfold slots_delete_policy. rewrite bool_decide_eq_true_2 by done. simpl.
    case_bool_decide as H1; case_bool_decide as H2; simpl; naive_solver.
  - intros [? ? [|] ? ?] j Hj; unfold client_slots_delete, rls_slots_delete; cbn [sc_key_role set_slots db_slots].
    + pose proof (lookup_filter_not (fun j _ => bool_decide (j = k)) (db_slots db) j) as E. cbn beta in E.
      rewrite E. destruct (db_slots db !! j); [|done]. by rewrite bool_decide_eq_false_2.
    + pose proof (lookup_filter_not (fun j b => bool_decide (j = k) && slots_delete_policy (Some uid) b)
        (db_slots db) j) as E. cbn beta in E.
      rewrite E. destruct (db_slots db !! j); [|done]. by rewrite bool_decide_eq_false_2.
Qed.

(** The rows of [slots] a statement keyed on one id selects. *)
Lemma filter_slot_key (P : Slot -> bool) (m : gmap nat Slot) k v :
  m !! k = Some v ->
  filter (fun ks : nat * Slot => bool_decide (ks.1 = k) && P ks.2 = true) m =
    if P v then {[k := v]} else ∅.
Proof.
  intros Hk. apply map_eq. intros j. apply option_eq. intros x.
  rewrite map_lookup_filter_Some. simpl. rewrite andb_true_iff, bool_decide_eq_true.
  destruct (P v) eqn:Hp; [rewrite lookup_singleton_Some|rewrite lookup_empty]; split.
  - intros (Hj & -> & _). rewrite Hk in Hj. by injection Hj as ->.
  - intros [<- <-]. auto.
  - intros (Hj & -> & Hx). rewrite Hk in Hj. injection Hj as <-. congruence.
  - discriminate.
Qed.

Lemma set_slots_id db : set_slots (db_slots db) db = db.
Proof. by destruct db. Qed.

(** An UPDATE of one slot under the policy: hidden when the caller may
    not update it, refused when the new row is not the caller's, and
    written (with [updated_at] refreshed) otherwise. *)
Lemma rls_slots_update_one uid k s f db :
  db_slots db !! k = Some s ->
  rls_slots_update uid (fun j _ => bool_decide (j = k)) f db =
    if slots_update_policy uid db s then
      let s' := set_updated_at (db_clock db) (f s) in
      if slots_update_policy uid db s' then inr (set_slots (<[k := s']> (db_slots db)) db)
      else inl PolicyViolation
    else inr db.
Proof.
  intros Hk. unfold rls_slots_update. cbn beta.
  rewrite (filter_slot_key (slots_update_policy uid db) _ k s Hk).
  destruct (slots_update_policy uid db s) eqn:Hs.
  - rewrite map_fmap_singleton. cbn [compose].
    destruct (slots_update_policy uid db (set_updated_at (db_clock db) (f s))) eqn:Hs'.
    + rewrite bool_decide_eq_true_2 by (by apply map_Forall_singleton).
      by rewrite <- insert_union_singleton_l.
    + rewrite bool_decide_eq_false_2; [done|]. rewrite map_Forall_singleton. congruence.
  - rewrite fmap_empty, bool_decide_eq_true_2 by apply map_Forall_empty.
    by rewrite (left_id_L ∅ union), set_slots_id.
Qed.


