(* ===== verification/Concurrency.v ===== *)
(** Requests served concurrently.  Each handler's store calls are
    atomic steps, and [Proc.interleave] runs two handlers under an
    explicit schedule: the list of thread numbers whose next store call
    goes first.  Spec section 5 asks that at most one booking of a slot
    succeeds and that accepted slots never overlap; the handlers rely on
    a read followed by a separate write for both, so the schedules below
    break them. *)

From S2P Require Import Prelude Proc Schema Store Api Calendar Slots.

(** Booking: authenticate, fetch the available slot, update, re-fetch. *)
Definition booking_race_schedule : list nat := [0; 0; 1; 1; 0; 0; 1; 1].

(** Creation: authenticate, overlap query, insert. *)
Definition creation_race_schedule : list nat := [0; 0; 1; 1; 0; 1].

(** C16: Lost update.  Two scholars book the same available slot and both
    handlers read it as available before either writes.  Both answer
    200, the first naming its own scholar, and the slot ends booked by
    the second: a confirmed booking is silently overwritten (spec 4.4
    and 8 ask that exactly one of concurrent bookings succeeds). *)
Theorem book_slot_race uid1 me1 uid2 me2 k s f n1 n2 tz api draws db :
  db_users db !! uid1 = Some me1 -> user_role me1 = Scholar ->
  db_users db !! uid2 = Some me2 -> user_role me2 = Scholar ->
  db_slots db !! k = Some s -> slot_status s = Available ->
  db_users db !! slot_faculty_id s = Some f ->
  exists r1 r2 db',
    interleave booking_race_schedule db
      [book_slot (Some uid1) k n1 tz api draws; book_slot (Some uid2) k n2 tz api draws] =
      (db', [Ret r1; Ret r2]) /\
    status r1 = 200%Z /\ status r2 = 200%Z /\
    (exists b1 l1 c1, body r1 = JBooked k b1 l1 c1 /\ slot_scholar_id b1 = Some uid1) /\
    (exists b, db_slots db' !! k = Some b /\ slot_scholar_id b = Some uid2 /\ slot_status b = Booked).
Proof.
  intros H1 R1 H2 R2 Hk Ha Hf.
  unfold book_slot, guarded, authenticated, booking_race_schedule. cbn.
  rewrite H1, R1, bool_decide_eq_true_2 by constructor. cbn.
  rewrite Hk, bool_decide_eq_true_2 by done. cbn. rewrite Hf. cbn.
  rewrite H2, R2, bool_decide_eq_true_2 by constructor. cbn.
  rewrite Hk, bool_decide_eq_true_2 by done. cbn. rewrite Hf. cbn.
  rewrite (alter_insert_present _ k _ s Hk), lookup_insert_eq.
  rewrite (alter_insert_present _ k _ _ (lookup_insert_eq _ _ _)), lookup_insert_eq.
  rewrite !booked_row_faculty, Hf. cbn.
  do 3 eexists. split_and!; [reflexivity|reflexivity|reflexivity| |].
  - do 3 eexists. split; reflexivity.
  - eexists. split; [apply lookup_insert_eq|done].
Qed.

(** C17: Overlapping slots.  One faculty member sends two creation
    requests whose intervals meet; both overlap queries run before
    either insert.  Both answer 201 and the store then holds two
    overlapping slots of that faculty on that date (spec 4.3 and 9). *)
Theorem create_slot_race fid me st1 et1 st2 et2 d tz db :
  db_users db !! fid = Some me -> user_role me = Faculty ->
  (st1 < et1)%Z -> (st2 < et2)%Z ->
  (forall k b, db_slots db !! k = Some b -> slot_faculty_id b <> fid \/ slot_date b <> utc_day d) ->
  (time_of_day tz st1 < time_of_day tz et2)%Z -> (time_of_day tz st2 < time_of_day tz et1)%Z ->
  exists r1 r2 db',
    interleave creation_race_schedule db
      [create_slot (Some fid) (Some st1) (Some et1) (Some d) tz;
       create_slot (Some fid) (Some st2) (Some et2) (Some d) tz] = (db', [Ret r1; Ret r2]) /\
    status r1 = 201%Z /\ status r2 = 201%Z /\ ~ slots_disjoint (db_slots db').
Proof.
  intros Hme Hr Hlt1 Hlt2 Hnone Hov1 Hov2.
  assert (Hsel : forall S E, select_where (fun _ s => bool_decide (slot_faculty_id s = fid) &&
             bool_decide (slot_date s = utc_day d) && overlaps_query S E s) (db_slots db) = []).
  { intros S E. apply select_where_nil. intros k b Hk.
    destruct (Hnone k b Hk); rewrite ?(bool_decide_eq_false_2 (slot_faculty_id b = fid)),
      ?(bool_decide_eq_false_2 (slot_date b = utc_day d)), ?andb_false_r by done; done. }
  unfold create_slot, guarded, authenticated, creation_race_schedule. cbn.
  do 2 (rewrite Hme, Hr, (bool_decide_eq_true_2 (Faculty ∈ [Faculty; Admin])) by constructor;
        rewrite ?(bool_decide_eq_false_2 (et1 <= st1)%Z), ?(bool_decide_eq_false_2 (et2 <= st2)%Z)
          by lia; cbn; rewrite Hsel; cbn).
  do 3 eexists. split_and!; [reflexivity|reflexivity|reflexivity|].
  intros Hdis. simpl in Hdis.
  refine (Hdis (S (db_next db)) (db_next db) _ _ _ _ _ _ _ _).
  - apply lookup_insert_eq.
  - rewrite lookup_insert_ne by lia. apply lookup_insert_eq.
  - lia.
  - done.
  - done.
  - simpl. lia.
Qed.
