(* ===== verification/System.v ===== *)
(** The back end as one system: a request names a route and its
    inputs, [handler] dispatches it to the route's handler, and [step]
    is one request served alone (the serial semantics).  The routers are
    mounted by an application file that is not among the sources; the
    dispatch follows the capabilities of spec section 4.

    On top of it: the slot lifecycle of spec section 3 as an abstract
    transition relation on one row, and the theorems that every served
    request moves each slot along it, that the store invariant
    [system_inv] holds in every reachable store, and that a booked slot
    stays booked by the same scholar in every serial execution. *)

From S2P Require Import Prelude Proc Schema Store Api Auth Users Calendar Slots.

(** ** Requests and their dispatch *)

Inductive Request :=
| GoogleLogin (token : option string) (verified : option Payload) (now : Z)
| GetMe (has_token : bool) (decoded : option Claims)
| GetUsers (tok : Token)
| PatchUserRole (tok : Token) (userId : nat) (role : option string) (now : Z)
| PostRoleByEmail (tok : Token) (email role : option string) (now : Z)
| GetRoles (tok : Token)
| GetFaculties (tok : Token)
| CreateSlot (tok : Token) (start_time end_time date : option Z) (tz : Z)
| GetAvailable (tok : Token) (faculty_id : option nat) (date : option Z) (now : Z)
| BookSlot (tok : Token) (slotId : nat) (notes : option string) (tz : Z)
    (calendar_api : EventDetails -> option MeetResult) (draws : nat -> Z)
| GetMyBookings (tok : Token)
| GetMySlots (tok : Token)
| DeleteSlot (tok : Token) (slotId : nat).

Definition handler (q : Request) : proc DB Response :=
  match q with
  | GoogleLogin t v now => google_login t v now
  | GetMe h d => get_me h d
  | GetUsers tok => get_users tok
  | PatchUserRole tok u r now => patch_user_role tok u r now
  | PostRoleByEmail tok e r now => post_role_by_email tok e r now
  | GetRoles tok => get_roles tok
  | GetFaculties tok => get_faculties tok
  | CreateSlot tok st et d tz => create_slot tok st et d tz
  | GetAvailable tok f d now => get_available tok f d now
  | BookSlot tok k n tz api draws => book_slot tok k n tz api draws
  | GetMyBookings tok => get_my_bookings tok
  | GetMySlots tok => get_my_slots tok
  | DeleteSlot tok k => delete_slot tok k
  end.

(** One request served alone. *)
Definition serve (q : Request) (db : DB) : Response * DB := run (handler q) db.

Inductive step : DB -> DB -> Prop :=
| step_serve q db : step db (snd (serve q db)).

(** ** The slot lifecycle of spec section 3 *)

(** The booking keeps the slot's owner and window. *)
Definition same_window (s s' : Slot) : Prop :=
  slot_faculty_id s' = slot_faculty_id s /\ slot_date s' = slot_date s /\
  slot_start_time s' = slot_start_time s /\ slot_end_time s' = slot_end_time s.

(** What one request may do to the row of one slot id: nothing; create
    it available and free; book an available slot (a scholar and the
    booked status, same owner and window); delete it from available. *)
Inductive slot_transition : option Slot -> option Slot -> Prop :=
| slot_stays o : slot_transition o o
| slot_created s :
    slot_status s = Available -> slot_scholar_id s = None -> slot_transition None (Some s)
| slot_booked s s' :
    slot_status s = Available -> slot_status s' = Booked -> is_Some (slot_scholar_id s') ->
    same_window s s' -> slot_transition (Some s) (Some s')
| slot_deleted s : slot_status s = Available -> slot_transition (Some s) None.

(** A slot row as the routes leave it: available and free, or booked
    with a scholar.  No route writes [cancelled] or [completed]. *)
Definition slot_shape (s : Slot) : Prop :=
  slot_status s = Available /\ slot_scholar_id s = None \/
  slot_status s = Booked /\ is_Some (slot_scholar_id s).

Definition system_inv (db : DB) : Prop :=
  ids_fresh db /\ map_Forall (fun _ s => slot_shape s) (db_slots db).

(** Deciding [system_inv] on a concrete store. *)
Definition system_invb (db : DB) : bool :=
  bool_decide (map_Forall (fun i _ => i < db_next db) (db_users db)) &&
  bool_decide (map_Forall (fun i _ => i < db_next db) (db_slots db)) &&
  bool_decide (map_Forall (fun _ s =>
    slot_status s = Available /\ slot_scholar_id s = None \/
    slot_status s = Booked /\ is_Some (slot_scholar_id s)) (db_slots db)).

(** Requests that never write [slots]: their store calls keep the slot
    table and the freshness of the UUID counter. *)
Definition slots_kept (db db' : DB) : Prop :=
  db_slots db' = db_slots db /\ (ids_fresh db -> ids_fresh db').

(** ** Frame lemmas *)

#[export] Instance slots_kept_preorder : PreOrder slots_kept.
Proof.
  split; [by split|]. intros a b c [Sab Fab] [Sbc Fbc]. split; [congruence|auto].
Qed.

(** The routes that write [slots]. *)
Definition writes_slots (q : Request) : bool :=
  match q with CreateSlot _ _ _ _ _ | BookSlot _ _ _ _ _ _ | DeleteSlot _ _ => true | _ => false end.

Lemma role_frame_slots_kept db db' : role_frame db db' -> slots_kept db db'.
Proof.
  intros (Hs & Hn & Hk). split; [done|]. intros [Hu Hsl]. split.
  - intros i Hi%Hk. rewrite Hn. auto.
  - intros i Hi. rewrite Hn. apply Hsl. by rewrite <- Hs.
Qed.

Lemma users_update_kept depth uid sel f rs db db' :
  users_update depth uid sel f rs db = inr db' -> slots_kept db db'.
Proof. intros H. by eapply role_frame_slots_kept, (proj1 (cascade_frame depth)). Qed.

Lemma roles_upsert_kept depth uid e r ts db db' :
  roles_upsert depth uid e r ts db = inr db' -> slots_kept db db'.
Proof. intros H. by eapply role_frame_slots_kept, (proj2 (cascade_frame depth)). Qed.

Lemma users_insert_kept u db i db' : users_insert u db = inr (i, db') -> slots_kept db db'.
Proof.
  unfold users_insert. destruct (_ || _); [done|]. intros [= <- <-].
  split; [done|]. intros [Hu Hs]. split; simpl.
  - intros j Hj. rewrite lookup_insert_is_Some' in Hj. destruct Hj as [<-|Hj]; [lia|]. by apply Hu in Hj; lia.
  - intros j Hj. apply Hs in Hj. lia.
Qed.

#[export] Hint Resolve users_update_kept roles_upsert_kept users_insert_kept : sched.

(** The frame goals of a handler, one store call at a time. *)
Ltac frame_steps :=
  repeat match goal with
  | |- PreOrder _ => typeclasses eauto
  | |- all_steps _ (bind _ _) => apply all_steps_bind
  | |- all_steps _ (query _) => apply all_steps_query
  | |- all_steps _ (Ret _) => constructor
  | |- all_steps _ (respond _ _) => constructor
  | |- all_steps _ (stmt _) => apply all_steps_stmt
  | |- all_steps _ (stmt_ret _) => apply all_steps_stmt_ret
  | |- all_steps _ (match ?x with _ => _ end) => destruct x
  | |- all_steps _ (if ?b then _ else _) => destruct b
  | |- forall _, _ => intros ?
  end.

Lemma handler_kept q : writes_slots q = false -> all_steps slots_kept (handler q).
Proof.
  destruct q; simpl; intros Hw; try discriminate;
    unfold google_login, resolve_role, save_user, get_me, get_users, patch_user_role,
      post_role_by_email, get_roles, get_faculties, get_available, get_my_bookings, get_my_slots,
      guarded, authenticated;
    frame_steps;
    unfold roles_insert, insert_new_user, refresh_user in *; repeat case_match; simplify_eq; eauto with sched.
Qed.

(** What a booking request does to the store when served alone:
    nothing, or the row of an available slot [k] becomes the booked row. *)
Lemma book_slot_effect tok k notes tz api draws db :
  snd (run (book_slot tok k notes tz api draws) db) = db \/
  exists uid s link, db_slots db !! k = Some s /\ slot_status s = Available /\
    snd (run (book_slot tok k notes tz api draws) db) =
      set_slots (<[k := booked_row uid notes link (db_clock db) s]> (db_slots db)) db.
Proof.
  unfold book_slot, guarded, authenticated.
  destruct tok as [uid|]; simpl; [|auto]. destruct (db_users db !! uid) as [me|]; simpl; [|auto].
  case_bool_decide; simpl; [|auto]. destruct (db_slots db !! k) as [s|] eqn:Hk; simpl; [|auto].
  case_bool_decide as Ha; simpl; [|auto]. right.
  exists uid, s, (create_real_google_meet tz api draws s (db_users db !! slot_faculty_id s) me).
  split_and!; [done|done|].
  rewrite (alter_insert_present _ _ _ s Hk), lookup_insert_eq. simpl.
  by destruct (db_users db !! _).
Qed.

(** What a deletion request does: nothing, or it removes a slot that is
    not booked. *)
Lemma delete_slot_effect tok k db :
  snd (run (delete_slot tok k) db) = db \/
  exists s, db_slots db !! k = Some s /\ slot_status s <> Booked /\
    snd (run (delete_slot tok k) db) = set_slots (delete k (db_slots db)) db.
Proof.
  unfold delete_slot, guarded, authenticated.
  destruct tok as [uid|]; simpl; [|auto]. destruct (db_users db !! uid) as [me|]; simpl; [|auto].
  case_bool_decide; simpl; [|auto]. destruct (db_slots db !! k) as [s|] eqn:Hk; simpl; [|auto].
  case_bool_decide; simpl; [|auto]. case_bool_decide; simpl; [auto|]. right. eauto.
Qed.

Lemma serve_kept q db : writes_slots q = false -> slots_kept db (snd (serve q db)).
Proof. intros Hw. unfold serve. apply all_steps_run; [apply _|]. by apply handler_kept. Qed.

Lemma ids_fresh_none db k : ids_fresh db -> (db_next db <= k)%nat -> db_slots db !! k = None.
Proof. intros [_ Hs] Hk. destruct (db_slots db !! k) eqn:E; [|done]. assert (k < db_next db) by eauto. lia. Qed.

(** One served request, case by case: the invariant after it and the
    lifecycle transition of every slot id. *)
Lemma serve_slots q db :
  system_inv db ->
  system_inv (snd (serve q db)) /\
  forall k, slot_transition (db_slots db !! k) (db_slots (snd (serve q db)) !! k).
Proof.
  intros [[Hu Hs] Hsh]. destruct (writes_slots q) eqn:Hw.
  2: { destruct (serve_kept q db Hw) as [Es Ef]. rewrite Es. split; [split; [apply Ef; by split|by rewrite Es]|].
       intros k. constructor. }
  destruct q; try discriminate; unfold serve; simpl.
  - destruct (create_slot_effect tok start_time end_time date tz db)
      as [-> | (fid & st & et & d & _ & _ & _ & _ & _ & ->)];
      [split; [split; [split|]|]; auto using slot_stays|].
    pose proof (ids_fresh_none db (db_next db) (conj Hu Hs) (le_n _)) as Hn.
    split; [split; [split|]|]; simpl.
    + intros i Hi. apply Hu in Hi. lia.
    + intros i Hi. rewrite lookup_insert_is_Some' in Hi. destruct Hi as [<-|Hi%Hs]; lia.
    + apply map_Forall_insert_2; [left; done|done].
    + intros k. rewrite lookup_insert. case_decide; subst; [rewrite Hn; by constructor|constructor].
  - destruct (book_slot_effect tok slotId notes tz calendar_api draws db)
      as [-> | (uid & s & link & Hk & Ha & ->)]; [split; [split; [split|]|]; auto using slot_stays|].
    split; [split; [split|]|]; simpl.
    + done.
    + intros i Hi. apply Hs. rewrite lookup_insert_is_Some' in Hi. destruct Hi as [<-|]; [by eexists|done].
    + apply map_Forall_insert_2; [right; by split; [|eexists]|done].
    + intros k. rewrite lookup_insert. case_decide; subst; [rewrite Hk|constructor].
      apply slot_booked; [done|done|by eexists|by split_and!].
  - destruct (delete_slot_effect tok slotId db) as [-> | (s & Hk & Hb & ->)];
      [split; [split; [split|]|]; auto using slot_stays|].
    split; [split; [split|]|]; simpl.
    + done.
    + intros i Hi. apply Hs. rewrite lookup_delete_is_Some in Hi. by destruct Hi.
    + by apply map_Forall_delete.
    + intros k. rewrite lookup_delete. case_decide; subst; [rewrite Hk|constructor].
      apply slot_deleted. destruct (Hsh _ _ Hk) as [[]|[]]; done.
Qed.

Lemma system_invb_sound db : system_invb db = true -> system_inv db.
Proof.
  unfold system_invb. rewrite !andb_true_iff, !bool_decide_eq_true. intros [[Hu Hs] Hsh].
  split; [split|done].
  - intros i [u Hi]. exact (Hu i u Hi).
  - intros i [s Hi]. exact (Hs i s Hi).
Qed.

Lemma slot_transition_from_booked s o :
  slot_status s = Booked -> slot_transition (Some s) o -> o = Some s.
Proof. intros Hb Ht. inversion Ht; subst; congruence. Qed.

(** A property that every served request keeps holds along every
    serial execution. *)
Lemma rtc_step_preserves (P : DB -> Prop) db0 db :
  (forall q d, P d -> P (snd (serve q d))) -> P db0 -> rtc step db0 db -> P db.
Proof.
  intros Hq H0 Hr. induction Hr as [|x y z Hxy _ IH]; [done|]. apply IH. inversion Hxy; subst. by apply Hq.
Qed.

(** ** The system theorems *)

(** C8: The invariant [system_inv] (fresh UUID counter; every slot
    available and free, or booked with a scholar) holds in every store
    reachable by serving requests one at a time. *)
Theorem reachable_system_inv db0 db :
  system_inv db0 -> rtc step db0 db -> system_inv db.
Proof. apply rtc_step_preserves. intros q d Hd. by apply serve_slots. Qed.

(** C6: Refinement of the slot lifecycle of spec section 3: along every
    serial execution, the row of each slot id follows a sequence of
    lifecycle transitions (created available, booked once from
    available, deleted only from available). *)
Theorem serial_refines_lifecycle db0 db k :
  system_inv db0 -> rtc step db0 db ->
  rtc slot_transition (db_slots db0 !! k) (db_slots db !! k).
Proof.
  intros H0 Hr. induction Hr as [|x y z Hxy _ IH]; [done|].
  inversion Hxy as [q x']; subst. destruct (serve_slots q x H0) as [Hinv Ht].
  econstructor; [apply Ht|]. by apply IH.
Qed.

(** C7: Served one at a time, requests never change or remove a booked
    slot: once booked, a slot stays booked by the same scholar, with the
    same link, forever (spec section 8: a slot is booked at most once). *)
Theorem booked_slot_stable db0 db k s :
  system_inv db0 -> rtc step db0 db -> db_slots db0 !! k = Some s -> slot_status s = Booked ->
  db_slots db !! k = Some s.
Proof.
  intros H0 Hr. induction Hr as [|x y z Hxy _ IH]; intros Hk Hb; [done|].
  inversion Hxy as [q x']; subst. destruct (serve_slots q x H0) as [Hinv Ht].
  apply IH; [done| |done]. specialize (Ht k). rewrite Hk in Ht. by apply (slot_transition_from_booked s).
Qed.

