(* ===== verification/Frontend.v ===== *)
(** The front end (src/frontend/src and src/unnamed/part_001): the
    route table of App.jsx with its [PrivateRoute] gates, the links of
    the Dashboard, the booking guard and [groupSlotsByDate] of
    AvailableSlots.jsx, the creation form of FacultySlots, and what
    ScholarBookings shows of a booking.  Here a page is its name and a
    redirect its target; what the list pages render is in Views.v.

    The signed-in user of [useAuth()] (AuthContext, not among the
    sources) is the [user] object of the login answer; only its role is
    read by the code modelled here. *)

From S2P Require Import Prelude Proc Schema Store Api Users Calendar Slots System.

Local Open Scope string_scope.

(** ** Routes and their gates (App.jsx) *)

Inductive Page := LoginPage | DashboardPage | AvailableSlotsPage | ScholarBookingsPage
                | FacultySlotsPage | AdminPanelPage.

Inductive View :=
| Spinner                   (** the loading spinner *)
| Redirect (to : string)    (** [<Navigate to=... replace />] *)
| Show (p : Page).          (** the page, inside [Layout] when nested *)

(** [PrivateRoute({ children, allowedRoles })], lines 12-32. *)
Definition private_route (loading : bool) (user : option Role) (allowed : option (list Role))
    (children : View) : View :=
  if loading then Spinner
  else match user with
  | None => Redirect "/login"
  | Some r =>
      match allowed with
      | Some rs => if bool_decide (r ∈ rs) then children else Redirect "/dashboard"
      | None => children
      end
  end.

(** [App()], lines 34-93: the element the router renders for a path.
    The nested routes sit under the [PrivateRoute] of ["/"]. *)
Definition app (loading : bool) (user : option Role) (path : string) : View :=
  if loading then Spinner
  else
  let nested (v : View) := private_route loading user None v in
  if bool_decide (path = "/login") then
    match user with Some _ => Redirect "/dashboard" | None => Show LoginPage end
  else if bool_decide (path = "/") then nested (Redirect "/dashboard")
  else if bool_decide (path = "/dashboard") then nested (Show DashboardPage)
  else if bool_decide (path = "/slots") then nested (Show AvailableSlotsPage)
  else if bool_decide (path = "/my-bookings") then
    nested (private_route loading user (Some [Scholar]) (Show ScholarBookingsPage))
  else if bool_decide (path = "/faculty/slots") then
    nested (private_route loading user (Some [Faculty; Admin]) (Show FacultySlotsPage))
  else if bool_decide (path = "/admin") then
    nested (private_route loading user (Some [Admin]) (Show AdminPanelPage))
  else Redirect "/dashboard".

(** ** The Dashboard (part_001, lines 301-411) *)

(** The links of the cards shown to a role, in order. *)
Definition dashboard_links (user : option Role) : list string :=
  ((if bool_decide (user = Some Scholar) then ["/slots"; "/my-bookings"] else []) ++
   (if bool_decide (user = Some Faculty \/ user = Some Admin) then ["/faculty/slots"; "/slots"] else []) ++
   (if bool_decide (user = Some Admin) then ["/admin"] else []))%list.

(** [getRoleDescription(role)] *)
Definition role_description (user : option Role) : string :=
  match user with
  | Some Scholar => "Browse available time slots, book assignment demo sessions with faculty, and manage your bookings."
  | Some Faculty => "Create time slots for students to book, view your scheduled sessions, and manage your availability."
  | Some Admin => "Manage all users, promote scholars to faculty role, create slots, and oversee the entire system."
  | None => "Welcome to the Assignment Scheduler platform."
  end.

(** ** Available slots (AvailableSlots.jsx) *)

(** [handleBookSlot(slotId)], lines 48-55: the role check, then
    [POST /slots/:slotId/book] with no body (no notes). *)
Definition handle_book_slot (user : Role) (tok : Token) (slotId : nat) (tz : Z)
    (api : EventDetails -> option MeetResult) (draws : nat -> Z) : option Request :=
  if bool_decide (user <> Scholar) then None
  else Some (BookSlot tok slotId None tz api draws).

(** [grouped[slot.date].push(slot)] on a JavaScript object: string keys
    that are not array indices keep their insertion order. *)
Fixpoint group_insert {A} (d : Z) (x : A) (g : list (Z * list A)) : list (Z * list A) :=
  match g with
  | [] => [(d, [x])]
  | (d', xs) :: g' => if bool_decide (d = d') then (d', (xs ++ [x])%list) :: g'
                      else (d', xs) :: group_insert d x g'
  end.

(** [groupSlotsByDate(slots)], lines 100-109. *)
Definition group_slots_by_date (slots : list (nat * Slot)) : list (Z * list (nat * Slot)) :=
  foldl (fun g s => group_insert (slot_date s.2) s g) [] slots.

(** [grouped[date]] ([undefined] read as the empty group). *)
Fixpoint group_of {A} (d : Z) (g : list (Z * list A)) : list A :=
  match g with
  | [] => []
  | (d', xs) :: g' => if bool_decide (d = d') then xs else group_of d g'
  end.

(** ** Creating a slot (FacultySlots, part_001 lines 35-57) *)

(** The form: the day of the date input and the two time inputs as
    seconds of the day ("HH:MM", sent with ":00"). *)
Record SlotForm := mkSlotForm { form_date : Z; form_start : Z; form_end : Z }.

(** [handleCreateSlot]: the body [{ date, start_time: `${date}T${start}:00`,
    end_time: `${date}T${end}:00` }] as the server's [toDate()] reads it:
    a date-only string is UTC midnight, a date-time without zone is
    server-local time. *)
Definition create_request (tok : Token) (tz : Z) (f : SlotForm) : Request :=
  CreateSlot tok (Some (local_datetime_ms tz (form_date f) (form_start f)))
    (Some (local_datetime_ms tz (form_date f) (form_end f)))
    (Some (form_date f * ms_per_day)%Z) tz.

(** Slots in date order, as [.order('date')] returns them. *)
Definition date_le (a b : nat * Slot) : Prop := (slot_date a.2 <= slot_date b.2)%Z.

(** ** My bookings (ScholarBookings.jsx) *)

(** The Meet box of lines 115-148: shown when [booking.meeting_link] is
    truthy and the status is [booked]. *)
Definition shown_meeting_link (b : Slot) : option string :=
  match slot_meeting_link b with
  | Some l => if bool_decide (l <> "" /\ slot_status b = Booked) then Some l else None
  | None => None
  end.

(** ** My slots (FacultySlots, part_001) *)

(** The Delete button of line 280: only for [slot.status === 'available']. *)
Definition delete_button_shown (s : Slot) : bool := bool_decide (slot_status s = Available).

(** [handleDeleteSlot(slotId)], lines 59-72: [window.confirm], then
    [DELETE /slots/:slotId]. *)
Definition handle_delete_slot (confirmed : bool) (tok : Token) (slotId : nat) : option Request :=
  if confirmed then Some (DeleteSlot tok slotId) else None.

(** [getStatusColor(status)] of FacultySlots, lines 74-87. *)
Definition faculty_status_color (st : SlotStatus) : string :=
  match st with
  | Available => "bg-green-100 text-green-800"
  | Booked => "bg-blue-100 text-blue-800"
  | Completed => "bg-gray-100 text-gray-800"
  | Cancelled => "bg-red-100 text-red-800"
  end.

(** [getStatusColor(status)] of ScholarBookings, lines 29-40. *)
Definition scholar_status_color (st : SlotStatus) : string :=
  match st with
  | Booked => "bg-green-100 text-green-800"
  | Completed => "bg-blue-100 text-blue-800"
  | Cancelled => "bg-red-100 text-red-800"
  | Available => "bg-gray-100 text-gray-800"
  end.

(** ** The creation form round trip *)

Lemma time_of_day_local tz day secs :
  (0 <= secs < 86400)%Z -> time_of_day tz (local_datetime_ms tz day secs) = secs.
Proof.
  intros Hs. unfold time_of_day, local_datetime_ms, ms_per_day.
  replace (day * 86400000 + secs * 1000 - tz + tz)%Z with (secs * 1000 + day * 86400000)%Z by ring.
  rewrite Z_mod_plus_full, Z.mod_small by lia. apply Z.div_mul. lia.
Qed.

Lemma utc_day_midnight day : utc_day (day * ms_per_day) = day.
Proof. unfold utc_day, ms_per_day. apply Z.div_mul. lia. Qed.

Lemma local_datetime_lt tz day s1 s2 :
  (local_datetime_ms tz day s1 < local_datetime_ms tz day s2 <-> s1 < s2)%Z.
Proof. unfold local_datetime_ms. lia. Qed.

(** The FacultySlots form round trip: a faculty member (or admin)
    who types a date and two times of one day, the end after the start,
    with no overlapping slot of theirs that day, gets 201 and the slot
    stored holds exactly the typed date and times, available. *)
Theorem create_form_stores_typed uid me tz f db :
  db_users db !! uid = Some me -> user_role me ∈ [Faculty; Admin] ->
  (0 <= form_start f < form_end f)%Z -> (form_end f < 86400)%Z ->
  slots_wf (db_slots db) ->
  (forall k b, db_slots db !! k = Some b -> slot_faculty_id b = uid -> slot_date b = form_date f ->
     ~ (slot_start_time b < form_end f /\ form_start f < slot_end_time b)%Z) ->
  serve (create_request (Some uid) tz f) db =
    (mkResponse 201 (JSlot (db_next db) (mkSlot uid None (form_date f) (form_start f) (form_end f)
       Available None None (db_clock db) (db_clock db))),
     bump_next (set_slots (<[db_next db := mkSlot uid None (form_date f) (form_start f) (form_end f)
       Available None None (db_clock db) (db_clock db)]> (db_slots db)) db)).
Proof.
  intros Hme Hr Hse He Hwf Hfree. unfold serve, create_request. cbn [handler]. unfold create_slot.
  rewrite (run_guarded_pass _ me) by done. simpl.
  rewrite !time_of_day_local, utc_day_midnight by lia.
  rewrite bool_decide_eq_false_2 by (unfold local_datetime_ms; lia). simpl.
  rewrite (select_where_nil _ (db_slots db)); [done|].
  intros k b Hk. destruct (decide (slot_faculty_id b = uid)) as [Hf|Hf];
    [destruct (decide (slot_date b = form_date f)) as [Hd|Hd]|].
  - rewrite !bool_decide_eq_true_2 by done. simpl.
    rewrite overlaps_query_false by eauto with lia. eauto.
  - by rewrite (bool_decide_eq_false_2 (slot_date b = _)), andb_false_r.
  - by rewrite (bool_decide_eq_false_2 (slot_faculty_id b = _)).
Qed.

(** C15: Every creation request the form can send keeps the invariants of
    spec section 8: well-formed slots stay well formed and the slots of
    a faculty member on a date stay pairwise disjoint, whoever sends it
    and whatever the store holds. *)
Theorem create_form_keeps_disjoint tok tz f db :
  (0 <= form_start f)%Z -> (form_end f < 86400)%Z ->
  slots_wf (db_slots db) -> slots_disjoint (db_slots db) ->
  slots_wf (db_slots (snd (serve (create_request tok tz f) db))) /\
  slots_disjoint (db_slots (snd (serve (create_request tok tz f) db))).
Proof.
  intros Hs He Hwf Hdis. unfold serve, create_request. cbn [handler].
  destruct (create_slot_effect tok (Some (local_datetime_ms tz (form_date f) (form_start f)))
      (Some (local_datetime_ms tz (form_date f) (form_end f))) (Some (form_date f * ms_per_day)%Z) tz db)
    as [-> | (fid & st & et & d & Hst & Het & _ & Hlt & Hnone & ->)]; [done|].
  injection Hst as <-. injection Het as <-. pose proof Hlt as Hlt'. apply local_datetime_lt in Hlt'.
  simpl. apply slots_insert_checked; [done|done|simpl; rewrite !time_of_day_local by lia; lia|exact Hnone].
Qed.

(** ** Grouping the available slots by date *)

Local Close Scope string_scope.

Lemma group_of_insert {A} d d' (x : A) g :
  group_of d (group_insert d' x g) = group_of d g ++ (if bool_decide (d = d') then [x] else []).
Proof.
  induction g as [|[d0 xs] g IH]; simpl; [by case_bool_decide|].
  destruct (decide (d' = d0)) as [<-|Hne].
  - rewrite bool_decide_eq_true_2 by done. simpl. case_bool_decide; by rewrite ?app_nil_r.
  - rewrite bool_decide_eq_false_2 by done. simpl. rewrite IH.
    case_bool_decide; [subst; rewrite bool_decide_eq_false_2 by done|]; by rewrite ?app_nil_r.
Qed.

Lemma group_of_foldl d (slots : list (nat * Slot)) g :
  group_of d (foldl (fun g s => group_insert (slot_date s.2) s g) g slots) =
  group_of d g ++ filter (fun s => slot_date s.2 = d) slots.
Proof.
  revert g. induction slots as [|s slots IH]; intros g; simpl; [by rewrite app_nil_r|].
  rewrite IH, group_of_insert, <- app_assoc. rewrite filter_cons.
  case_bool_decide; case_decide; simplify_eq; done.
Qed.

Lemma group_insert_keys {A} d (x : A) g k :
  k ∈ map fst (group_insert d x g) -> k ∈ map fst g \/ k = d.
Proof.
  induction g as [|[d0 xs] g IH]; simpl; intros Hk.
  - apply list_elem_of_singleton in Hk. by right.
  - rewrite elem_of_cons. case_bool_decide; simpl in Hk; apply elem_of_cons in Hk as [Hk|Hk]; auto.
    destruct (IH Hk); auto.
Qed.

(** Inserting a slot whose date is not before any group key: the keys
    stay increasing and the slot goes last. *)
Lemma group_insert_last {A} d (x : A) g :
  StronglySorted Z.lt (map fst g) -> Forall (fun k => k <= d)%Z (map fst g) ->
  StronglySorted Z.lt (map fst (group_insert d x g)) /\
  Forall (fun k => k <= d)%Z (map fst (group_insert d x g)) /\
  concat (map snd (group_insert d x g)) = concat (map snd g) ++ [x].
Proof.
  induction g as [|[d0 xs] g IH]; intros Hs Hle; simpl; [split_and!; repeat constructor; lia|].
  apply StronglySorted_inv in Hs as [Hs Hlt]. apply Forall_cons in Hle as [Hd0 Hle]. simpl in *.
  case_bool_decide as Hd.
  - subst d0. destruct g as [|[d1 ys] g].
    + simpl. split_and!; [repeat constructor|repeat constructor; lia|by rewrite !app_nil_r].
    +
      apply Forall_cons in Hlt as [H1 _]. apply Forall_cons in Hle as [H2 _]. simpl in *. lia.
  - destruct (IH Hs Hle) as (Hs' & Hle' & Hc). simpl. split_and!.
    + constructor; [done|]. apply Forall_forall. intros k [Hk | ->]%group_insert_keys; [|lia].
      by apply (proj1 (Forall_forall _ _) Hlt).
    + by constructor.
    + by rewrite Hc, app_assoc.
Qed.

#[export] Instance date_le_trans : Transitive date_le.
Proof. unfold date_le. intros a b c. lia. Qed.

Lemma foldl_group_concat (slots : list (nat * Slot)) g :
  StronglySorted Z.lt (map fst g) ->
  Forall (fun k => Forall (fun s => k <= slot_date s.2)%Z slots) (map fst g) ->
  StronglySorted date_le slots ->
  concat (map snd (foldl (fun g s => group_insert (slot_date s.2) s g) g slots)) =
  concat (map snd g) ++ slots.
Proof.
  revert g. induction slots as [|s slots IH]; intros g Hs Hk Hsort; simpl; [by rewrite app_nil_r|].
  apply StronglySorted_inv in Hsort as [Hsort Hhd].
  destruct (group_insert_last (slot_date s.2) s g Hs) as (Hs' & _ & Hc).
  { eapply Forall_impl; [exact Hk|]. intros k Hks. by apply Forall_cons in Hks as [? _]. }
  rewrite IH; [by rewrite Hc, <- app_assoc|done| |done].
  apply Forall_forall. intros k [Hkg | ->]%group_insert_keys.
  - pose proof (proj1 (Forall_forall _ _) Hk k Hkg) as Hks. by apply Forall_cons in Hks as [_ ?].
  - exact Hhd.
Qed.

Lemma sorted_date_le l : Sorted date_start_le l -> Sorted date_le l.
Proof.
  induction 1 as [|a l Hs IH Hhd]; constructor; [done|].
  destruct Hhd; constructor. unfold date_le, date_start_le in *. lia.
Qed.

#[export] Instance date_start_le_total : Total date_start_le.
Proof. intros a b. unfold date_start_le. lia. Qed.

(** [groupSlotsByDate] puts under each date exactly the slots of
    that date, in the order of the list it is given. *)
Theorem group_slots_by_date_filter d slots :
  group_of d (group_slots_by_date slots) = filter (fun s => slot_date s.2 = d) slots.
Proof. unfold group_slots_by_date. by rewrite group_of_foldl. Qed.

(** On a list in date order, reading the groups one after the other
    gives back the list: every slot is shown once, dates in order. *)
Theorem group_slots_by_date_sorted slots :
  Sorted date_le slots -> concat (map snd (group_slots_by_date slots)) = slots.
Proof.
  intros Hs. unfold group_slots_by_date. rewrite foldl_group_concat; [done|constructor|constructor|].
  apply Sorted_StronglySorted; [apply _|exact Hs].
Qed.

(** C39: The Available Slots page lists every slot of the answer of
    [GET /slots/available] exactly once, grouped by date in date order:
    the route sorts by date and start time, and the grouping keeps
    that order. *)
Theorem available_page_lists_all tok fid d now db l :
  fst (run (get_available tok fid d now) db) = mkResponse 200 (JSlots l) ->
  concat (map snd (group_slots_by_date l)) = l.
Proof.
  unfold get_available, authenticated. destruct tok as [uid|]; simpl; [|discriminate].
  destruct (db_users db !! uid); simpl; [|discriminate]. intros [= <-].
  apply group_slots_by_date_sorted, sorted_date_le. unfold by_date_start.
  apply Sorted_merge_sort; apply _.
Qed.

(** ** Page gates against the API's role checks *)

Local Open Scope string_scope.

Lemma role_gate (r : Role) (rs : list Role) p :
  (if bool_decide (r ∈ rs) then Show p else Redirect "/dashboard") = Show p <-> r ∈ rs.
Proof. case_bool_decide; split; congruence || done. Qed.

(** A handler behind [requireRole(roles)] answers 403 exactly when the
    caller's role is not listed, if the handler itself never does. *)
Lemma guarded_forbidden_iff uid me roles k db :
  db_users db !! uid = Some me -> status (fst (run (k uid me) db)) <> 403%Z ->
  (status (fst (run (guarded (Some uid) roles k) db)) <> 403%Z <-> user_role me ∈ roles).
Proof.
  intros Hme Hk. destruct (decide (user_role me ∈ roles)) as [Hin|Hin].
  - rewrite (run_guarded_pass _ me) by done. tauto.
  - rewrite (run_guarded_forbidden _ me) by done. simpl. tauto.
Qed.

(** C27: The page gates of App.jsx agree with the role checks of the API
    each page calls: a signed-in user sees My Bookings exactly when
    [GET /slots/my-bookings] lets them in, My Slots exactly when
    [GET /slots/my-slots] does, and the Admin Panel exactly when
    [GET /users] does. *)
Theorem page_gates_match_api uid me db :
  db_users db !! uid = Some me ->
  (app false (Some (user_role me)) "/my-bookings" = Show ScholarBookingsPage <->
     status (fst (run (get_my_bookings (Some uid)) db)) <> 403%Z) /\
  (app false (Some (user_role me)) "/faculty/slots" = Show FacultySlotsPage <->
     status (fst (run (get_my_slots (Some uid)) db)) <> 403%Z) /\
  (app false (Some (user_role me)) "/admin" = Show AdminPanelPage <->
     status (fst (run (get_users (Some uid)) db)) <> 403%Z).
Proof.
  intros Hme. unfold get_my_bookings, get_my_slots, get_users.
  rewrite !(guarded_forbidden_iff uid me) by (done || (cbn; lia)).
  split_and!; [rewrite <- (role_gate _ _ ScholarBookingsPage)|rewrite <- (role_gate _ _ FacultySlotsPage)
              |rewrite <- (role_gate _ _ AdminPanelPage)]; reflexivity.
Qed.

(** Every card link the Dashboard shows to a signed-in user opens a
    page for that user: no card leads to a redirect. *)
Theorem dashboard_links_open r l :
  l ∈ dashboard_links (Some r) -> exists p, app false (Some r) l = Show p.
Proof.
  destruct r; cbn; intros Hl;
    repeat (apply elem_of_cons in Hl as [->|Hl]; [eexists; reflexivity|]); by apply elem_of_nil in Hl.
Qed.

(** Past the role check, the booking route never answers 403. *)
Lemma book_slot_not_forbidden uid me k notes tz api draws db :
  db_users db !! uid = Some me -> user_role me = Scholar ->
  status (fst (run (book_slot (Some uid) k notes tz api draws) db)) <> 403%Z.
Proof.
  intros Hme Hr. unfold book_slot. rewrite (run_guarded_pass _ me); [|done|rewrite Hr; constructor].
  simpl. repeat (case_match; simpl); discriminate.
Qed.

(** C19: The Book button and [handleBookSlot] agree with the API: a
    signed-in user for whom the page refuses to send the request is
    exactly one whom [POST /slots/:id/book] would refuse with 403,
    leaving the store unchanged. *)
Theorem book_button_matches_api uid me k tz api draws db :
  db_users db !! uid = Some me ->
  (handle_book_slot (user_role me) (Some uid) k tz api draws = None <->
   status (fst (run (book_slot (Some uid) k None tz api draws) db)) = 403%Z).
Proof.
  intros Hme. unfold handle_book_slot. destruct (decide (user_role me = Scholar)) as [Hr|Hr].
  - rewrite bool_decide_eq_false_2 by tauto. split; [discriminate|].
    intros H. by destruct (book_slot_not_forbidden uid me k None tz api draws db Hme Hr).
  - rewrite bool_decide_eq_true_2 by done. unfold book_slot.
    rewrite (run_guarded_forbidden _ me); [done|done|]. by intros ?%list_elem_of_singleton.
Qed.


(** C34: The My Slots page offers deletion only of available slots: a
    confirmed click on a Delete button of the list that
    [GET /slots/my-slots] answered sends [DELETE /slots/:id], which
    succeeds and removes exactly that slot, an available one.  Through
    the page, the spec's rule "deleted only from available" holds even
    though the route itself also deletes cancelled and completed slots. *)
Theorem faculty_page_deletes_available uid me db l k s :
  db_users db !! uid = Some me -> user_role me ∈ [Faculty; Admin] ->
  fst (run (get_my_slots (Some uid)) db) = mkResponse 200 (JSlots l) ->
  (k, s) ∈ l -> delete_button_shown s = true ->
  handle_delete_slot true (Some uid) k = Some (DeleteSlot (Some uid) k) /\
  slot_status s = Available /\
  serve (DeleteSlot (Some uid) k) db =
    (mkResponse 200 (JMessage "Slot deleted successfully"), set_slots (delete k (db_slots db)) db).
Proof.
  intros Hme Hr Hl Hin Hb. apply bool_decide_eq_true in Hb.
  unfold get_my_slots in Hl. rewrite (run_guarded_pass _ me) in Hl by done.
  simpl in Hl. injection Hl as <-.
  unfold by_date_start in Hin. rewrite merge_sort_Permutation, elem_of_select_where in Hin.
  destruct Hin as [Hk Ho%bool_decide_eq_true]. split_and!; [done|done|].
  unfold serve. cbn [handler]. rewrite (run_delete_slot uid me) by done.
  by rewrite Hk, bool_decide_eq_true_2, bool_decide_eq_false_2 by (rewrite ?Hb; done).
Qed.
