(* ===== verification/Pages.v ===== *)
(** The three list pages of the front end as clients of the API: what
    each page holds (a React state record), what its actions send
    (values of [System.Request], served by [System.serve]) and what
    they leave: the new page state, the toasts raised, in order, and
    the store after the requests.  FacultySlots is in
    src/unnamed/part_001, AvailableSlots and ScholarBookings in
    src/frontend/src/pages.

    axios resolves on a 2xx answer and rejects on any other, so every
    action has a success branch and a [catch] branch, as the code has.
    A list read from an answer ([response.data.slots]) is [None] when
    the field is missing ([undefined]). *)

From S2P Require Import Prelude Proc Schema Store Api Users Calendar Slots System Frontend.

Local Open Scope string_scope.

(** ** What the pages read of an answer *)

(** A toast of react-hot-toast; the booking toast shows the meeting
    link and the calendar link of the answer. *)
Inductive Toast :=
| ToastSuccess (msg : string)
| ToastError (msg : string)
| ToastBooked (meeting_link : option string) (calendar_link : option string).

#[export] Instance Toast_eq_dec : EqDecision Toast.
Proof. solve_decision. Defined.

(** axios resolves exactly on a 2xx status. *)
Definition axios_ok (r : Response) : bool := bool_decide (200 <= status r < 300)%Z.

(** [error.response?.data?.error || fallback]: the server's message
    when its body has a non-empty [error] field. *)
Definition error_text (r : Response) (fallback : string) : string :=
  match body r with
  | JError m => if bool_decide (m = "") then fallback else m
  | _ => fallback
  end.

(** [response.data.slots]: [undefined] unless the body is [{ slots }]. *)
Definition slots_field (b : Body) : option (list (nat * Slot)) :=
  match b with JSlots ss => Some ss | _ => None end.

(** [response.data.bookings]: [undefined] unless the body is [{ bookings }]. *)
Definition bookings_field (b : Body) : option (list (nat * Slot)) :=
  match b with JBookings bs => Some bs | _ => None end.

(** [response.data.faculties]: [undefined] unless the body is [{ faculties }]. *)
Definition faculties_field (b : Body) : option (list (nat * User)) :=
  match b with JFaculties fs => Some fs | _ => None end.

(** The key a page reads from the answer of the route it calls:
    [slots] for [/slots/my-slots] and [/slots/available], [bookings]
    for [/slots/my-bookings]. *)
Definition page_field (q : Request) : Body -> option (list (nat * Slot)) :=
  match q with GetMyBookings _ => bookings_field | _ => slots_field end.

(** ** FacultySlots (part_001, lines 8-87) *)

(** [slots], [loading], [showCreateForm] and [formData]; the form is
    [None] when cleared ([{ date: '', start_time: '', end_time: '' }]). *)
Record FacultySlotsState := mkFacultySlotsState {
  fs_slots : option (list (nat * Slot));
  fs_loading : bool;
  fs_show_form : bool;
  fs_form : option SlotForm
}.

(** [fetchSlots], lines 22-33: [GET /slots/my-slots]; [finally]
    clears [loading]. *)
Definition fetch_my_slots (tok : Token) (p : FacultySlotsState) (db : DB)
    : FacultySlotsState * list Toast * DB :=
  let '(r, db') := serve (GetMySlots tok) db in
  if axios_ok r
  then (mkFacultySlotsState (slots_field (body r)) false (fs_show_form p) (fs_form p), [], db')
  else (mkFacultySlotsState (fs_slots p) false (fs_show_form p) (fs_form p),
        [ToastError "Failed to load your slots"], db').

(** [handleCreateSlot], lines 35-57, on the submitted form (its three
    inputs are [required], lines 117-147, so a cleared form is never
    submitted): [POST /slots], then the toast, the form hidden and
    cleared, and [fetchSlots]. *)
Definition submit_create_slot (tok : Token) (tz : Z) (p : FacultySlotsState) (db : DB)
    : FacultySlotsState * list Toast * DB :=
  match fs_form p with
  | None => (p, [], db)
  | Some f =>
      let '(r, db1) := serve (create_request tok tz f) db in
      if axios_ok r then
        let '(p', ts, db2) := fetch_my_slots tok (mkFacultySlotsState (fs_slots p) (fs_loading p) false None) db1 in
        (p', ToastSuccess "Slot created successfully!" :: ts, db2)
      else (p, [ToastError (error_text r "Failed to create slot")], db1)
  end.

(** [handleDeleteSlot], lines 59-72: the confirmation and the request of
    [Frontend.handle_delete_slot], then the toast and [fetchSlots]. *)
Definition delete_slot_clicked (confirmed : bool) (tok : Token) (k : nat) (p : FacultySlotsState)
    (db : DB) : FacultySlotsState * list Toast * DB :=
  match handle_delete_slot confirmed tok k with
  | None => (p, [], db)
  | Some q =>
      let '(r, db1) := serve q db in
      if axios_ok r then
        let '(p', ts, db2) := fetch_my_slots tok p db1 in
        (p', ToastSuccess "Slot deleted successfully!" :: ts, db2)
      else (p, [ToastError (error_text r "Failed to delete slot")], db1)
  end.

(** ** AvailableSlots (AvailableSlots.jsx, lines 9-98) *)

(** [slots], [loading], [selectedDate] and [selectedFaculty] ([None]
    for ''), [faculties]. *)
Record AvailableSlotsState := mkAvailableSlotsState {
  as_slots : option (list (nat * Slot));
  as_loading : bool;
  as_date : option Z;
  as_faculty : option nat;
  as_faculties : option (list (nat * User))
}.

(** [fetchFaculties], lines 22-29: a failure is only logged. *)
Definition fetch_faculties (tok : Token) (p : AvailableSlotsState) (db : DB)
    : AvailableSlotsState * list Toast * DB :=
  let '(r, db') := serve (GetFaculties tok) db in
  if axios_ok r
  then (mkAvailableSlotsState (as_slots p) (as_loading p) (as_date p) (as_faculty p)
          (faculties_field (body r)), [], db')
  else (p, [], db').

(** [fetchSlots], lines 31-46: the filters go as query parameters only
    when set; [now] is the server's clock. *)
Definition fetch_available (tok : Token) (now : Z) (p : AvailableSlotsState) (db : DB)
    : AvailableSlotsState * list Toast * DB :=
  let '(r, db') := serve (GetAvailable tok (as_faculty p) (as_date p) now) db in
  if axios_ok r
  then (mkAvailableSlotsState (slots_field (body r)) false (as_date p) (as_faculty p) (as_faculties p),
        [], db')
  else (mkAvailableSlotsState (as_slots p) false (as_date p) (as_faculty p) (as_faculties p),
        [ToastError "Failed to load available slots"], db').

(** The effect of lines 17-20: on mount and on every filter change,
    [fetchFaculties] then [fetchSlots]. *)
Definition available_effect (tok : Token) (now : Z) (p : AvailableSlotsState) (db : DB)
    : AvailableSlotsState * list Toast * DB :=
  let '(p1, ts1, db1) := fetch_faculties tok p db in
  let '(p2, ts2, db2) := fetch_available tok now p1 db1 in
  (p2, (ts1 ++ ts2)%list, db2).

(** [handleBookSlot], lines 48-98: the role check and the request of
    [Frontend.handle_book_slot], then the toast with [meetingLink] and
    [calendarLink], and [fetchSlots]. *)
Definition book_slot_clicked (user : Role) (tok : Token) (k : nat) (tz : Z)
    (api : EventDetails -> option MeetResult) (draws : nat -> Z) (now : Z)
    (p : AvailableSlotsState) (db : DB) : AvailableSlotsState * list Toast * DB :=
  match handle_book_slot user tok k tz api draws with
  | None => (p, [ToastError "Only scholars can book slots"], db)
  | Some q =>
      let '(r, db1) := serve q db in
      if axios_ok r then
        let t := match body r with
                 | JBooked _ _ ml cl => ToastBooked ml (Some cl)
                 | _ => ToastBooked None None
                 end in
        let '(p', ts, db2) := fetch_available tok now p db1 in
        (p', t :: ts, db2)
      else (p, [ToastError (error_text r "Failed to book slot")], db1)
  end.

(** ** ScholarBookings (ScholarBookings.jsx, lines 8-27) *)

Record ScholarBookingsState := mkScholarBookingsState {
  sb_bookings : option (list (nat * Slot));
  sb_loading : bool
}.

(** [fetchBookings], lines 16-27: [GET /slots/my-bookings]. *)
Definition fetch_bookings (tok : Token) (p : ScholarBookingsState) (db : DB)
    : ScholarBookingsState * list Toast * DB :=
  let '(r, db') := serve (GetMyBookings tok) db in
  if axios_ok r then (mkScholarBookingsState (bookings_field (body r)) false, [], db')
  else (mkScholarBookingsState (sb_bookings p) false, [ToastError "Failed to load your bookings"], db').

(** The filter of [GET /slots/available] (users.js, lines 411-426), for the theorems below. *)
Definition available_filter (now : Z) (fid : option nat) (d : option Z) (s : Slot) : bool :=
  bool_decide (slot_status s = Available) && bool_decide (utc_day now <= slot_date s)%Z &&
  match fid with Some f => bool_decide (slot_faculty_id s = f) | None => true end &&
  match d with Some d => bool_decide (slot_date s = d) | None => true end.

(** ** The answers of the list routes *)

Lemma axios_ok_status r : axios_ok r = true <-> (200 <= status r < 300)%Z.
Proof. apply bool_decide_eq_true. Qed.

Lemma axios_ok_2xx c b : (200 <= c < 300)%Z -> axios_ok (mkResponse c b) = true.
Proof. intros. by apply axios_ok_status. Qed.

Lemma axios_ok_error c b : ~ (200 <= c < 300)%Z -> axios_ok (mkResponse c b) = false.
Proof. intros. by apply bool_decide_eq_false. Qed.

Lemma elem_of_by_date_start (P : nat -> Slot -> bool) (m : gmap nat Slot) k b :
  (k, b) ∈ by_date_start (select_where P m) <-> m !! k = Some b /\ P k b = true.
Proof. unfold by_date_start. by rewrite merge_sort_Permutation, elem_of_select_where. Qed.

Lemma serve_get_my_slots uid me db :
  db_users db !! uid = Some me -> user_role me ∈ [Faculty; Admin] ->
  serve (GetMySlots (Some uid)) db =
    (mkResponse 200 (JSlots (by_date_start (select_where (fun _ s => bool_decide (slot_faculty_id s = uid))
                                                       (db_slots db)))), db).
Proof. intros Hme Hr. unfold serve. cbn [handler]. unfold get_my_slots. by rewrite (run_guarded_pass _ me). Qed.

Lemma serve_get_available uid me fid d now db :
  db_users db !! uid = Some me ->
  serve (GetAvailable (Some uid) fid d now) db =
    (mkResponse 200 (JSlots (by_date_start (select_where (fun _ s => available_filter now fid d s)
                                                       (db_slots db)))), db).
Proof. intros Hme. unfold serve. cbn [handler]. unfold get_available. by rewrite (run_authenticated _ me). Qed.

Lemma serve_get_my_bookings uid me db :
  db_users db !! uid = Some me -> user_role me = Scholar ->
  serve (GetMyBookings (Some uid)) db =
    (mkResponse 200 (JBookings (by_date_start (select_where (fun _ s => bool_decide (slot_scholar_id s = Some uid))
                                                       (db_slots db)))), db).
Proof.
  intros Hme Hr. unfold serve. cbn [handler]. unfold get_my_bookings.
  rewrite (run_guarded_pass _ me); [done|done|]. rewrite Hr. by constructor.
Qed.

(** The store a booking click leaves: the slot booked by the scholar. *)
Lemma book_slot_clicked_store uid me k s f tz api draws now p db :
  db_users db !! uid = Some me -> user_role me = Scholar ->
  db_slots db !! k = Some s -> slot_status s = Available ->
  db_users db !! slot_faculty_id s = Some f ->
  (book_slot_clicked (user_role me) (Some uid) k tz api draws now p db).2 =
    set_slots (<[k := booked_row uid None (create_real_google_meet tz api draws s (Some f) me)
                        (db_clock db) s]> (db_slots db)) db.
Proof.
  intros Hme Hr Hk Ha Hf. unfold book_slot_clicked, handle_book_slot.
  rewrite Hr, bool_decide_eq_false_2 by tauto. unfold serve at 1. cbn [handler].
  rewrite (book_slot_available_run uid me k s f), axios_ok_2xx by (done || lia). simpl.
  unfold fetch_available. by rewrite (serve_get_available uid me), axios_ok_2xx by (done || lia).
Qed.

(** A 2xx answer of a list route carries the list under the key its page reads. *)
Lemma list_route_2xx q db :
  match q with GetMySlots _ | GetMyBookings _ | GetAvailable _ _ _ _ => True | _ => False end ->
  axios_ok (fst (serve q db)) = true -> is_Some (page_field q (body (fst (serve q db)))).
Proof.
  intros Hq. rewrite axios_ok_status. unfold serve.
  destruct q as [| | | | | | | |tok f d now| |tok|tok|]; try done; cbn [handler page_field];
    [unfold get_available|unfold get_my_bookings, guarded|unfold get_my_slots, guarded];
    unfold authenticated; destruct tok as [uid|]; simpl; try lia;
    destruct (db_users db !! uid); simpl; try lia; try case_bool_decide; simpl; try lia; eauto.
Qed.

(** C35: The lists the pages hold are never [undefined]: whenever one of
    the three list routes answers 2xx its body carries the list the page
    reads, and on a failure the page keeps its list, so after
    [fetchSlots] (FacultySlots, AvailableSlots) and [fetchBookings]
    (ScholarBookings) each page holds a list, whatever the token, the
    filters and the store. *)
Theorem fetched_lists_defined tok now fp ap bp db :
  is_Some (fs_slots fp) -> is_Some (as_slots ap) -> is_Some (sb_bookings bp) ->
  is_Some (fs_slots (fetch_my_slots tok fp db).1.1) /\
  is_Some (as_slots (fetch_available tok now ap db).1.1) /\
  is_Some (sb_bookings (fetch_bookings tok bp db).1.1).
Proof.
  intros Hf Ha Hb. unfold fetch_my_slots, fetch_available, fetch_bookings.
  split_and!;
    match goal with |- context [serve ?q db] =>
      destruct (axios_ok (fst (serve q db))) eqn:E;
      [pose proof (list_route_2xx q db I E) | ]; cbn [page_field] in *;
      destruct (serve q db); simpl in *; rewrite ?E; done
    end.
Qed.

(** ** Actions end to end *)

(** C14: Creating a slot from the My Slots page: a faculty member (or
    admin) who submits a form for one day, the end after the start and
    free of their other slots that day, gets the success toast, the form
    hidden and cleared, the spinner off, and the refreshed list shows
    exactly their slots of the new store, the new one among them. *)
Theorem create_form_lists_new_slot uid me tz f p db :
  db_users db !! uid = Some me -> user_role me ∈ [Faculty; Admin] -> fs_form p = Some f ->
  (0 <= form_start f < form_end f)%Z -> (form_end f < 86400)%Z -> slots_wf (db_slots db) ->
  (forall k b, db_slots db !! k = Some b -> slot_faculty_id b = uid -> slot_date b = form_date f ->
     ~ (slot_start_time b < form_end f /\ form_start f < slot_end_time b)%Z) ->
  let s := mkSlot uid None (form_date f) (form_start f) (form_end f) Available None None
             (db_clock db) (db_clock db) in
  let db' := bump_next (set_slots (<[db_next db := s]> (db_slots db)) db) in
  exists l,
    submit_create_slot (Some uid) tz p db =
      (mkFacultySlotsState (Some l) false false None, [ToastSuccess "Slot created successfully!"], db') /\
    (db_next db, s) ∈ l /\
    (forall k b, (k, b) ∈ l <-> db_slots db' !! k = Some b /\ slot_faculty_id b = uid).
Proof.
  intros Hme Hr Hf Hse He Hwf Hfree s db'. unfold submit_create_slot. rewrite Hf.
  rewrite (create_form_stores_typed uid me), axios_ok_2xx by (done || lia). unfold fetch_my_slots.
  rewrite (serve_get_my_slots uid me), axios_ok_2xx by (done || lia). eexists. split; [reflexivity|].
  split; [|intros k b; by rewrite elem_of_by_date_start, bool_decide_eq_true].
  apply elem_of_by_date_start. split; [apply lookup_insert_eq|by apply bool_decide_eq_true].
Qed.

(** A selection that holds a row is not empty. *)
Lemma select_where_length_pos {K V} `{Countable K} (P : K -> V -> bool) (m : gmap K V) k v :
  m !! k = Some v -> P k v = true -> (0 < length (select_where P m))%nat.
Proof.
  intros Hk Hp. assert (Hin : (k, v) ∈ select_where P m) by (by apply elem_of_select_where).
  destruct (select_where P m); [by apply elem_of_nil in Hin|simpl; lia].
Qed.

(** C26: A form that overlaps one of the faculty member's slots that day
    is refused: the page shows the server's message "Time slot overlaps
    with existing slot", keeps the form open as typed and the list as
    it was, and the store is unchanged. *)
Theorem create_overlap_shows_error uid me tz f p db k b :
  db_users db !! uid = Some me -> user_role me ∈ [Faculty; Admin] -> fs_form p = Some f ->
  (0 <= form_start f < form_end f)%Z -> (form_end f < 86400)%Z ->
  db_slots db !! k = Some b -> slot_faculty_id b = uid -> slot_date b = form_date f ->
  (slot_start_time b < form_end f /\ form_start f < slot_end_time b)%Z ->
  submit_create_slot (Some uid) tz p db =
    (p, [ToastError "Time slot overlaps with existing slot"], db).
Proof.
  intros Hme Hr Hf Hse He Hk Ho Hd Hov. unfold submit_create_slot. rewrite Hf.
  unfold serve, create_request. cbn [handler]. unfold create_slot.
  rewrite (run_guarded_pass _ me) by done. simpl.
  rewrite !time_of_day_local, utc_day_midnight by lia.
  rewrite bool_decide_eq_false_2 by (unfold local_datetime_ms; lia). simpl.
  rewrite bool_decide_eq_true_2; [reflexivity|].
  apply (select_where_length_pos _ _ k b Hk). rewrite !bool_decide_eq_true_2 by done.
  simpl. apply bool_decide_eq_true. lia.
Qed.

(** C12: Booking from the Available Slots page: a scholar who books an
    available slot gets the toast with the meeting link obtained for the
    booking and a calendar link, and the refreshed list no longer shows
    the slot: it lists only available slots of the new store, which
    holds the slot booked by the scholar. *)
Theorem booking_hides_slot uid me k s f tz api draws now p db :
  db_users db !! uid = Some me -> user_role me = Scholar ->
  db_slots db !! k = Some s -> slot_status s = Available ->
  db_users db !! slot_faculty_id s = Some f ->
  let link := create_real_google_meet tz api draws s (Some f) me in
  let db' := set_slots (<[k := booked_row uid None link (db_clock db) s]> (db_slots db)) db in
  exists l cal,
    book_slot_clicked (user_role me) (Some uid) k tz api draws now p db =
      (mkAvailableSlotsState (Some l) false (as_date p) (as_faculty p) (as_faculties p),
       [ToastBooked link (Some cal)], db') /\
    (forall j b, (j, b) ∈ l -> j <> k /\ db_slots db' !! j = Some b /\ slot_status b = Available).
Proof.
  intros Hme Hr Hk Ha Hf link db'. unfold book_slot_clicked, handle_book_slot.
  rewrite Hr, bool_decide_eq_false_2 by tauto. unfold serve at 1. cbn [handler].
  rewrite (book_slot_available_run uid me k s f), axios_ok_2xx by (done || lia). simpl.
  unfold fetch_available. rewrite (serve_get_available uid me), axios_ok_2xx by (done || lia).
  do 2 eexists. split; [reflexivity|]. intros j b [Hj Hb]%elem_of_by_date_start.
  unfold available_filter in Hb. apply andb_true_iff in Hb as [[[Hs%bool_decide_eq_true _]%andb_true_iff _]%andb_true_iff _].
  split_and!; [|done|done]. intros ->. simpl in Hj. rewrite lookup_insert_eq in Hj. by simplify_eq.
Qed.
