(* ===== verification/Views.v ===== *)
(** What the pages render: the JSX of FacultySlots (src/unnamed/part_001,
    lines 89-296), AvailableSlots.jsx (lines 100-222) and
    ScholarBookings.jsx (lines 42-158) as functions from the page state
    of Pages.v to the content shown, the Dashboard of part_001 (lines
    298-398), and the page and handlers of Login.jsx.

    The list routes embed the profiles of a slot's faculty and scholar
    ([faculty:users!slots_faculty_id_fkey(...)], users.js lines 413-416,
    543-547, 577-580, 599-602); the answer bodies of Api.v carry the
    slot rows only, so a view takes the users table the list query read
    and performs the join itself.  Styling is not modelled: a card is
    the data it shows, a badge its colour class and its text.

    A render that throws (a field of [undefined] or [null]) unmounts the
    page: the view is then [None]. *)

From S2P Require Import Prelude Proc Schema Store Api Auth Users Calendar Slots System Frontend Pages.

Local Open Scope string_scope.

(** ** Shared pieces *)

(** The list section of a page: the spinner, the empty-state box, or the items. *)
Inductive ListView (A : Type) :=
| ListSpinner
| ListEmpty
| ListItems (items : list A).

Arguments ListSpinner {A}.
Arguments ListEmpty {A}.
Arguments ListItems {A} items.

(** [{x.notes && (...)}]: the Notes block when the notes are truthy. *)
Definition notes_shown (n : option string) : option string := if js_truthy n then n else None.

(** The embedded profile of a foreign key ([null] when the key is null). *)
Definition profile (users : gmap nat User) (id : option nat) : option User := id ≫= (users !!.).

(** ** My Slots (FacultySlots, part_001) *)

(** One row of lines 193-289. *)
Record FacultyCard := mkFacultyCard {
  fc_id : nat;
  fc_badge : string * string;          (** [getStatusColor(slot.status)], [slot.status] *)
  fc_date : Z;
  fc_time : Z * Z;
  fc_booked_by : option User;          (** lines 216-237 *)
  fc_notes : option string;            (** lines 239-244 *)
  fc_meet : option string;             (** lines 245-278 *)
  fc_delete : bool                     (** lines 280-287 *)
}.

(** The Booked by block needs [slot.status === 'booked' && slot.scholar]. *)
Definition faculty_card (users : gmap nat User) (ks : nat * Slot) : FacultyCard :=
  let '(k, s) := ks in
  mkFacultyCard k (faculty_status_color (slot_status s), status_to_string (slot_status s))
    (slot_date s) (slot_start_time s, slot_end_time s)
    (if bool_decide (slot_status s = Booked) then profile users (slot_scholar_id s) else None)
    (notes_shown (slot_notes s)) (shown_meeting_link s) (delete_button_shown s).

Record FacultySlotsView := mkFacultySlotsView {
  fv_toggle : string;                      (** line 100 *)
  fv_form : option (Z * option SlotForm);  (** lines 105-173: the date input's [min] and the values *)
  fv_list : ListView FacultyCard           (** lines 176-293 *)
}.

(** The date input's [min] is [new Date().toISOString().split('T')[0]],
    the UTC day of the browser's clock [now]; [slots.length] of
    [undefined] throws. *)
Definition faculty_slots_view (now : Z) (users : gmap nat User) (p : FacultySlotsState)
    : option FacultySlotsView :=
  let list :=
    if fs_loading p then Some ListSpinner
    else match fs_slots p with
         | None => None
         | Some [] => Some ListEmpty
         | Some ss => Some (ListItems (map (faculty_card users) ss))
         end in
  (fun l => mkFacultySlotsView (if fs_show_form p then "Cancel" else "+ Create Slot")
              (if fs_show_form p then Some (utc_day now, fs_form p) else None) l) <$> list.

(** Line 97: the header button toggles the form. *)
Definition toggle_create_form (p : FacultySlotsState) : FacultySlotsState :=
  mkFacultySlotsState (fs_slots p) (fs_loading p) (negb (fs_show_form p)) (fs_form p).

(** Line 159, the form's Cancel button, and line 184, "Create your first
    slot": they hide and show the form; [formData] is kept. *)
Definition set_show_create_form (b : bool) (p : FacultySlotsState) : FacultySlotsState :=
  mkFacultySlotsState (fs_slots p) (fs_loading p) b (fs_form p).

(** ** Available Slots (AvailableSlots.jsx) *)

(** One card of lines 174-212: [slot.faculty.picture] of a missing
    faculty throws. *)
Record AvailableCard := mkAvailableCard {
  ac_id : nat;
  ac_faculty : User;
  ac_time : Z * Z;
  ac_book : bool                         (** lines 203-210 *)
}.

Definition available_card (role : Role) (users : gmap nat User) (ks : nat * Slot)
    : option AvailableCard :=
  let '(k, s) := ks in
  (fun f => mkAvailableCard k f (slot_start_time s, slot_end_time s) (bool_decide (role = Scholar)))
    <$> users !! slot_faculty_id s.

Record AvailableSlotsView := mkAvailableSlotsView {
  av_date : option Z;                           (** lines 127-132 *)
  av_options : list (option nat * string);      (** lines 138-149 *)
  av_list : ListView (Z * list AvailableCard)   (** lines 155-219: one box per day *)
}.

(** [groupSlotsByDate(slots)] runs before the JSX, loading or not, so
    [undefined] slots throw; so does [faculties.map] of [undefined]. *)
Definition available_slots_view (role : Role) (users : gmap nat User) (p : AvailableSlotsState)
    : option AvailableSlotsView :=
  ss ← as_slots p;
  fs ← as_faculties p;
  let grouped := group_slots_by_date ss in
  list ← (if as_loading p then Some ListSpinner
           else match grouped with
                | [] => Some ListEmpty
                | _ => ListItems <$> mapM (fun dg => pair dg.1 <$> mapM (available_card role users) dg.2) grouped
                end);
  Some (mkAvailableSlotsView (as_date p)
          ((None, "All Faculties") :: map (fun iu => (Some iu.1, user_name iu.2)) fs) list).

(** Lines 130 and 140: the date input and the faculty select set the
    filters ([''] is [None]); the effect of lines 17-20
    ([Pages.available_effect]) then fetches again. *)
Definition set_selected_date (d : option Z) (p : AvailableSlotsState) : AvailableSlotsState :=
  mkAvailableSlotsState (as_slots p) (as_loading p) d (as_faculty p) (as_faculties p).

Definition set_selected_faculty (f : option nat) (p : AvailableSlotsState) : AvailableSlotsState :=
  mkAvailableSlotsState (as_slots p) (as_loading p) (as_date p) f (as_faculties p).

(** ** My Bookings (ScholarBookings.jsx) *)

(** One card of lines 66-151. *)
Record BookingCard := mkBookingCard {
  bc_id : nat;
  bc_faculty : User;                     (** lines 70-84 *)
  bc_date : Z;
  bc_time : Z * Z;
  bc_badge : string * string;            (** lines 98-106 *)
  bc_notes : option string;              (** lines 109-114 *)
  bc_meet : option string                (** lines 115-148 *)
}.

Definition booking_card (users : gmap nat User) (ks : nat * Slot) : option BookingCard :=
  let '(k, s) := ks in
  (fun f => mkBookingCard k f (slot_date s) (slot_start_time s, slot_end_time s)
              (scholar_status_color (slot_status s), status_to_string (slot_status s))
              (notes_shown (slot_notes s)) (shown_meeting_link s))
    <$> users !! slot_faculty_id s.

Definition scholar_bookings_view (users : gmap nat User) (p : ScholarBookingsState)
    : option (ListView BookingCard) :=
  if sb_loading p then Some ListSpinner
  else match sb_bookings p with
       | None => None
       | Some [] => Some ListEmpty
       | Some bs => ListItems <$> mapM (booking_card users) bs
       end.

(** The foreign keys of [slots] (schema.sql, lines 21-22): the faculty
    and the scholar of a slot are rows of [users]; the joins of the list
    routes find them. *)
Definition slots_fk (db : DB) : Prop :=
  map_Forall (fun _ s => is_Some (db_users db !! slot_faculty_id s) /\
                         forall j, slot_scholar_id s = Some j -> is_Some (db_users db !! j))
             (db_slots db).

(** ** Login (Login.jsx) *)

(** [loginWithGoogle(credential)] of AuthContext (not among the
    sources, spec section 4.1): [POST /auth/google] with the credential;
    on a 2xx answer the session holds the answered user, otherwise the
    promise rejects ([None]).  [verify] is Google's check of the ID
    token ([verifyIdToken]). *)
Definition login_with_google (verify : string -> option Payload) (now : Z) (credential : option string)
    (db : DB) : option User * DB :=
  let '(r, db') := serve (GoogleLogin credential (credential ≫= verify) now) db in
  (if axios_ok r then match body r with JAuth _ _ u => Some u | _ => None end else None, db').

(** [handleGoogleSuccess], lines 7-13: a rejection is caught and logged;
    the session keeps its user.  The console lines are the result's
    second component. *)
Definition handle_google_success (verify : string -> option Payload) (now : Z)
    (credential : option string) (session : option User) (db : DB) : option User * list string * DB :=
  let '(u, db') := login_with_google verify now credential db in
  match u with
  | Some u => (Some u, [], db')
  | None => (session, ["Login failed:"], db')
  end.

(** [handleGoogleError], lines 15-17: Google's widget failed. *)
Definition handle_google_error (session : option User) : option User * list string :=
  (session, ["Google login failed"]).

(** The page of Login.jsx, lines 19-51: its texts and the props of the
    [GoogleLogin] widget, whose [onSuccess] and [onError] are the two
    handlers above. *)
Record GoogleLoginProps := mkGoogleLoginProps {
  gl_use_one_tap : bool;
  gl_theme : string;
  gl_size : string;
  gl_text : string;
  gl_shape : string
}.

Record LoginView := mkLoginView {
  lv_title : string;
  lv_subtitle : string;
  lv_prompt : string;
  lv_widget : GoogleLoginProps;
  lv_notice : string
}.

Definition login_view : LoginView :=
  mkLoginView "Assignment Scheduler" "Schedule your assignment demo sessions"
    "Sign in with your Google account"
    (mkGoogleLoginProps true "outline" "large" "signin_with" "rectangular")
    "By signing in, you agree to use this platform for scheduling assignment demos.".

(** ** The Dashboard (part_001, lines 301-398) *)

(** The props of a [DashboardCard] (the icon is not modelled). *)
Record DashboardCardProps := mkDashboardCardProps {
  dc_title : string;
  dc_description : string;
  dc_link : option string;
  dc_link_text : option string;
  dc_info : bool
}.

(** What [DashboardCard] renders, lines 379-398: the title, the
    description, the link text unless [isInfo], and the whole card
    inside a [Link] to [link] unless [isInfo]. *)
Record CardView := mkCardView {
  cv_title : string;
  cv_description : string;
  cv_link_text : option string;
  cv_href : option string
}.

Definition dashboard_card (p : DashboardCardProps) : CardView :=
  mkCardView (dc_title p) (dc_description p)
    (if dc_info p then None else dc_link_text p)
    (if dc_info p then None else dc_link p).

Definition action_card (title description link link_text : string) : DashboardCardProps :=
  mkDashboardCardProps title description (Some link) (Some link_text) false.

(** The cards of lines 316-366 for a role, in order, then the info card
    with [getRoleDescription(user?.role)]. *)
Definition dashboard_cards (user : option Role) : list DashboardCardProps :=
  ((if bool_decide (user = Some Scholar) then
      [action_card "Browse Available Slots" "View and book available time slots from faculty members"
         "/slots" "View Slots";
       action_card "My Bookings" "View your scheduled assignment demo sessions"
         "/my-bookings" "View Bookings"] else []) ++
   (if bool_decide (user = Some Faculty \/ user = Some Admin) then
      [action_card "Manage My Slots" "Create and manage your available time slots"
         "/faculty/slots" "Manage Slots";
       action_card "Available Slots" "View all available slots across faculty"
         "/slots" "View All Slots"] else []) ++
   (if bool_decide (user = Some Admin) then
      [action_card "Admin Panel" "Manage users and promote faculty members" "/admin" "Open Panel"]
    else []) ++
   [mkDashboardCardProps "How It Works" (role_description user) None None true])%list.

(** The page: the welcome line with [user?.name] ([undefined] prints as
    nothing inside JSX), the role line, and the cards. *)
Record DashboardView := mkDashboardView {
  dv_welcome : string;
  dv_role : option Role;
  dv_cards : list CardView
}.

Definition dashboard_view (user : option User) : DashboardView :=
  mkDashboardView ("Welcome, " ++ default "" (user_name <$> user) ++ "!")
    (user_role <$> user) (map dashboard_card (dashboard_cards (user_role <$> user))).

(** ** What the views show *)

Lemma mapM_elem_of {A B} (f : A -> option B) l cs x :
  mapM f l = Some cs -> x ∈ l -> exists c, f x = Some c /\ c ∈ cs.
Proof.
  intros H%mapM_Some_1 [i Hi]%list_elem_of_lookup.
  destruct (Forall2_lookup_l _ _ _ _ _ H Hi) as (c & Hc & Hf).
  exists c. split; [done|]. by eapply list_elem_of_lookup_2.
Qed.

Lemma mapM_total {A B} (f : A -> option B) l :
  (forall x, x ∈ l -> is_Some (f x)) -> exists cs, mapM f l = Some cs.
Proof. intros H. apply mapM_is_Some_2, Forall_forall. exact H. Qed.

(** A list of bookings whose faculty rows exist renders as cards, one
    of which is the card of each booking. *)
Lemma scholar_bookings_view_card users bs k b f :
  (forall j c, (j, c) ∈ bs -> is_Some (users !! slot_faculty_id c)) ->
  (k, b) ∈ bs -> users !! slot_faculty_id b = Some f ->
  exists cards, scholar_bookings_view users (mkScholarBookingsState (Some bs) false) = Some (ListItems cards) /\
    mkBookingCard k f (slot_date b) (slot_start_time b, slot_end_time b)
      (scholar_status_color (slot_status b), status_to_string (slot_status b))
      (notes_shown (slot_notes b)) (shown_meeting_link b) ∈ cards.
Proof.
  intros Hall Hkb Hf. destruct (mapM_total (booking_card users) bs) as [cs Hcs].
  { intros [j c] Hjc. unfold booking_card. destruct (Hall j c Hjc) as [g ->]. by eexists. }
  destruct (mapM_elem_of _ _ _ _ Hcs Hkb) as (c & Hc & Hin). simpl in Hc. rewrite Hf in Hc.
  simpl in Hc. injection Hc as <-. exists cs. split; [|done].
  destruct bs; [by apply elem_of_nil in Hkb|].
  unfold scholar_bookings_view. cbn [sb_loading sb_bookings]. by rewrite Hcs.
Qed.

(** A fetched list of slots renders as one card per slot. *)
Lemma faculty_slots_view_card now users sh form ss k s :
  (k, s) ∈ ss ->
  exists v, faculty_slots_view now users (mkFacultySlotsState (Some ss) false sh form) = Some v /\
    fv_list v = ListItems (map (faculty_card users) ss) /\ faculty_card users (k, s) ∈ map (faculty_card users) ss.
Proof.
  intros Hin. destruct ss as [|x ss]; [by apply elem_of_nil in Hin|].
  eexists. split; [reflexivity|]. split; [done|]. by apply list_elem_of_fmap_2.
Qed.

(** Booking keeps the foreign keys: the faculty is unchanged and the
    scholar is a row of [users]. *)
Lemma slots_fk_book db k s uid me notes link now :
  slots_fk db -> db_slots db !! k = Some s -> db_users db !! uid = Some me ->
  slots_fk (set_slots (<[k := booked_row uid notes link now s]> (db_slots db)) db).
Proof.
  intros Hfk Hk Hu. apply map_Forall_insert_2; [|exact Hfk]. simpl.
  destruct (Hfk k s Hk) as [Hf _]. split; [done|]. intros j [= <-]. by eexists.
Qed.

(** C13: A booking shows on both sides: after a scholar books an available
    slot from the Available Slots page and gets a meeting link, the
    scholar's My Bookings page, once fetched, renders a card for the
    slot with the faculty's profile, the badge "booked" and the Join
    Meeting box with that link; the faculty's My Slots page, once
    fetched, renders the slot with the scholar under "Booked by", the
    same Meet box, and no Delete button. *)
Theorem booking_rendered_both_pages uid me k s f l tz api draws now p bp fp db :
  db_users db !! uid = Some me -> user_role me = Scholar ->
  db_slots db !! k = Some s -> slot_status s = Available ->
  db_users db !! slot_faculty_id s = Some f -> user_role f ∈ [Faculty; Admin] -> slots_fk db ->
  create_real_google_meet tz api draws s (Some f) me = Some l -> l <> "" ->
  let db' := (book_slot_clicked (user_role me) (Some uid) k tz api draws now p db).2 in
  (exists cards c, scholar_bookings_view (db_users db') (fetch_bookings (Some uid) bp db').1.1 =
       Some (ListItems cards) /\ c ∈ cards /\
     bc_id c = k /\ bc_faculty c = f /\ bc_badge c = ("bg-green-100 text-green-800", "booked") /\
     bc_meet c = Some l) /\
  (exists v c, faculty_slots_view now (db_users db') (fetch_my_slots (Some (slot_faculty_id s)) fp db').1.1 =
       Some v /\ (exists cards, fv_list v = ListItems cards /\ c ∈ cards) /\
     fc_id c = k /\ fc_booked_by c = Some me /\ fc_meet c = Some l /\ fc_delete c = false).
Proof.
  intros Hme Hr Hk Ha Hf Hfr Hfk Hl Hne db'. unfold db'.
  rewrite (book_slot_clicked_store uid me k s f) by done. rewrite Hl.
  set (b := booked_row uid None (Some l) (db_clock db) s).
  assert (Hfk' : slots_fk (set_slots (<[k := b]> (db_slots db)) db)) by (by eapply slots_fk_book).
  assert (Hm : shown_meeting_link b = Some l) by (unfold shown_meeting_link; simpl; by rewrite bool_decide_eq_true_2).
  split.
  - unfold fetch_bookings. rewrite (serve_get_my_bookings uid me), axios_ok_2xx by (done || lia). simpl.
    edestruct (scholar_bookings_view_card (db_users db) (by_date_start (select_where
      (fun _ s => bool_decide (slot_scholar_id s = Some uid)) (<[k := b]> (db_slots db)))) k b f)
      as (cards & Hv & Hc); [| |exact Hf|].
    + intros j c [Hj _]%elem_of_by_date_start. exact (proj1 (Hfk' j c Hj)).
    + apply elem_of_by_date_start. split; [apply lookup_insert_eq|by apply bool_decide_eq_true_2].
    + do 2 eexists. split; [exact Hv|]. split; [exact Hc|]. by rewrite <- Hm.
  - unfold fetch_my_slots. rewrite (serve_get_my_slots _ f), axios_ok_2xx by (done || lia). simpl.
    edestruct (faculty_slots_view_card now (db_users db) (fs_show_form fp) (fs_form fp)
      (by_date_start (select_where (fun _ c => bool_decide (slot_faculty_id c = slot_faculty_id s))
         (<[k := b]> (db_slots db)))) k b) as (v & Hv & Hl' & Hc).
    { apply elem_of_by_date_start. split; [apply lookup_insert_eq|by apply bool_decide_eq_true_2]. }
    exists v, (faculty_card (db_users db) (k, b)). split; [exact Hv|]. split; [eauto|].
    simpl. split_and!; [done|done|done|]. by apply bool_decide_eq_false_2.
Qed.

(** C28: Signing in from the Login page: when Google rejects the
    credential (or there is none) the server answers an error before any
    store call, so the page only logs "Login failed:", the session keeps
    its user and the store is unchanged; when Google verifies it (and no
    other account holds the Google id) the session holds the user row
    of the credential's email, with the role of its user_roles entry. *)
Theorem login_page_outcome verify now cred sess db :
  users_ok (db_users db) ->
  match cred ≫= verify with
  | None => handle_google_success verify now cred sess db = (sess, ["Login failed:"], db)
  | Some p => google_id_free p db ->
      exists i u db', handle_google_success verify now cred sess db = (Some u, [], db') /\
        db_users db' !! i = Some u /\ user_email u = p_email p /\
        user_role u = get_user_role (p_email p) db
  end.
Proof.
  intros Hok. unfold handle_google_success, login_with_google, serve. cbn [handler].
  destruct (cred ≫= verify) as [p|] eqn:Hv.
  - intros Hfree. destruct cred as [c|]; [|done].
    destruct (google_login_role c p now db Hok Hfree) as (i & u & db' & Hrun & Hu & He & Hr).
    rewrite Hrun, axios_ok_2xx by lia. simpl. by exists i, u, db'.
  - by destruct cred.
Qed.

(** The links the rendered Dashboard offers are [Frontend.dashboard_links]. *)
Lemma dashboard_view_links u :
  omap cv_href (dv_cards (dashboard_view u)) = dashboard_links (user_role <$> u).
Proof. destruct u as [u|]; [cbn; destruct (user_role u)|]; reflexivity. Qed.

(** No card of the Dashboard is a dead link: each opens its page under
    the route gates of App.jsx for the signed-in user. *)
Lemma dashboard_cards_open u c l :
  c ∈ dv_cards (dashboard_view (Some u)) -> cv_href c = Some l ->
  exists p, app false (Some (user_role u)) l = Show p.
Proof.
  intros Hc Hl. apply dashboard_links_open.
  pose proof (dashboard_view_links (Some u)) as E. simpl in E. rewrite <- E.
  apply list_elem_of_omap. by exists c.
Qed.
