(* ===== verification/RoleSync.v ===== *)
(** The role model of spec section 3 as a system invariant: the UNIQUE
    constraints of [users] hold and the role of every user mirrors the
    user_roles row of its email ([roles_synced]).  Every request served
    alone keeps it (the login, the two admin role routes through the
    trigger cascade, and the other routes, which write neither table),
    so it holds in every reachable store, and then the role a user
    signs in with is the role of their row. *)

From S2P Require Import Prelude Proc Schema Store Api Auth Users Calendar Slots System.

Definition role_inv (db : DB) : Prop := users_ok (db_users db) /\ roles_synced db.

(** Statements that write neither [users] nor [user_roles]. *)
Definition roles_kept (db db' : DB) : Prop :=
  db_users db' = db_users db /\ db_roles db' = db_roles db.

(** The routes that may write [users] or [user_roles]. *)
Definition writes_roles (q : Request) : bool :=
  match q with GoogleLogin _ _ _ | PatchUserRole _ _ _ _ | PostRoleByEmail _ _ _ _ => true | _ => false end.

#[export] Instance roles_kept_preorder : PreOrder roles_kept.
Proof. split; [done|]. intros a b c [Ua Ra] [Ub Rb]. split; congruence. Qed.

(** One row of [INSERT INTO user_roles (email, role, created_at)
    SELECT email, role, created_at FROM users ... ON CONFLICT (email)
    DO NOTHING] (add_user_roles_table.sql, lines 87-93): an email that
    already has a row is skipped; otherwise the row is inserted and
    [sync_user_role] (AFTER INSERT) updates the users of that email.
    The SQL editor runs with [auth.uid()] NULL. *)
Definition migrate_roles_row (iu : nat * User) (db : DB) : DbError + DB :=
  let e := user_email iu.2 in
  match db_roles db !! e with
  | Some _ => inr db
  | None =>
      users_update trigger_depth None (fun _ u => bool_decide (user_email u = e)) (with_role (user_role iu.2))
        true (set_roles (<[e := mkRoleRow (user_role iu.2) (user_created_at iu.2) (db_clock db)]> (db_roles db)) db)
  end.

(** The statement, over the users rows it selects. *)
Definition migrate_user_roles (db : DB) : DbError + DB :=
  fold_result migrate_roles_row (map_to_list (db_users db)) db.

(** The user_roles rows already present agree with the users of their email. *)
Definition roles_agree (db : DB) : Prop :=
  forall e row i u, db_roles db !! e = Some row -> db_users db !! i = Some u -> user_email u = e ->
    rr_role row = user_role u.

Lemma handler_roles_kept q : writes_roles q = false -> all_steps roles_kept (handler q).
Proof.
  destruct q; simpl; intros Hw; try discriminate;
    unfold get_me, get_users, get_roles, get_faculties, create_slot, get_available, book_slot,
      get_my_bookings, get_my_slots, delete_slot, guarded, authenticated;
    frame_steps; unfold slots_insert, slots_book, slots_delete in *; repeat case_match; simplify_eq; done.
Qed.

Lemma roles_kept_inv db db' : roles_kept db db' -> role_inv db -> role_inv db'.
Proof.
  intros [Hu Hr] [Hok Hs]. split; [by rewrite Hu|]. intros i u Hi. rewrite Hr. apply (Hs i). by rewrite <- Hu.
Qed.

(** The unique-key checks of an UPDATE look at the other rows only. *)
Lemma email_taken_insert_self us i u v :
  email_taken (<[i := v]> us) i u = false -> email_taken us i u = false.
Proof.
  unfold email_taken. rewrite !existsb_false_forall, !Forall_forall.
  intros H [j w] Hj%elem_of_map_to_list. destruct (decide (j = i)) as [->|Hne].
  - apply bool_decide_eq_false. simpl. tauto.
  - apply (H (j, w)), elem_of_map_to_list. by rewrite lookup_insert_ne.
Qed.

Lemma google_id_taken_insert_self us i u v :
  google_id_taken (<[i := v]> us) i u = false -> google_id_taken us i u = false.
Proof.
  unfold google_id_taken. destruct (user_google_id u) as [g|]; [|done].
  rewrite !existsb_false_forall, !Forall_forall.
  intros H [j w] Hj%elem_of_map_to_list. destruct (decide (j = i)) as [->|Hne].
  - apply bool_decide_eq_false. simpl. tauto.
  - apply (H (j, w)), elem_of_map_to_list. by rewrite lookup_insert_ne.
Qed.

(** An UPDATE of the one row [i] either fails on a unique key or
    succeeds, keeping the constraints, with the closed form of its
    cascade. *)
Lemma users_update_single_outcome d sel f db i u :
  users_ok (db_users db) -> db_users db !! i = Some u -> sel i u = true ->
  (forall j w, db_users db !! j = Some w -> sel j w = true -> j = i) ->
  users_update (S (S (S d))) service_role_uid sel f true db = inl UniqueViolation \/
  (users_ok (<[i := f u]> (db_users db)) /\
   users_update (S (S (S d))) service_role_uid sel f true db =
   inr (let db1 := set_users (<[i := f u]> (db_users db)) db in
        if bool_decide (user_role u = user_role (f u)) then db1
        else set_roles (<[user_email (f u) :=
               upserted_role_row (db_roles db !! user_email (f u)) (user_role (f u))
                 (db_clock db) (db_clock db)]> (db_roles db)) db1)).
Proof.
  intros Hok Hi Hs Hu.
  destruct (google_id_taken (<[i := f u]> (db_users db)) i (f u) ||
            email_taken (<[i := f u]> (db_users db)) i (f u)) eqn:E.
  - left. apply (users_update_taken _ _ _ _ _ _ i u); auto using prevent_self_role_change_service.
  - right. apply orb_false_iff in E as [Eg Ee].
    assert (Hok' : users_ok (<[i := f u]> (db_users db))).
    { apply users_ok_insert_untaken; [done|by eapply email_taken_insert_self|
        by eapply google_id_taken_insert_self]. }
    split; [done|]. apply users_update_synced; auto.
Qed.

Lemma upserted_role_row_role old r ts now : rr_role (upserted_role_row old r ts now) = r.
Proof. by destruct old. Qed.

(** The role row of [e] and the users of other emails survive a write
    of the row of [e]. *)
Lemma synced_other_email db i u e row :
  users_ok (db_users db) -> roles_synced db -> db_users db !! i = Some u -> user_email u = e ->
  forall j w, db_users db !! j = Some w -> j <> i ->
    exists row', <[e := row]> (db_roles db) !! user_email w = Some row' /\ rr_role row' = user_role w.
Proof.
  intros Hok Hs Hi He j w Hj Hne. rewrite lookup_insert_ne; [by apply (Hs j)|].
  intros Heq. apply Hne. apply (proj1 Hok j i w u); congruence.
Qed.

(** [save_user] keeps the invariant when the role row of the payload's
    email holds the role it is given. *)
Lemma save_user_inv p r now db :
  role_inv db -> (exists row, db_roles db !! p_email p = Some row /\ rr_role row = r) ->
  role_inv (snd (run (save_user p r now) db)).
Proof.
  intros [Hok Hs] (row & Hrow & Hr). unfold save_user. rewrite run_bind, run_query.
  destruct (select_where _ (db_users db)) as [|[i u] [|x l]] eqn:Hsel; simpl.
  - unfold insert_new_user, users_insert.
    destruct (google_id_taken _ _ _ || email_taken _ _ _) eqn:E; simpl; [done|].
    apply orb_false_iff in E as [Eg Ee]. split; [by apply users_ok_insert_untaken|].
    intros j w Hj. simpl in Hj. rewrite lookup_insert in Hj. case_decide; simplify_eq/=; [by exists row|].
    by apply (Hs j).
  - assert (Hin : (i, u) ∈ select_where (fun _ w => bool_decide (user_email w = p_email p)) (db_users db))
      by (rewrite Hsel; constructor).
    apply elem_of_select_where in Hin as [Hi He%bool_decide_eq_true].
    unfold refresh_user. rewrite trigger_depth_unfold.
    destruct (users_update_single_outcome (S 28) (fun j _ => bool_decide (j = i)) (login_refresh p r now) db i u)
      as [E | [Hok' E]]; [done|done|by apply bool_decide_eq_true|by intros j w _ ->%bool_decide_eq_true|..];
      rewrite E; simpl; [done|].
    destruct (decide (user_role u = r)) as [Hru|Hru];
      [rewrite !bool_decide_eq_true_2 by done|rewrite !bool_decide_eq_false_2 by done];
      simpl; rewrite lookup_insert_eq; simpl; (split; [done|]);
      intros j w Hj; simpl in Hj; rewrite lookup_insert in Hj; case_decide; simplify_eq/=.
    + exists row. by rewrite He.
    + by apply (Hs j).
    + rewrite lookup_insert_eq. eexists. split; [done|]. by rewrite upserted_role_row_role.
    + by apply (synced_other_email db i u _ _ Hok Hs Hi eq_refl j).
  - done.
Qed.

Lemma dual_write_inv e r ts db : role_inv db -> role_inv (dual_write e r ts db).
Proof. intros [Hok Hs]. split; [by apply dual_write_users_ok|by apply dual_write_synced]. Qed.

#[local] Hint Resolve dual_write_inv : sched.

(** [PATCH /users/:userId/role] leaves the store as it was or performs
    one dual write. *)
Lemma patch_user_role_inv tok t role now db :
  role_inv db -> role_inv (snd (run (patch_user_role tok t role now) db)).
Proof.
  intros Hinv. pose proof (proj1 Hinv) as Hok. unfold patch_user_role, guarded, authenticated.
  destruct tok as [uid|]; simpl; [|done]. destruct (db_users db !! uid) as [me|]; simpl; [|done].
  case_bool_decide; simpl; [|done]. destruct (body_role role) as [r|]; simpl; [|done].
  case_bool_decide; simpl; [done|]. destruct (db_users db !! t) as [tu|] eqn:Ht; simpl; [|done].
  rewrite roles_upsert_trigger_depth by done. simpl.
  rewrite users_update_by_id_after_dual_write by done. simpl.
  rewrite (dual_write_lookup_user r now db t tu Hok Ht). simpl. eauto with sched.
Qed.

(** [POST /users/roles/email] likewise. *)
Lemma post_role_by_email_inv tok e role now db :
  role_inv db -> role_inv (snd (run (post_role_by_email tok e role now) db)).
Proof.
  intros Hinv. pose proof (proj1 Hinv) as Hok. unfold post_role_by_email, guarded, authenticated.
  destruct tok as [uid|]; simpl; [|done]. destruct (db_users db !! uid) as [me|]; simpl; [|done].
  case_bool_decide; simpl; [|done]. destruct (negb _); simpl; [done|].
  destruct e as [e|], (body_role role) as [r|]; simpl; try done.
  case_bool_decide; simpl; [done|].
  rewrite roles_upsert_trigger_depth by done. simpl.
  destruct (dual_write_role_row e r now db) as (row & -> & _). simpl.
  destruct (user_by_email e (dual_write e r now db)); simpl; [|eauto with sched].
  rewrite trigger_depth_unfold, users_update_after_dual_write by done. simpl. eauto with sched.
Qed.

(** Sign-in: [resolve_role] may insert the default row (one dual
    write); [save_user] then writes the user with that row's role. *)
Lemma google_login_inv t v now db :
  role_inv db -> role_inv (snd (run (google_login t v now) db)).
Proof.
  intros Hinv. destruct t as [t|]; [|done]. destruct v as [p|]; [|done].
  unfold google_login. rewrite run_bind, resolve_role_spec by apply Hinv. cbv beta iota.
  rewrite run_bind.
  assert (Hrow : exists row, db_roles (match db_roles db !! p_email p with
                                       | Some _ => db
                                       | None => dual_write (p_email p) Scholar (db_clock db) db end)
                               !! p_email p = Some row /\ rr_role row = get_user_role (p_email p) db).
  { unfold get_user_role. destruct (db_roles db !! p_email p) as [row|] eqn:E; [by exists row|].
    apply dual_write_role_row. }
  assert (Hinv1 : role_inv (match db_roles db !! p_email p with
                            | Some _ => db
                            | None => dual_write (p_email p) Scholar (db_clock db) db end))
    by (destruct (db_roles db !! p_email p); eauto with sched).
  pose proof (save_user_inv p (get_user_role (p_email p) db) now _ Hinv1 Hrow) as Hsave.
  destruct (run (save_user _ _ now) _) as [[|[i u]] db2]; done.
Qed.

Lemma serve_role_inv q db : role_inv db -> role_inv (snd (serve q db)).
Proof.
  intros H. destruct (writes_roles q) eqn:Hw.
  - destruct q; try discriminate; unfold serve; simpl;
      [apply google_login_inv|apply patch_user_role_inv|apply post_role_by_email_inv]; done.
  - eapply roles_kept_inv; [|exact H]. unfold serve. apply all_steps_run; [apply _|].
    by apply handler_roles_kept.
Qed.

Lemma role_inv_mirror db i u :
  role_inv db -> db_users db !! i = Some u -> get_user_role (user_email u) db = user_role u.
Proof. intros [_ Hs] Hi. destruct (Hs i u Hi) as (row & Hrow & Hr). unfold get_user_role. by rewrite Hrow. Qed.

(** C20: The role model of spec section 3 holds in every store reachable
    by serving requests one at a time: emails and Google ids are unique
    and every user's role is the role of the user_roles row of its
    email. *)
Theorem reachable_role_inv db0 db :
  role_inv db0 -> rtc step db0 db -> role_inv db.
Proof. apply rtc_step_preserves, serve_role_inv. Qed.

(** In every reachable store, signing in never changes the role of
    an existing user: the login answers with the role the users row
    already holds, and the row keeps it. *)
Theorem reachable_login_keeps_role db0 db tok p now i u :
  role_inv db0 -> rtc step db0 db -> google_id_free p db ->
  db_users db !! i = Some u -> user_email u = p_email p ->
  exists j w db',
    run (google_login (Some tok) (Some p) now) db =
      (mkResponse 200 (JAuth (mkClaims j (p_email p) (user_role u)) j w), db') /\
    db_users db' !! j = Some w /\ user_role w = user_role u.
Proof.
  intros H0 Hr Hfree Hi He. pose proof (rtc_step_preserves role_inv db0 db serve_role_inv H0 Hr) as Hinv.
  pose proof (role_inv_mirror db i u Hinv Hi) as Hm. rewrite He in Hm.
  destruct (google_login_role tok p now db (proj1 Hinv) Hfree) as (j & w & db' & Hrun & Hj & _ & Hw).
  rewrite Hm in Hrun, Hw. by exists j, w, db'.
Qed.

(** C24: The role round trip of spec section 8: after an admin assigns
    role [r] to an email (with or without a user), the next sign-in with
    that email answers with role [r] and stores it in the user's row. *)
Theorem role_assignment_roundtrip uid me e rs r now tok p now' db :
  users_ok (db_users db) -> db_users db !! uid = Some me -> user_role me = Admin ->
  e <> user_email me -> e <> "" -> parse_role rs = Some r ->
  p_email p = e -> google_id_free p db ->
  exists i u db2,
    serve (GoogleLogin (Some tok) (Some p) now')
      (snd (serve (PostRoleByEmail (Some uid) (Some e) (Some rs) now) db)) =
      (mkResponse 200 (JAuth (mkClaims i e r) i u), db2) /\
    db_users db2 !! i = Some u /\ user_role u = r.
Proof.
  intros Hok Hme Ha Hne He Hr Hp Hfree. unfold serve at 2. cbn [handler].
  destruct (post_role_by_email_ok uid me e rs r now db) as [b Hrun]; [done..|].
  rewrite Hrun. cbn [snd]. unfold serve. cbn [handler].
  destruct (google_login_role tok p now' (dual_write e r now db)) as (i & u & db2 & Hl & Hi & _ & Hu).
  - by apply dual_write_users_ok.
  - eapply google_id_free_keys; [apply dual_write_keys|done].
  - rewrite Hp, get_user_role_dual_write in Hl, Hu. by exists i, u, db2.
Qed.

(** ** The migration that creates user_roles *)

Lemma migrate_roles_row_step db0 i u d :
  users_ok (db_users db0) -> db_users db0 !! i = Some u ->
  db_users d = db_users db0 -> roles_agree d ->
  exists d', migrate_roles_row (i, u) d = inr d' /\ (db_users d' = db_users db0 /\ roles_agree d') /\
    is_Some (db_roles d' !! user_email u) /\
    (forall e, is_Some (db_roles d !! e) -> is_Some (db_roles d' !! e)).
Proof.
  intros Hok Hi Hu Ha. unfold migrate_roles_row. simpl.
  destruct (db_roles d !! user_email u) as [row|] eqn:Hr; [exists d; split_and!; eauto|].
  rewrite trigger_depth_unfold, (users_update_one _ _ _ _ _ _ i u); simpl; rewrite ?Hu; try done.
  - rewrite with_role_id, insert_id, bool_decide_eq_true_2 by (rewrite ?Hu; done). simpl.
    eexists; split_and!; [reflexivity|done| |simpl; rewrite lookup_insert_eq; by eexists|].
    + intros e row' j w. simpl. rewrite lookup_insert. case_decide as He; [intros [= <-]|].
      * intros Hj Hw. simpl. subst e. assert (j = i) as -> by (eapply (proj1 Hok); eauto). congruence.
      * intros Hrow Hj Hw. apply (Ha e row' j w Hrow); [by rewrite Hu|done].
    + intros e. simpl. rewrite lookup_insert_is_Some'. auto.
  - by apply bool_decide_eq_true.
  - intros j w Hj Hw%bool_decide_eq_true. eapply (proj1 Hok); eauto.
  - by rewrite with_role_id, insert_id.
  - unfold prevent_self_role_change. by rewrite andb_false_r.
Qed.

(** C21: The migration starts the role model: on a users table whose
    keys are unique, and whose emails already in user_roles (none on a
    fresh install) carry the users' roles, the migration succeeds,
    leaves users as they were, and every store reachable from it by
    serving requests one at a time satisfies [role_inv]. *)
Theorem migration_establishes_role_inv db :
  users_ok (db_users db) -> roles_agree db ->
  exists db1, migrate_user_roles db = inr db1 /\ db_users db1 = db_users db /\
    forall db2, rtc step db1 db2 -> role_inv db2.
Proof.
  intros Hok Ha. unfold migrate_user_roles.
  destruct (fold_result_each (fun d => db_users d = db_users db /\ roles_agree d)
              (fun iu d => is_Some (db_roles d !! user_email iu.2)) migrate_roles_row
              (map_to_list (db_users db)) db) as (db1 & -> & [Hu Ha1] & Hall & _); [done| |].
  { intros [i u] d Hin [Hd Had]. apply elem_of_map_to_list in Hin.
    destruct (migrate_roles_row_step db i u d) as (d' & ? & ? & ? & ?); eauto 10. }
  exists db1. split_and!; [done|done|]. intros db2. apply rtc_step_preserves; [apply serve_role_inv|].
  split; [by rewrite Hu|]. intros i u Hi. rewrite Hu in Hi.
  destruct (Hall (i, u)) as [row Hrow]; [by apply elem_of_map_to_list|].
  exists row. split; [done|]. apply (Ha1 (user_email u) row i u); by rewrite ?Hu.
Qed.
