(* ===== verification/Witnesses.v ===== *)
(** Concrete runs of the theorems: for each theorem with hypotheses,
    a store and inputs where the hypotheses hold, checked by
    computation, and the theorem applied there. *)

From stdpp Require Import pretty.
From S2P Require Import Prelude Proc Schema Store Api Auth Users Calendar GoogleAuth Slots Policies Concurrency System Frontend Pages Views RoleSync.

(** ** A small store: a faculty, two scholars, an admin; two slots *)

Definition w_faculty : User := mkUser "f@x.com" "F" None (Some "gf") Faculty 0 0.
Definition w_scholar : User := mkUser "s@x.com" "S" None (Some "gs") Scholar 0 0.
Definition w_scholar2 : User := mkUser "t@x.com" "T" None (Some "gt") Scholar 0 0.
Definition w_admin : User := mkUser "a@x.com" "A" None (Some "ga") Admin 0 0.

Definition w_day : Z := 20148.  (** 2025-03-01 *)

Definition w_slot_free : Slot :=
  mkSlot 0 None w_day 32400 36000 Available None None 0 0.
Definition w_slot_booked : Slot :=
  mkSlot 0 (Some 2) w_day 39600 43200 Booked None (Some "https://meet.google.com/abc-defg-hij") 0 0.

Definition w_slot_cancelled : Slot :=
  mkSlot 0 None w_day 46800 50400 Cancelled None None 0 0.

Definition w_db : DB :=
  mkDB (<[0 := w_faculty]> (<[1 := w_scholar]> (<[2 := w_scholar2]> (<[3 := w_admin]> ∅))))
       (<["f@x.com" := mkRoleRow Faculty 0 0]> (<["s@x.com" := mkRoleRow Scholar 0 0]>
         (<["t@x.com" := mkRoleRow Scholar 0 0]> (<["a@x.com" := mkRoleRow Admin 0 0]> ∅))))
       (<[10 := w_slot_free]> (<[11 := w_slot_booked]> (<[12 := w_slot_cancelled]> ∅)))
       20 1000.

(** A Calendar API that answers with a Meet link, and draws of [Math.random]. *)
Definition w_insert (_ : CalendarEvent) : option CalendarResponse :=
  Some (mkCalendarResponse "ev1" (Some "https://meet.google.com/xyz-abcd-efg") None "html").
Definition w_api : EventDetails -> option MeetResult := create_calendar_event_with_meet w_insert 1000.
Definition w_draws (k : nat) : Z := (Z.of_nat (k mod 26) * 2 ^ 48)%Z.

(** A Calendar API that is down, and one that answers without a video entry point. *)
Definition w_api_down : EventDetails -> option MeetResult :=
  create_calendar_event_with_meet (fun _ => None) 1000.
Definition w_api_nolink : EventDetails -> option MeetResult :=
  create_calendar_event_with_meet (fun _ => Some (mkCalendarResponse "ev2" None None "html")) 1000.

Definition w_payload : Payload := mkPayload "new@x.com" "N" None "gn".

Definition w_next_day : Z := ((w_day + 1) * ms_per_day)%Z.

(** The store without its cancelled slot: the shape every route keeps. *)
Definition w_core : DB := set_slots (delete 12 (db_slots w_db)) w_db.

Definition w_run : list Request :=
  [BookSlot (Some 1) 10 (Some "notes") 0 w_api w_draws;
   DeleteSlot (Some 0) 11;
   BookSlot (Some 2) 10 None 0 w_api_down w_draws;
   CreateSlot (Some 0) (Some (w_next_day + 32400000)%Z) (Some (w_next_day + 36000000)%Z)
     (Some w_next_day) 0;
   PatchUserRole (Some 3) 1 (Some "faculty") 9].

Definition serve_all (qs : list Request) (db : DB) : DB := foldl (fun d q => snd (serve q d)) db qs.

Definition w_form : SlotForm := mkSlotForm (w_day + 1) 32400 36000.

Definition w_fpage : FacultySlotsState := mkFacultySlotsState (Some []) false true (Some w_form).

(** A form that clashes with slot 10 (09:00-10:00 on [w_day]). *)
Definition w_form_clash : SlotForm := mkSlotForm w_day 34200 37800.
Definition w_fpage_clash : FacultySlotsState := mkFacultySlotsState (Some []) false true (Some w_form_clash).

Definition w_apage : AvailableSlotsState := mkAvailableSlotsState (Some []) true None None None.

Definition w_bpage : ScholarBookingsState := mkScholarBookingsState (Some []) true.

Definition w_payload_s : Payload := mkPayload "s@x.com" "S" None "gs".

(** An UPDATE that gives user 2 the email of user 1. *)
Definition w_rename (u : User) : User :=
  mkUser "s@x.com" (user_name u) (user_picture u) (user_google_id u) (user_role u)
         (user_created_at u) (user_last_login u).

(** User 1, signed in to the store directly, renames itself. *)
Definition w_newname (u : User) : User :=
  mkUser (user_email u) "S2" (user_picture u) (user_google_id u) (user_role u)
         (user_created_at u) (user_last_login u).

Definition w_db_renamed : DB := set_users (<[1 := w_newname w_scholar]> (db_users w_db)) w_db.

(** The store before the migration: users, and no user_roles rows. *)
Definition w_premigration : DB := set_roles ∅ w_db.

(** The booked slot 11 made available again, and a row that no route
    would insert: slot of the admin, booked by scholar 1, ending before
    it starts. *)
Definition w_slot_unbooked : Slot :=
  mkSlot 0 None w_day 39600 43200 Available None None 0 0.
Definition w_slot_foreign : Slot :=
  mkSlot 3 (Some 1) w_day 43200 39600 Booked None None 0 0.

Lemma w_draws_range j : (0 <= w_draws j < rand_scale)%Z.
Proof. unfold w_draws, rand_scale. pose proof (Nat.mod_upper_bound j 26). lia. Qed.

Lemma w_slots_fk : slots_fk w_db.
Proof.
  unfold slots_fk, w_db, w_slot_free, w_slot_booked, w_slot_cancelled. cbn [db_slots db_users].
  repeat apply map_Forall_insert_2; try apply map_Forall_empty; cbn [slot_faculty_id slot_scholar_id];
    (split; [by eexists|intros j Hj; simplify_eq; by eexists]).
Qed.

Lemma w_users_ok : users_ok (db_users w_db).
Proof. apply users_okb_sound. vm_compute. reflexivity. Qed.

(** ** Witnesses *)

Lemma roles_upsert_dual_write_witness :
  users_ok (db_users w_db) /\
  roles_upsert 4 service_role_uid "s@x.com" Faculty 5 w_db = inr (dual_write "s@x.com" Faculty 5 w_db).
Proof. split; [exact w_users_ok|]. apply (roles_upsert_dual_write 0). exact w_users_ok. Defined.

Lemma patch_user_role_self_witness :
  db_users w_db !! 3 = Some w_admin /\ body_role (Some "faculty") = Some Faculty /\
  exists msg, run (patch_user_role (Some 3) 3 (Some "faculty") 9) w_db = (mkResponse 403 (JError msg), w_db).
Proof.
  split_and!; [reflexivity|reflexivity|].
  apply (patch_user_role_self 3 w_admin (Some "faculty") Faculty); reflexivity.
Defined.

Lemma post_role_by_email_self_witness :
  db_users w_db !! 3 = Some w_admin /\ parse_role "scholar" = Some Scholar /\
  exists msg,
    run (post_role_by_email (Some 3) (Some (user_email w_admin)) (Some "scholar") 9) w_db =
      (mkResponse 403 (JError msg), w_db) \/
    run (post_role_by_email (Some 3) (Some (user_email w_admin)) (Some "scholar") 9) w_db =
      (mkResponse 400 (JError msg), w_db).
Proof.
  split_and!; [reflexivity|reflexivity|].
  apply (post_role_by_email_self 3 w_admin "scholar" Scholar); reflexivity.
Defined.

Lemma patch_user_role_ok_witness :
  users_ok (db_users w_db) /\ db_users w_db !! 1 = Some w_scholar /\
  run (patch_user_role (Some 3) 1 (Some "faculty") 9) w_db =
    (mkResponse 200 (JUser 1 (with_role Faculty w_scholar)), dual_write "s@x.com" Faculty 9 w_db).
Proof.
  split_and!; [exact w_users_ok|reflexivity|].
  apply (patch_user_role_ok 3 w_admin); (exact w_users_ok || reflexivity || discriminate).
Defined.

Lemma overlaps_query_iff_witness :
  (34200 < 37800)%Z /\ (slot_start_time w_slot_free < slot_end_time w_slot_free)%Z /\
  (overlaps_query 34200 37800 w_slot_free = true <->
   (slot_start_time w_slot_free < 37800 /\ 34200 < slot_end_time w_slot_free)%Z).
Proof.
  split_and!; [vm_compute; reflexivity|vm_compute; reflexivity|].
  apply overlaps_query_iff; vm_compute; reflexivity.
Defined.

Lemma create_slot_disjoint_witness :
  slots_wf (db_slots w_db) /\ slots_disjoint (db_slots w_db) /\
  slots_wf (db_slots (snd (run (create_slot (Some 0) (Some (w_day * ms_per_day + 50400000)%Z)
      (Some (w_day * ms_per_day + 54000000)%Z) (Some (w_day * ms_per_day)%Z) 0) w_db))) /\
  slots_disjoint (db_slots (snd (run (create_slot (Some 0) (Some (w_day * ms_per_day + 50400000)%Z)
      (Some (w_day * ms_per_day + 54000000)%Z) (Some (w_day * ms_per_day)%Z) 0) w_db))).
Proof.
  assert (Hok : slots_wf (db_slots w_db) /\ slots_disjoint (db_slots w_db))
    by (apply slots_okb_sound; vm_compute; reflexivity).
  destruct Hok as [Hw Hd]. split_and!; [exact Hw|exact Hd|..];
  apply create_slot_disjoint; try assumption; intros st' et' [= <-] [= <-]; vm_compute; reflexivity.
Defined.

Lemma book_slot_ok_witness :
  db_users w_db !! 1 = Some w_scholar /\ db_slots w_db !! 10 = Some w_slot_free /\
  db_users w_db !! 0 = Some w_faculty /\
  let link := create_real_google_meet 0 w_api w_draws w_slot_free (Some w_faculty) w_scholar in
  let b := mkSlot 0 (Some 1) (slot_date w_slot_free) (slot_start_time w_slot_free)
             (slot_end_time w_slot_free) Booked (Some "demo")
             (match link with Some l => Some l | None => None end)
             (slot_created_at w_slot_free) 1000 in
  run (book_slot (Some 1) 10 (Some "demo") 0 w_api w_draws) w_db =
    (mkResponse 200 (JBooked 10 b link (generate_calendar_link 0 b w_faculty w_scholar)),
     set_slots (<[10 := b]> (db_slots w_db)) w_db).
Proof.
  split_and!; [reflexivity..|].
  apply (book_slot_ok 1 w_scholar 10 w_slot_free w_faculty); reflexivity.
Defined.

Lemma book_slot_unavailable_witness :
  db_users w_db !! 2 = Some w_scholar2 /\ db_slots w_db !! 11 = Some w_slot_booked /\
  run (book_slot (Some 2) 11 None 0 w_api w_draws) w_db =
    (mkResponse 404 (JError "Slot not available"), w_db).
Proof.
  split_and!; [reflexivity..|].
  apply (book_slot_unavailable 2 w_scholar2); [reflexivity|reflexivity|].
  intros s Hs. vm_compute in Hs. injection Hs as <-. discriminate.
Defined.

Lemma book_slot_once_witness :
  db_users w_db !! 1 = Some w_scholar /\ db_users w_db !! 2 = Some w_scholar2 /\
  db_slots w_db !! 10 = Some w_slot_free /\
  let '(r1, db1) := run (book_slot (Some 1) 10 None 0 w_api w_draws) w_db in
  status r1 = 200%Z /\
  run (book_slot (Some 2) 10 None 0 w_api w_draws) db1 = (mkResponse 404 (JError "Slot not available"), db1) /\
  (exists b, db_slots db1 !! 10 = Some b /\ slot_scholar_id b = Some 1 /\ slot_status b = Booked).
Proof.
  split_and!; [reflexivity..|].
  apply (book_slot_once 1 w_scholar 2 w_scholar2 10 w_slot_free w_faculty); reflexivity.
Defined.

(** ** Concurrent runs *)

Lemma book_slot_race_witness :
  db_users w_db !! 1 = Some w_scholar /\ db_users w_db !! 2 = Some w_scholar2 /\
  db_slots w_db !! 10 = Some w_slot_free /\
  exists r1 r2 db',
    interleave booking_race_schedule w_db
      [book_slot (Some 1) 10 None 0 w_api w_draws; book_slot (Some 2) 10 None 0 w_api w_draws] =
      (db', [Ret r1; Ret r2]) /\
    status r1 = 200%Z /\ status r2 = 200%Z /\
    (exists b1 l1 c1, body r1 = JBooked 10 b1 l1 c1 /\ slot_scholar_id b1 = Some 1) /\
    (exists b, db_slots db' !! 10 = Some b /\ slot_scholar_id b = Some 2 /\ slot_status b = Booked).
Proof.
  split_and!; [reflexivity..|].
  apply (book_slot_race 1 w_scholar 2 w_scholar2 10 w_slot_free w_faculty); reflexivity.
Defined.

Lemma create_slot_race_witness :
  db_users w_db !! 0 = Some w_faculty /\
  exists r1 r2 db',
    interleave creation_race_schedule w_db
      [create_slot (Some 0) (Some (w_next_day + 32400000)%Z) (Some (w_next_day + 36000000)%Z)
         (Some w_next_day) 0;
       create_slot (Some 0) (Some (w_next_day + 34200000)%Z) (Some (w_next_day + 37800000)%Z)
         (Some w_next_day) 0] = (db', [Ret r1; Ret r2]) /\
    status r1 = 201%Z /\ status r2 = 201%Z /\ ~ slots_disjoint (db_slots db').
Proof.
  assert (Hnone : map_Forall (fun _ b => slot_faculty_id b <> 0 \/ slot_date b <> utc_day w_next_day)
                    (db_slots w_db)) by (apply (bool_decide_eq_true _); vm_compute; reflexivity).
  split; [reflexivity|].
  apply (create_slot_race 0 w_faculty); try (vm_compute; reflexivity).
  intros k b Hk. exact (Hnone k b Hk).
Defined.

(** ** Meeting links of a booking *)

Lemma book_slot_fallback_witness :
  db_users w_db !! 1 = Some w_scholar /\ db_slots w_db !! 10 = Some w_slot_free /\
  exists r b a1 a2 a3,
    run (book_slot (Some 1) 10 None 0 w_api_down w_draws) w_db =
      (r, set_slots (<[10 := b]> (db_slots w_db)) w_db) /\
    status r = 200%Z /\ slot_status b = Booked /\ slot_scholar_id b = Some 1 /\
    slot_meeting_link b = Some ("https://meet.google.com/" ++ a1 ++ "-" ++ a2 ++ "-" ++ a3)%string /\
    String.length a1 = 3 /\ String.length a2 = 4 /\ String.length a3 = 3 /\
    lowercase_word (a1 ++ a2 ++ a3)%string = true.
Proof.
  split_and!; [reflexivity..|].
  apply (book_slot_fallback 1 w_scholar 10 w_slot_free w_faculty); try reflexivity.
  exact w_draws_range.
Defined.

Lemma book_slot_without_link_witness :
  db_slots w_db !! 10 = Some w_slot_free /\
  exists r b,
    run (book_slot (Some 1) 10 None 0 w_api_nolink w_draws) w_db =
      (r, set_slots (<[10 := b]> (db_slots w_db)) w_db) /\
    status r = 200%Z /\ slot_status b = Booked /\ slot_meeting_link b = None.
Proof.
  split; [reflexivity|].
  apply (book_slot_without_link 1 w_scholar 10 w_slot_free w_faculty _ _ _ _ _
           (mkMeetResult "ev2" None "html")); reflexivity.
Defined.

(** ** Deletion *)

Lemma delete_slot_booked_witness :
  db_slots w_db !! 11 = Some w_slot_booked /\
  run (delete_slot (Some 0) 11) w_db = (mkResponse 403 (JError "Cannot delete booked slot"), w_db).
Proof.
  split; [reflexivity|].
  apply (delete_slot_booked 0 w_faculty 11 w_slot_booked); (reflexivity || by constructor).
Defined.

Lemma delete_slot_not_owned_witness :
  db_slots w_db !! 10 = Some w_slot_free /\
  run (delete_slot (Some 3) 10) w_db = (mkResponse 404 (JError "Slot not found"), w_db).
Proof.
  split; [reflexivity|].
  apply (delete_slot_not_owned 3 w_admin); [reflexivity|by right; constructor|].
  intros s Hs. vm_compute in Hs. injection Hs as <-. discriminate.
Defined.

Lemma delete_slot_unbooked_witness :
  db_slots w_db !! 12 = Some w_slot_cancelled /\
  run (delete_slot (Some 0) 12) w_db =
    (mkResponse 200 (JMessage "Slot deleted successfully"), set_slots (delete 12 (db_slots w_db)) w_db).
Proof.
  split; [reflexivity|].
  apply (delete_slot_unbooked 0 w_faculty 12 w_slot_cancelled); (reflexivity || discriminate || by constructor).
Defined.

(** ** A slot across midnight *)

Lemma create_slot_inverted_witness :
  (w_next_day + 82800000 < w_next_day + 90000000)%Z /\
  exists i s',
    run (create_slot (Some 0) (Some (w_next_day + 82800000)%Z) (Some (w_next_day + 90000000)%Z)
           (Some w_next_day) 0) w_db =
      (mkResponse 201 (JSlot i s'), bump_next (set_slots (<[i := s']> (db_slots w_db)) w_db)) /\
    ~ slots_wf (db_slots (bump_next (set_slots (<[i := s']> (db_slots w_db)) w_db))).
Proof.
  assert (Hnone : map_Forall (fun _ b => slot_faculty_id b = 0 -> slot_date b = utc_day w_next_day ->
      overlaps_query (time_of_day 0 (w_next_day + 82800000)) (time_of_day 0 (w_next_day + 90000000)) b = false)
      (db_slots w_db)) by (apply (bool_decide_eq_true _); vm_compute; reflexivity).
  split; [vm_compute; reflexivity|].
  apply (create_slot_inverted 0 w_faculty); try (vm_compute; reflexivity || discriminate).
  - by constructor.
  - intros k b Hk. exact (Hnone k b Hk).
Defined.

(** ** Serial executions of the whole system *)

Lemma w_core_inv : system_inv w_core.
Proof. apply system_invb_sound. vm_compute. reflexivity. Qed.

Lemma serve_all_rtc qs db : rtc step db (serve_all qs db).
Proof.
  revert db. induction qs as [|q qs IH]; intros db; [apply rtc_refl|].
  eapply rtc_l; [apply (step_serve q)|]. apply IH.
Qed.

Lemma reachable_system_inv_witness :
  system_inv w_core /\ system_inv (serve_all w_run w_core).
Proof.
  split; [exact w_core_inv|].
  apply (reachable_system_inv w_core); [exact w_core_inv|apply serve_all_rtc].
Defined.

Lemma serial_refines_lifecycle_witness :
  system_inv w_core /\
  rtc slot_transition (db_slots w_core !! 10) (db_slots (serve_all w_run w_core) !! 10).
Proof.
  split; [exact w_core_inv|].
  apply (serial_refines_lifecycle w_core); [exact w_core_inv|apply serve_all_rtc].
Defined.

Lemma booked_slot_stable_witness :
  system_inv w_core /\ db_slots w_core !! 11 = Some w_slot_booked /\
  db_slots (serve_all w_run w_core) !! 11 = Some w_slot_booked.
Proof.
  split_and!; [exact w_core_inv|reflexivity|].
  apply (booked_slot_stable w_core); [exact w_core_inv|apply serve_all_rtc|reflexivity|reflexivity].
Defined.

(** ** The front end *)

Lemma create_form_lists_new_slot_witness :
  db_users w_db !! 0 = Some w_faculty /\ fs_form w_fpage = Some w_form /\
  (let s := mkSlot 0 None (form_date w_form) (form_start w_form) (form_end w_form) Available None None
              (db_clock w_db) (db_clock w_db) in
   let db' := bump_next (set_slots (<[db_next w_db := s]> (db_slots w_db)) w_db) in
   exists l,
     submit_create_slot (Some 0) 0 w_fpage w_db =
       (mkFacultySlotsState (Some l) false false None, [ToastSuccess "Slot created successfully!"], db') /\
     (db_next w_db, s) ∈ l /\
     (forall k b, (k, b) ∈ l <-> db_slots db' !! k = Some b /\ slot_faculty_id b = 0%nat)).
Proof.
  assert (Hw : slots_wf (db_slots w_db) /\ slots_disjoint (db_slots w_db))
    by (apply slots_okb_sound; vm_compute; reflexivity).
  split_and!; [reflexivity|reflexivity|].
  apply (create_form_lists_new_slot 0 w_faculty); try (vm_compute; reflexivity || by constructor).
  - exact (proj1 Hw).
  - intros k b Hk Hf Hd. exfalso. vm_compute in Hk.
    repeat (case_match; simplify_eq); vm_compute in Hd; discriminate.
Defined.

Lemma create_overlap_shows_error_witness :
  db_slots w_db !! 10 = Some w_slot_free /\
  submit_create_slot (Some 0) 0 w_fpage_clash w_db =
    (w_fpage_clash, [ToastError "Time slot overlaps with existing slot"], w_db).
Proof.
  split; [reflexivity|].
  apply (create_overlap_shows_error 0 w_faculty 0 w_form_clash w_fpage_clash w_db 10 w_slot_free);
    try (vm_compute; reflexivity || by constructor); simpl; lia.
Defined.

Lemma booking_hides_slot_witness :
  db_slots w_db !! 10 = Some w_slot_free /\
  (let link := create_real_google_meet 0 w_api w_draws w_slot_free (Some w_faculty) w_scholar in
   let db' := set_slots (<[10 := booked_row 1 None link (db_clock w_db) w_slot_free]> (db_slots w_db)) w_db in
   exists l cal,
     book_slot_clicked (user_role w_scholar) (Some 1) 10 0 w_api w_draws 1000 w_apage w_db =
       (mkAvailableSlotsState (Some l) false (as_date w_apage) (as_faculty w_apage) (as_faculties w_apage),
        [ToastBooked link (Some cal)], db') /\
     (forall j b, (j, b) ∈ l -> j <> 10%nat /\ db_slots db' !! j = Some b /\ slot_status b = Available)).
Proof. split; [reflexivity|]. apply (booking_hides_slot 1 w_scholar 10 w_slot_free w_faculty); reflexivity. Defined.

Lemma fetched_lists_defined_witness :
  is_Some (fs_slots w_fpage) /\
  is_Some (fs_slots (fetch_my_slots (Some 1) w_fpage w_db).1.1) /\
  is_Some (as_slots (fetch_available (Some 1) 1000 w_apage w_db).1.1) /\
  is_Some (sb_bookings (fetch_bookings (Some 1) w_bpage w_db).1.1).
Proof.
  split; [by eexists|]. apply fetched_lists_defined; by eexists.
Defined.

Lemma create_form_keeps_disjoint_witness :
  slots_wf (db_slots w_db) /\ slots_disjoint (db_slots w_db) /\
  slots_wf (db_slots (snd (serve (create_request (Some 0) 0 w_form) w_db))) /\
  slots_disjoint (db_slots (snd (serve (create_request (Some 0) 0 w_form) w_db))).
Proof.
  assert (Hw : slots_wf (db_slots w_db) /\ slots_disjoint (db_slots w_db))
    by (apply slots_okb_sound; vm_compute; reflexivity).
  destruct Hw as [Hw Hd]. split_and!; [exact Hw|exact Hd|..];
    apply create_form_keeps_disjoint; (vm_compute; reflexivity) || done || (vm_compute; discriminate).
Defined.

Lemma available_page_lists_all_witness :
  fst (run (get_available (Some 1) None None 0) w_db) = mkResponse 200 (JSlots [(10, w_slot_free)]) /\
  concat (map snd (group_slots_by_date [(10, w_slot_free)])) = [(10, w_slot_free)].
Proof.
  assert (H : fst (run (get_available (Some 1) None None 0) w_db) = mkResponse 200 (JSlots [(10, w_slot_free)]))
    by (vm_compute; reflexivity).
  split; [exact H|]. exact (available_page_lists_all (Some 1) None None 0 w_db _ H).
Defined.

Lemma page_gates_match_api_witness :
  db_users w_db !! 1 = Some w_scholar /\
  (app false (Some (user_role w_scholar)) "/my-bookings" = Show ScholarBookingsPage <->
     status (fst (run (get_my_bookings (Some 1)) w_db)) <> 403%Z) /\
  (app false (Some (user_role w_scholar)) "/faculty/slots" = Show FacultySlotsPage <->
     status (fst (run (get_my_slots (Some 1)) w_db)) <> 403%Z) /\
  (app false (Some (user_role w_scholar)) "/admin" = Show AdminPanelPage <->
     status (fst (run (get_users (Some 1)) w_db)) <> 403%Z).
Proof. split; [reflexivity|]. apply page_gates_match_api. reflexivity. Defined.

Lemma book_button_matches_api_witness :
  db_users w_db !! 3 = Some w_admin /\
  (handle_book_slot (user_role w_admin) (Some 3) 10 0 w_api w_draws = None <->
   status (fst (run (book_slot (Some 3) 10 None 0 w_api w_draws) w_db)) = 403%Z).
Proof. split; [reflexivity|]. apply book_button_matches_api. reflexivity. Defined.


Lemma faculty_page_deletes_available_witness :
  fst (run (get_my_slots (Some 0)) w_db) =
    mkResponse 200 (JSlots [(10, w_slot_free); (11, w_slot_booked); (12, w_slot_cancelled)]) /\
  handle_delete_slot true (Some 0) 10 = Some (DeleteSlot (Some 0) 10) /\
  slot_status w_slot_free = Available /\
  serve (DeleteSlot (Some 0) 10) w_db =
    (mkResponse 200 (JMessage "Slot deleted successfully"), set_slots (delete 10 (db_slots w_db)) w_db).
Proof.
  assert (H : fst (run (get_my_slots (Some 0)) w_db) =
    mkResponse 200 (JSlots [(10, w_slot_free); (11, w_slot_booked); (12, w_slot_cancelled)]))
    by (vm_compute; reflexivity).
  split; [exact H|].
  apply (faculty_page_deletes_available 0 w_faculty w_db
           [(10, w_slot_free); (11, w_slot_booked); (12, w_slot_cancelled)] 10 w_slot_free);
    [reflexivity|by constructor|exact H|by constructor|reflexivity].
Defined.

(** ** The role model *)

Lemma w_role_inv : role_inv w_db.
Proof.
  split; [exact w_users_ok|].
  assert (H : map_Forall (fun _ u => option_map rr_role (db_roles w_db !! user_email u) = Some (user_role u))
                (db_users w_db)) by (apply (bool_decide_eq_true _); vm_compute; reflexivity).
  intros i u Hi. specialize (H i u Hi). cbv beta in H.
  destruct (db_roles w_db !! user_email u) as [row|]; [injection H as <-; by exists row|discriminate].
Qed.

Lemma reachable_role_inv_witness : role_inv w_db /\ role_inv (serve_all w_run w_db).
Proof. split; [exact w_role_inv|]. apply (reachable_role_inv w_db); [exact w_role_inv|apply serve_all_rtc]. Defined.

Lemma reachable_login_keeps_role_witness :
  google_id_free w_payload_s (serve_all w_run w_db) /\
  exists j w db',
    run (google_login (Some "t") (Some w_payload_s) 50) (serve_all w_run w_db) =
      (mkResponse 200 (JAuth (mkClaims j (p_email w_payload_s) Faculty) j w), db') /\
    db_users db' !! j = Some w /\ user_role w = Faculty.
Proof.
  assert (Hf : google_id_free w_payload_s (serve_all w_run w_db))
    by (apply (bool_decide_eq_true _); vm_compute; reflexivity).
  split; [exact Hf|].
  apply (reachable_login_keeps_role w_db _ "t" w_payload_s 50 1 (with_role Faculty w_scholar));
    [exact w_role_inv|apply serve_all_rtc|exact Hf|vm_compute; reflexivity|reflexivity].
Defined.

Lemma role_assignment_roundtrip_witness :
  google_id_free w_payload w_db /\
  exists i u db2,
    serve (GoogleLogin (Some "t") (Some w_payload) 20)
      (snd (serve (PostRoleByEmail (Some 3) (Some "new@x.com") (Some "faculty") 9) w_db)) =
      (mkResponse 200 (JAuth (mkClaims i "new@x.com" Faculty) i u), db2) /\
    db_users db2 !! i = Some u /\ user_role u = Faculty.
Proof.
  assert (Hf : google_id_free w_payload w_db) by (apply (bool_decide_eq_true _); vm_compute; reflexivity).
  split; [exact Hf|].
  apply (role_assignment_roundtrip 3 w_admin); (exact w_users_ok || exact Hf || reflexivity || discriminate).
Defined.

(** ** The trigger cascade and the Google helpers *)

Lemma users_update_terminates_witness :
  users_update 3 service_role_uid (fun i _ => bool_decide (i = 2%nat)) w_rename true w_db = inl UniqueViolation /\
  UniqueViolation = UniqueViolation.
Proof.
  assert (H : users_update 3 service_role_uid (fun i _ => bool_decide (i = 2%nat)) w_rename true w_db =
              inl UniqueViolation) by (vm_compute; reflexivity).
  split; [exact H|]. exact (users_update_terminates 0 _ _ _ _ _ H).
Defined.

Lemma service_account_request_id_witness :
  Forall (fun d => d < 36)%nat [1; 35; 10] /\
  exists sfx,
    ce_request_id (service_account_event (event_details 0 w_slot_free w_faculty w_scholar) 1000 [1; 35; 10]) =
      ("meet-" ++ pretty 1000%Z ++ "-" ++ sfx)%string /\
    (String.length sfx <= 9)%nat /\ base36_word sfx = true /\ (sfx = ""%string <-> [1; 35; 10] = @nil nat).
Proof.
  assert (Hd : Forall (fun d => d < 36)%nat [1; 35; 10]) by (repeat constructor; lia).
  split; [exact Hd|]. exact (service_account_request_id _ _ _ Hd).
Defined.

(** ** Row-level security and the migration *)

Lemma rls_users_update_keeps_roles_witness :
  rls_users_update (Some 1) (fun _ _ => true) w_newname true w_db = inr w_db_renamed /\
  db_roles w_db_renamed = db_roles w_db /\
  forall j u', db_users w_db_renamed !! j = Some u' ->
    exists u, db_users w_db !! j = Some u /\ user_role u' = user_role u /\ (j <> 1%nat -> u' = u).
Proof.
  assert (H : rls_users_update (Some 1) (fun _ _ => true) w_newname true w_db = inr w_db_renamed)
    by (vm_compute; reflexivity).
  split; [exact H|]. exact (rls_users_update_keeps_roles 1 _ _ _ _ _ H).
Defined.

Lemma delete_route_vs_policy_witness :
  db_slots w_db !! 12 = Some w_slot_cancelled /\
  (db_slots (rls_slots_delete (Some 0) (fun j _ => bool_decide (j = 12%nat)) w_db) !! 12 = None <->
     slot_status w_slot_cancelled = Available) /\
  (db_slots (snd (run (delete_slot (Some 0) 12) w_db)) !! 12 = None <-> slot_status w_slot_cancelled <> Booked).
Proof.
  split; [reflexivity|]. apply (delete_route_vs_policy 0 w_faculty); (reflexivity || by constructor).
Defined.

Lemma migration_establishes_role_inv_witness :
  users_ok (db_users w_premigration) /\ roles_agree w_premigration /\
  exists db1, migrate_user_roles w_premigration = inr db1 /\ db_users db1 = db_users w_premigration /\
    forall db2, rtc step db1 db2 -> role_inv db2.
Proof.
  assert (Ha : roles_agree w_premigration) by (intros e row i u H; discriminate).
  split_and!; [exact w_users_ok|exact Ha|]. exact (migration_establishes_role_inv w_premigration w_users_ok Ha).
Defined.

Lemma booking_rendered_both_pages_witness :
  slots_fk w_db /\
  create_real_google_meet 0 w_api w_draws w_slot_free (Some w_faculty) w_scholar =
    Some "https://meet.google.com/xyz-abcd-efg"%string /\
  let db' := (book_slot_clicked (user_role w_scholar) (Some 1) 10 0 w_api w_draws 0 w_apage w_db).2 in
  (exists cards c, scholar_bookings_view (db_users db') (fetch_bookings (Some 1) w_bpage db').1.1 =
       Some (ListItems cards) /\ c ∈ cards /\
     bc_id c = 10 /\ bc_faculty c = w_faculty /\ bc_badge c = ("bg-green-100 text-green-800", "booked")%string /\
     bc_meet c = Some "https://meet.google.com/xyz-abcd-efg"%string) /\
  (exists v c, faculty_slots_view 0 (db_users db') (fetch_my_slots (Some (slot_faculty_id w_slot_free)) w_fpage db').1.1 =
       Some v /\ (exists cards, fv_list v = ListItems cards /\ c ∈ cards) /\
     fc_id c = 10 /\ fc_booked_by c = Some w_scholar /\
     fc_meet c = Some "https://meet.google.com/xyz-abcd-efg"%string /\ fc_delete c = false).
Proof.
  split; [exact w_slots_fk|]. split; [vm_compute; reflexivity|].
  apply (booking_rendered_both_pages 1 w_scholar 10 w_slot_free w_faculty _ 0 w_api w_draws 0 w_apage w_bpage w_fpage w_db);
    (reflexivity || exact w_slots_fk || (vm_compute; reflexivity) || discriminate || constructor).
Defined.

Lemma login_page_outcome_witness :
  users_ok (db_users w_db) /\ google_id_free w_payload w_db /\
  exists i u db', handle_google_success (fun _ => Some w_payload) 5 (Some "tok"%string) None w_db = (Some u, [], db') /\
    db_users db' !! i = Some u /\ user_email u = p_email w_payload /\
    user_role u = get_user_role (p_email w_payload) w_db.
Proof.
  assert (Hf : google_id_free w_payload w_db) by (apply (bool_decide_eq_true _); vm_compute; reflexivity).
  split_and!; [exact w_users_ok|exact Hf|].
  exact (login_page_outcome (fun _ => Some w_payload) 5 (Some "tok"%string) None w_db w_users_ok Hf).
Defined.


